(** * Game of Life: a shallow embedding of [main.c] and its properties

    The C program keeps a boolean grid in a flat buffer ([grid]), computes the
    next generation into a second buffer ([next_gen]) and copies it back.  On
    top of that sit an SDL event handler (pause, quit, clear, randomize,
    drawing and erasing with the mouse) and a ghost cursor shown while paused.

    Conventions of the embedding:
    - a C [int] is a [Z] and every arithmetic operation wraps to 32 bits
      ([int_wrap]); [uint32_t] values wrap modulo 2^32;
    - a [bool *] buffer is a [list bool]; reading or writing outside of it,
      and dividing by zero, is undefined behaviour and is modelled by [None];
    - reads of the grid are logged (coordinates and flat index), so that
      statements about which cells a function touches can be made;
    - calls into SDL and libc are recorded in a trace of [call]s. *)

From Stdlib Require Import ZArith Lia Bool String Ascii.
From stdpp Require Import base list.

Local Open Scope Z_scope.

(* ====================================================================== *)
(** ** Machine integers *)
(* ====================================================================== *)

Definition INT_MIN : Z := -2147483648.
Definition INT_MAX : Z := 2147483647.

(** Two's complement wrap-around of a 32-bit [int]. *)
Definition int_wrap (z : Z) : Z := (z + 2 ^ 31) mod 2 ^ 32 - 2 ^ 31.

(** Conversion to [uint32_t]. *)
Definition uint32_wrap (z : Z) : Z := z mod 2 ^ 32.

(** Conversion to a 64-bit [size_t]. *)
Definition size_wrap (z : Z) : Z := z mod 2 ^ 64.

Definition int_add (a b : Z) : Z := int_wrap (a + b).
Definition int_sub (a b : Z) : Z := int_wrap (a - b).
Definition int_mul (a b : Z) : Z := int_wrap (a * b).

Notation "a [+] b" := (int_add a b) (at level 50, left associativity).
Notation "a [-] b" := (int_sub a b) (at level 50, left associativity).
Notation "a [*] b" := (int_mul a b) (at level 40, left associativity).

(* ====================================================================== *)
(** ** Data *)
(* ====================================================================== *)

(** The value of a C floating point number: not-a-number, an infinity, or
    the finite dyadic rational [m * 2^e]. *)
Inductive cfloat : Type :=
  | F_nan
  | F_inf (negative : bool)
  | F_fin (m e : Z).

(** [f <= 0] on floats: false on NaN. *)
Definition float_le0 (f : cfloat) : bool :=
  match f with
  | F_nan => false
  | F_inf negative => negative
  | F_fin m _ => m <=? 0
  end.

(** [(uint32_t)f]: truncation toward zero; undefined when the truncated value
    does not fit. *)
Definition float_to_uint32 (f : cfloat) : option Z :=
  match f with
  | F_fin m e =>
      let t := if 0 <=? e then m * 2 ^ e else Z.quot m (2 ^ (- e)) in
      if (0 <=? t) && (t <? 2 ^ 32) then Some t else None
  | _ => None
  end.

(** [float_of_int i]: an [int] converted to a float (used for defaults). *)
Definition float_of_int (i : Z) : cfloat := F_fin i 0.

(** [struct config]. *)
Record config : Type := mkConfig {
  width : Z;
  height : Z;
  scale : cfloat;
  delay : Z;
  bg_color : Z;
  fg_color : Z;
  cp_color : Z
}.

(** The initial value of the global [C]. *)
Definition default_config : config :=
  {| width := 500; height := 300; scale := float_of_int 3; delay := 20;
     bg_color := 0x000000FF; fg_color := 0xFFFFFFFF; cp_color := 0x444444FF |}.

(** [struct cursor_pixel]. *)
Record cursor_pixel : Type := mkCursor {
  cp_x : Z;
  cp_y : Z;
  prev_x : Z;
  prev_y : Z;
  prev_state : bool;
  active : bool
}.

(** The initial value of the global [cp]. *)
Definition default_cursor : cursor_pixel :=
  {| cp_x := 0; cp_y := 0; prev_x := 0; prev_y := 0;
     prev_state := false; active := false |}.

(** [state_t]. *)
Inductive state_t : Type := RUNNING | PAUSED | QUIT.

Definition state_eqb (a b : state_t) : bool :=
  match a, b with
  | RUNNING, RUNNING | PAUSED, PAUSED | QUIT, QUIT => true
  | _, _ => false
  end.

(* ====================================================================== *)
(** ** Logged, fallible reads *)
(* ====================================================================== *)

(** One read of a buffer: the coordinates passed to [get_cell] and the flat
    index that was dereferenced. *)
Record access : Type := mkAccess { acc_x : Z; acc_y : Z; acc_index : Z }.

(** A computation that reads buffers: it either hits undefined behaviour
    ([None]) or yields a value together with the reads it performed, in
    order. *)
Definition Rd (A : Type) : Type := option (A * list access).

Definition rd_ret {A} (a : A) : Rd A := Some (a, []).

Definition rd_bind {A B} (m : Rd A) (k : A -> Rd B) : Rd B :=
  match m with
  | None => None
  | Some (a, l1) =>
      match k a with
      | None => None
      | Some (b, l2) => Some (b, l1 ++ l2)
      end
  end.

(** The value of a read computation, without its log. *)
Definition rd_value {A} (m : Rd A) : option A :=
  match m with Some (a, _) => Some a | None => None end.

(** The log of a read computation. *)
Definition rd_log {A} (m : Rd A) : list access :=
  match m with Some (_, l) => l | None => [] end.

Declare Scope rd_scope.
Delimit Scope rd_scope with rd.
Notation "x <-- m ; k" := (rd_bind m (fun x => k))
  (at level 20, m at level 100, k at level 200, only parsing) : rd_scope.

(** [g && r] in C, where [g] is a pure test and [r] reads memory: [r] is not
    evaluated when [g] is false. *)
Definition and_then (g : bool) (r : Rd bool) : Rd bool :=
  if g then r else rd_ret false.

Notation "g &&> r" := (and_then g r) (at level 45, right associativity).

(* ====================================================================== *)
(** ** Simulation *)
(* ====================================================================== *)

(** [x * C.height + y], computed on [int]. *)
Definition cell_index (C : config) (x y : Z) : Z := x [*] height C [+] y.

(** [arr[i]]: defined only inside the buffer. *)
Definition buf_read (arr : list bool) (i : Z) : option bool :=
  if i <? 0 then None else arr !! Z.to_nat i.

(** [arr[i] = v]: defined only inside the buffer. *)
Definition buf_write (arr : list bool) (i : Z) (v : bool) : option (list bool) :=
  if (0 <=? i) && (i <? Z.of_nat (length arr))
  then Some (<[Z.to_nat i := v]> arr) else None.

Definition get_cell (C : config) (arr : list bool) (x y : Z) : Rd bool :=
  let i := cell_index C x y in
  match buf_read arr i with
  | Some b => Some (b, [mkAccess x y i])
  | None => None
  end.

Definition set_cell (C : config) (arr : list bool) (x y : Z) (val : bool)
  : option (list bool) :=
  buf_write arr (cell_index C x y) val.

(** [if (c) neighbors++;] *)
Definition count_if (c : Rd bool) (neighbors : Z) : Rd Z :=
  rd_bind c (fun b : bool => rd_ret (if b then neighbors [+] 1 else neighbors)).

Definition is_alive (C : config) (grid : list bool) (x y : Z) : Rd bool :=
  (let neighbors := 0 in
   (* Left *)
   neighbors <-- count_if ((x >? 0) &&> get_cell C grid (x [-] 1) y) neighbors ;
   (* Right *)
   neighbors <-- count_if ((x <? width C [-] 1) &&> get_cell C grid (x [+] 1) y) neighbors ;
   (* Top *)
   neighbors <-- count_if ((y >? 0) &&> get_cell C grid x (y [-] 1)) neighbors ;
   (* Bottom *)
   neighbors <-- count_if ((y <? height C [-] 1) &&> get_cell C grid x (y [+] 1)) neighbors ;
   (* Top-left *)
   neighbors <-- count_if ((x >? 0) &&> (y >? 0) &&>
                           get_cell C grid (x [-] 1) (y [-] 1)) neighbors ;
   (* Top-right *)
   neighbors <-- count_if ((x <? width C [-] 1) &&> (y >? 0) &&>
                           get_cell C grid (x [+] 1) (y [-] 1)) neighbors ;
   (* Bottom-left *)
   neighbors <-- count_if ((x >? 0) &&> (y <? height C [-] 1) &&>
                           get_cell C grid (x [-] 1) (y [+] 1)) neighbors ;
   (* Bottom-right *)
   neighbors <-- count_if ((x <? width C [-] 1) &&> (y <? height C [-] 1) &&>
                           get_cell C grid (x [+] 1) (y [+] 1)) neighbors ;
   (* (Alive) Less than two or more than 3 neighbors -> die *)
   c <-- get_cell C grid x y ;
   if c && ((neighbors <? 2) || (neighbors >? 3)) then rd_ret false else
   (* (Alive) Two or three neighbors -> live *)
   c <-- get_cell C grid x y ;
   if c && ((neighbors =? 2) || (neighbors =? 3)) then rd_ret true else
   (* (Dead) Three neighbors -> live *)
   c <-- get_cell C grid x y ;
   if negb c && (neighbors =? 3) then rd_ret true else
   rd_ret false)%rd.

(** [memset(dst, 0, n)] on a buffer of [bool]: the first [n] cells become
    [false]; undefined when the buffer is shorter than [n]. *)
Definition memset0 (dst : list bool) (n : Z) : option (list bool) :=
  if (0 <=? n) && (n <=? Z.of_nat (length dst))
  then Some (replicate (Z.to_nat n) false ++ drop (Z.to_nat n) dst)
  else None.

(** [memcpy(dst, src, n)]: undefined when either buffer is shorter than [n]. *)
Definition memcpy (dst src : list bool) (n : Z) : option (list bool) :=
  if (0 <=? n) && (n <=? Z.of_nat (length dst)) && (n <=? Z.of_nat (length src))
  then Some (take (Z.to_nat n) src ++ drop (Z.to_nat n) dst)
  else None.

(** [for (int i = lo; i < hi; i++) body(i)], threading a state through the
    iterations and stopping at undefined behaviour.  [for_steps] runs at most
    [n] iterations and has no result when that is not enough; [for_loop]
    gives it as many as [lo .. hi) has. *)
Fixpoint for_steps {S : Type} (n : nat) (i hi : Z) (body : Z -> S -> option S)
  (s : S) : option S :=
  match n with
  | O => if i <? hi then None else Some s
  | Datatypes.S n' =>
      if i <? hi then
        match body i s with
        | Some s' => for_steps n' (i [+] 1) hi body s'
        | None => None
        end
      else Some s
  end.

Definition for_loop {S : Type} (lo hi : Z) (body : Z -> S -> option S) (s : S)
  : option S :=
  for_steps (Z.to_nat (hi - lo)) lo hi body s.

(** The simulation's buffers: the globals [grid], [next_gen] and
    [grid_size]. *)
Record buffers : Type := mkBuffers {
  grid : list bool;
  next_gen : list bool;
  grid_size : Z
}.

Definition with_grid (s : buffers) (g : list bool) : buffers :=
  {| grid := g; next_gen := next_gen s; grid_size := grid_size s |}.

Definition with_next_gen (s : buffers) (g : list bool) : buffers :=
  {| grid := grid s; next_gen := g; grid_size := grid_size s |}.

Definition clear_grid (s : buffers) : option buffers :=
  g ← memset0 (grid s) (grid_size s); Some (with_grid s g).

(** [set_cell(next_gen, i, j, is_alive(i, j))] *)
Definition update_cell (C : config) (i j : Z) (s : buffers) : option buffers :=
  b ← rd_value (is_alive C (grid s) i j);
  g ← set_cell C (next_gen s) i j b;
  Some (with_next_gen s g).

Definition update_grid (C : config) (s : buffers) : option buffers :=
  s ← for_loop 0 (width C) (fun i s =>
         for_loop 0 (height C) (fun j s => update_cell C i j s) s) s;
  g ← memcpy (grid s) (next_gen s) (grid_size s);
  Some (with_grid s g).

(* ====================================================================== *)
(** ** The program state and the calls it makes *)
(* ====================================================================== *)

(** Calls into SDL and libc that leave the program, in program order.  A
    message is recorded by its format string. *)
Inductive call : Type :=
  | SDL_SetRenderDrawColor (r g b a : Z)
  | SDL_RenderClear
  | SDL_RenderDrawPoint (x y : Z)
  | SDL_RenderPresent
  | SDL_Delay (ms : Z)
  | SDL_Init
  | SDL_CreateWindow (cells_w cells_h : Z) (scale : cfloat)
  | SDL_CreateRenderer
  | SDL_RenderSetScale (scale_x scale_y : cfloat)
  | SDL_CreateSystemCursor
  | SDL_SetCursor
  | SDL_DestroyRenderer
  | SDL_DestroyWindow
  | SDL_FreeCursor
  | SDL_Quit
  | srand_time
  | malloc (size : Z)
  | fprintf_stderr (msg : string)
  | printf (msg : string).

(** The step of [sdl_init] that can fail. *)
Inductive sdl_step : Type :=
  | step_Init | step_CreateWindow | step_CreateRenderer
  | step_RenderSetScale | step_CreateSystemCursor.

(** What the outside decides: where SDL's initialization fails (if at all),
    whether [malloc] succeeds, what a fresh block contains, and the values
    [rand] returns. *)
Record environment : Type := mkEnv {
  sdl_fails_at : option sdl_step;
  malloc_succeeds : bool;
  fresh_memory : nat -> bool;
  rand_values : nat -> Z
}.

(** The globals of the program, the two [static] flags of [handle_events],
    the number of [rand] calls made so far and the calls made so far. *)
Record world : Type := mkWorld {
  env : environment;
  C : config;
  cp : cursor_pixel;
  state : state_t;
  bufs : buffers;
  bg_rgba : Z * Z * Z * Z;
  fg_rgba : Z * Z * Z * Z;
  draw_flag : bool;
  erase_flag : bool;
  rand_calls : nat;
  calls : list call
}.

Definition set_C (c : config) (w : world) : world :=
  mkWorld (env w) c (cp w) (state w) (bufs w) (bg_rgba w) (fg_rgba w)
          (draw_flag w) (erase_flag w) (rand_calls w) (calls w).

Definition set_cp (c : cursor_pixel) (w : world) : world :=
  mkWorld (env w) (C w) c (state w) (bufs w) (bg_rgba w) (fg_rgba w)
          (draw_flag w) (erase_flag w) (rand_calls w) (calls w).

Definition set_state (s : state_t) (w : world) : world :=
  mkWorld (env w) (C w) (cp w) s (bufs w) (bg_rgba w) (fg_rgba w)
          (draw_flag w) (erase_flag w) (rand_calls w) (calls w).

Definition set_bufs (b : buffers) (w : world) : world :=
  mkWorld (env w) (C w) (cp w) (state w) b (bg_rgba w) (fg_rgba w)
          (draw_flag w) (erase_flag w) (rand_calls w) (calls w).

Definition set_colors (bg fg : Z * Z * Z * Z) (w : world) : world :=
  mkWorld (env w) (C w) (cp w) (state w) (bufs w) bg fg
          (draw_flag w) (erase_flag w) (rand_calls w) (calls w).

Definition set_draw_flag (f : bool) (w : world) : world :=
  mkWorld (env w) (C w) (cp w) (state w) (bufs w) (bg_rgba w) (fg_rgba w)
          f (erase_flag w) (rand_calls w) (calls w).

Definition set_erase_flag (f : bool) (w : world) : world :=
  mkWorld (env w) (C w) (cp w) (state w) (bufs w) (bg_rgba w) (fg_rgba w)
          (draw_flag w) f (rand_calls w) (calls w).

Definition set_rand_calls (n : nat) (w : world) : world :=
  mkWorld (env w) (C w) (cp w) (state w) (bufs w) (bg_rgba w) (fg_rgba w)
          (draw_flag w) (erase_flag w) n (calls w).

Definition add_calls (cs : list call) (w : world) : world :=
  mkWorld (env w) (C w) (cp w) (state w) (bufs w) (bg_rgba w) (fg_rgba w)
          (draw_flag w) (erase_flag w) (rand_calls w) (calls w ++ cs).

(** The world when [main] starts: the static initializers. *)
Definition initial_world (e : environment) : world :=
  {| env := e; C := default_config; cp := default_cursor; state := RUNNING;
     bufs := {| grid := []; next_gen := []; grid_size := 0 |};
     bg_rgba := (0, 0, 0, 0); fg_rgba := (0, 0, 0, 0);
     draw_flag := false; erase_flag := false; rand_calls := O; calls := [] |}.

(** A command of the program: it changes the world and returns a value, or
    is undefined. *)
Definition M (A : Type) : Type := world -> option (A * world).

Definition m_ret {A} (a : A) : M A := fun w => Some (a, w).

Definition m_bind {A B} (m : M A) (k : A -> M B) : M B :=
  fun w => match m w with Some (a, w') => k a w' | None => None end.

Definition m_get {A} (f : world -> A) : M A := fun w => Some (f w, w).

Definition m_put (f : world -> world) : M unit := fun w => Some (tt, f w).

Definition m_option {A} (o : option A) : M A :=
  fun w => match o with Some a => Some (a, w) | None => None end.

Definition emit (c : call) : M unit := m_put (add_calls [c]).

Definition when (b : bool) (m : M unit) : M unit := if b then m else m_ret tt.

Declare Scope m_scope.
Delimit Scope m_scope with M.
Notation "x <-- m ; k" := (m_bind m (fun x => k))
  (at level 20, m at level 100, k at level 200, only parsing) : m_scope.
Notation "m >> k" := (m_bind m (fun _ => k))
  (at level 90, right associativity, only parsing) : m_scope.

(** A [for] loop over commands. *)
Definition m_for (lo hi : Z) (body : Z -> M unit) : M unit :=
  fun w =>
    match for_loop lo hi
            (fun i w => match body i w with Some (_, w') => Some w' | None => None end)
            w
    with
    | Some w' => Some (tt, w')
    | None => None
    end.

(* ====================================================================== *)
(** ** Utils, simulation commands and SDL *)
(* ====================================================================== *)

Definition extract_color (color : Z) : Z * Z * Z * Z :=
  (Z.land (Z.shiftr color 24) 0xFF,
   Z.land (Z.shiftr color 16) 0xFF,
   Z.land (Z.shiftr color 8) 0xFF,
   Z.land (Z.shiftr color 0) 0xFF).

Definition SetRenderDrawColor (rgba : Z * Z * Z * Z) : call :=
  let '(r, g, b, a) := rgba in SDL_SetRenderDrawColor r g b a.

(** [get_cell(grid, x, y)] as a command. *)
Definition grid_cell (x y : Z) : M bool :=
  (w <-- m_get id ; m_option (rd_value (get_cell (C w) (grid (bufs w)) x y)))%M.

(** [set_cell(grid, x, y, val)] as a command. *)
Definition set_grid_cell (x y : Z) (val : bool) : M unit :=
  (w <-- m_get id ;
   g <-- m_option (set_cell (C w) (grid (bufs w)) x y val) ;
   m_put (set_bufs (with_grid (bufs w) g)))%M.

(** [clear_grid()] as a command. *)
Definition clear_grid_cmd : M unit :=
  (w <-- m_get id ;
   b <-- m_option (clear_grid (bufs w)) ;
   m_put (set_bufs b))%M.

(** [update_grid()] as a command. *)
Definition update_grid_cmd : M unit :=
  (w <-- m_get id ;
   b <-- m_option (update_grid (C w) (bufs w)) ;
   m_put (set_bufs b))%M.

(** [rand()]. *)
Definition rand : M Z :=
  (w <-- m_get id ;
   m_put (set_rand_calls (S (rand_calls w))) >>
   m_ret (rand_values (env w) (rand_calls w)))%M.

Definition fill_grid : M unit :=
  (w <-- m_get id ;
   m_for 0 (width (C w)) (fun i =>
     m_for 0 (height (C w)) (fun j =>
       r <-- rand ;
       set_grid_cell i j (negb (Z.rem r 2 =? 0)))))%M.

Definition clear_screen : M unit :=
  (w <-- m_get id ;
   emit (SetRenderDrawColor (bg_rgba w)) >>
   emit SDL_RenderClear)%M.

Definition update_screen : M unit :=
  (clear_screen >>
   w <-- m_get id ;
   emit (SetRenderDrawColor (fg_rgba w)) >>
   m_for 0 (width (C w)) (fun i =>
     m_for 0 (height (C w)) (fun j =>
       c <-- grid_cell i j ;
       when c (emit (SDL_RenderDrawPoint i j)))) >>
   emit SDL_RenderPresent >>
   emit (SDL_Delay (delay (C w))))%M.

Definition draw_pixel (x y : Z) (color : Z) : M unit :=
  (emit (SetRenderDrawColor (extract_color color)) >>
   emit (SDL_RenderDrawPoint x y) >>
   emit SDL_RenderPresent)%M.

(** [p / (uint32_t)C.scale], stored into an [int]: the pixel coordinate is
    converted to [uint32_t], the division is unsigned, and a zero divisor or
    a scale that does not fit [uint32_t] is undefined. *)
Definition div_scale (c : config) (p : Z) : option Z :=
  d ← float_to_uint32 (scale c);
  if d =? 0 then None else Some (int_wrap (uint32_wrap p / d)).

(** Events, as far as [handle_events] tells them apart. *)
Inductive keysym : Type :=
  SDLK_ESCAPE | SDLK_SPACE | SDLK_c | SDLK_r | SDLK_other.

Inductive mouse_button : Type :=
  SDL_BUTTON_LEFT | SDL_BUTTON_RIGHT | SDL_BUTTON_other.

Inductive window_event : Type :=
  SDL_WINDOWEVENT_ENTER | SDL_WINDOWEVENT_LEAVE | SDL_WINDOWEVENT_other.

Inductive event : Type :=
  | SDL_QUIT
  | SDL_KEYDOWN (sym : keysym)
  | SDL_MOUSEBUTTONDOWN (button : mouse_button) (x y : Z)
  | SDL_MOUSEBUTTONUP (button : mouse_button) (x y : Z)
  | SDL_MOUSEMOTION (x y : Z)
  | SDL_WINDOWEVENT (e : window_event)
  | SDL_other_event.

(** How the body of the [while] loop of [handle_events] ends: with the next
    poll, or with the [return] of the function. *)
Inductive flow : Type := Continue | Return.

(** The body of the [while] loop of [handle_events], for one polled event. *)
Definition handle_event (ev : event) : M flow :=
  (match ev with
   | SDL_QUIT =>
       (* Quit simulation *)
       m_put (set_state QUIT) >> m_ret Return
   | SDL_KEYDOWN sym =>
       match sym with
       | SDLK_ESCAPE =>
           (* Quit simulation *)
           m_put (set_state QUIT) >> m_ret Return
       | SDLK_SPACE =>
           (* Toggle pause *)
           w <-- m_get id ;
           m_put (set_state (if state_eqb (state w) RUNNING
                             then PAUSED else RUNNING)) >>
           m_ret Continue
       | SDLK_c =>
           (* Clear grid *)
           clear_grid_cmd >> update_screen >> m_ret Continue
       | SDLK_r =>
           (* Randomize grid *)
           fill_grid >> update_screen >> m_ret Continue
       | SDLK_other => m_ret Continue
       end
   | SDL_MOUSEBUTTONDOWN button px py =>
       (* Get click coordinates *)
       w <-- m_get id ;
       x <-- m_option (div_scale (C w) px) ;
       y <-- m_option (div_scale (C w) py) ;
       match button with
       | SDL_BUTTON_LEFT =>
           (* Draw pixel and set draw flag *)
           set_grid_cell x y true >>
           draw_pixel x y (fg_color (C w)) >>
           m_put (set_draw_flag true)
       | SDL_BUTTON_RIGHT =>
           (* Erase pixel and set erase flag *)
           set_grid_cell x y false >>
           draw_pixel x y (bg_color (C w)) >>
           m_put (set_erase_flag true)
       | SDL_BUTTON_other => m_ret tt
       end >>
       m_ret Continue
   | SDL_MOUSEBUTTONUP button _ _ =>
       (* Unset draw and erase flags *)
       match button with
       | SDL_BUTTON_LEFT => m_put (set_draw_flag false)
       | SDL_BUTTON_RIGHT => m_put (set_erase_flag false)
       | SDL_BUTTON_other => m_ret tt
       end >>
       m_ret Continue
   | SDL_MOUSEMOTION px py =>
       (* Get cursor coordinates *)
       w <-- m_get id ;
       x <-- m_option (div_scale (C w) px) ;
       y <-- m_option (div_scale (C w) py) ;
       (* Draw trail *)
       when (draw_flag w)
         (set_grid_cell x y true >> draw_pixel x y (fg_color (C w))) >>
       (* Erase trail *)
       when (erase_flag w)
         (set_grid_cell x y false >> draw_pixel x y (bg_color (C w))) >>
       m_ret Continue
   | SDL_WINDOWEVENT e =>
       (* Toggle ghost cursor depending on window mouse focus *)
       w <-- m_get id ;
       match e with
       | SDL_WINDOWEVENT_ENTER =>
           when (negb (active (cp w)))
             (m_put (set_cp (mkCursor (cp_x (cp w)) (cp_y (cp w))
                               (prev_x (cp w)) (prev_y (cp w))
                               (prev_state (cp w)) true)))
       | SDL_WINDOWEVENT_LEAVE =>
           when (active (cp w))
             (m_put (set_cp (mkCursor (cp_x (cp w)) (cp_y (cp w))
                               (prev_x (cp w)) (prev_y (cp w))
                               (prev_state (cp w)) false)))
       | SDL_WINDOWEVENT_other => m_ret tt
       end >>
       m_ret Continue
   | SDL_other_event => m_ret Continue
   end)%M.

(** [handle_events()]: [pending] is what [SDL_PollEvent] delivers during this
    call, in order; the events after a [return] stay unpolled. *)
Fixpoint handle_events (pending : list event) : M unit :=
  match pending with
  | [] => m_ret tt
  | ev :: rest =>
      (f <-- handle_event ev ;
       match f with
       | Return => m_ret tt
       | Continue => handle_events rest
       end)%M
  end.

(** The color a cell is restored to from its remembered state. *)
Definition snapshot_color (c : config) (alive : bool) : Z :=
  if alive then fg_color c else bg_color c.

(** [draw_cursor_pixel()]; [mouse] is what [SDL_GetMouseState] reports. *)
Definition draw_cursor_pixel (mouse : Z * Z) : M unit :=
  (w <-- m_get id ;
   if negb (active (cp w)) then
     (* Erase ghost cursor when mouse focus is lost *)
     draw_pixel (prev_x (cp w)) (prev_y (cp w))
                (snapshot_color (C w) (prev_state (cp w)))
   else
     (* Get cursor coordinates *)
     x <-- m_option (div_scale (C w) (fst mouse)) ;
     y <-- m_option (div_scale (C w) (snd mouse)) ;
     m_put (set_cp (mkCursor x y (prev_x (cp w)) (prev_y (cp w))
                             (prev_state (cp w)) (active (cp w)))) >>
     (* Draw ghost cursor over background only *)
     c <-- grid_cell x y ;
     when (negb c) (draw_pixel x y (cp_color (C w))) >>
     (* Reset previous pixel to its corresponding color *)
     when (negb (x =? prev_x (cp w)) || negb (y =? prev_y (cp w)))
       (draw_pixel (prev_x (cp w)) (prev_y (cp w))
                   (snapshot_color (C w) (prev_state (cp w)))) >>
     (* Update previous pixel information *)
     c <-- grid_cell x y ;
     m_put (set_cp (mkCursor x y x y c (active (cp w)))))%M.

(* ====================================================================== *)
(** ** Arguments and [main] *)
(* ====================================================================== *)

Definition EXIT_SUCCESS : Z := 0.
Definition EXIT_FAILURE : Z := 1.

(** How a function that may call [exit] ends. *)
Inductive ending (A : Type) : Type :=
  | Returns (a : A)
  | Exits (status : Z).
Arguments Returns {A} a.
Arguments Exits {A} status.

Definition newline : string := String (ascii_of_nat 10) EmptyString.

Definition usage : list string :=
  [ "Usage: game-of-life [-w WIDTH] [-h HEIGHT] [-s SCALE] [-d DELAY] [-b BG_COLOR] [-f FG_COLOR] [-c CP_COLOR]" ++ newline;
    newline;
    "Default values:" ++ newline;
    "  WIDTH -- 500" ++ newline;
    "  HEIGHT -- 300" ++ newline;
    "  SCALE -- 3" ++ newline;
    "  DELAY -- 20" ++ newline;
    "  BG_COLOR -- 000000FF" ++ newline;
    "  FG_COLOR -- FFFFFFFF" ++ newline;
    "  CP_COLOR -- 444444FF" ++ newline ]%string.

Definition with_width (c : config) (v : Z) : config :=
  mkConfig v (height c) (scale c) (delay c) (bg_color c) (fg_color c) (cp_color c).
Definition with_height (c : config) (v : Z) : config :=
  mkConfig (width c) v (scale c) (delay c) (bg_color c) (fg_color c) (cp_color c).
Definition with_scale (c : config) (v : cfloat) : config :=
  mkConfig (width c) (height c) v (delay c) (bg_color c) (fg_color c) (cp_color c).
Definition with_delay (c : config) (v : Z) : config :=
  mkConfig (width c) (height c) (scale c) v (bg_color c) (fg_color c) (cp_color c).
Definition with_bg_color (c : config) (v : Z) : config :=
  mkConfig (width c) (height c) (scale c) (delay c) v (fg_color c) (cp_color c).
Definition with_fg_color (c : config) (v : Z) : config :=
  mkConfig (width c) (height c) (scale c) (delay c) (bg_color c) v (cp_color c).
Definition with_cp_color (c : config) (v : Z) : config :=
  mkConfig (width c) (height c) (scale c) (delay c) (bg_color c) (fg_color c) v.

(** One frame of input: the events pending when [handle_events] runs and the
    mouse position [SDL_GetMouseState] would report. *)
Record frame : Type := mkFrame {
  pending : list event;
  mouse : Z * Z
}.

(** How an observation of the main loop ends: the loop was left, or the
    frames given ran out while it was still going. *)
Inductive loop_end : Type := Loop_left | Frames_ran_out.

Inductive termination : Type := Exited (status : Z) | Still_running.

(** The main loop of [main]. *)
Fixpoint main_loop (frames : list frame) (w : world) {struct frames}
  : option (loop_end * world) :=
  if state_eqb (state w) QUIT then Some (Loop_left, w) else
  match frames with
  | [] => Some (Frames_ran_out, w)
  | f :: rest =>
      (handle_events (pending f) >>
       w' <-- m_get id ;
       if state_eqb (state w') PAUSED then
         (* Only draw ghost cursor when paused *)
         draw_cursor_pixel (mouse f) >> main_loop rest
       else
         update_grid_cmd >> update_screen >> main_loop rest)%M w
  end.

Definition sdl_cleanup : M unit :=
  (emit SDL_DestroyRenderer >> emit SDL_DestroyWindow >>
   emit SDL_FreeCursor >> emit SDL_Quit)%M.

(** Whether the step [s] of [sdl_init] fails in this run. *)
Definition sdl_step_fails (s : sdl_step) (w : world) : bool :=
  match sdl_fails_at (env w), s with
  | Some step_Init, step_Init
  | Some step_CreateWindow, step_CreateWindow
  | Some step_CreateRenderer, step_CreateRenderer
  | Some step_RenderSetScale, step_RenderSetScale
  | Some step_CreateSystemCursor, step_CreateSystemCursor => true
  | _, _ => false
  end.

Definition sdl_init : M bool :=
  (w <-- m_get id ;
   emit SDL_Init >>
   if sdl_step_fails step_Init w then
     emit (fprintf_stderr ("Unable to initialize SDL subsystems: '%s'" ++ newline)) >>
     m_ret false
   else
   emit (SDL_CreateWindow (width (C w)) (height (C w)) (scale (C w))) >>
   if sdl_step_fails step_CreateWindow w then
     emit (fprintf_stderr ("Unable to create window: '%s'" ++ newline)) >>
     m_ret false
   else
   emit SDL_CreateRenderer >>
   if sdl_step_fails step_CreateRenderer w then
     emit (fprintf_stderr ("Unable to create renderer: '%s'" ++ newline)) >>
     m_ret false
   else
   emit (SDL_RenderSetScale (scale (C w)) (scale (C w))) >>
   if sdl_step_fails step_RenderSetScale w then
     emit (fprintf_stderr ("Unable to set render scale: '%s'" ++ newline)) >>
     m_ret false
   else
   emit SDL_CreateSystemCursor >>
   if sdl_step_fails step_CreateSystemCursor w then
     emit (fprintf_stderr ("Unable to create cursor: '%s'" ++ newline)) >>
     m_ret false
   else
   emit SDL_SetCursor >>
   m_ret true)%M.

(** [C.width * C.height * sizeof(bool)] as [main] computes it: the product
    of the two [int]s wraps, is converted to [size_t] and multiplied by
    [sizeof(bool)], which is 1. *)
Definition alloc_size (c : config) : Z :=
  size_wrap (size_wrap (width c [*] height c) * 1).

(** [malloc(n)]: a fresh block of [n] cells of arbitrary content, or the
    null pointer, which has no cell. *)
Definition malloc_block (n : Z) : M (list bool) :=
  (w <-- m_get id ;
   emit (malloc n) >>
   m_ret (if malloc_succeeds (env w)
          then map (fresh_memory (env w)) (seq 0 (Z.to_nat n))
          else []))%M.

(** The block of [main] that initializes the grids. *)
Definition init_grids : M unit :=
  (w <-- m_get id ;
   let size := alloc_size (C w) in
   g <-- malloc_block size ;
   ng <-- malloc_block size ;
   g <-- m_option (memset0 g size) ;
   ng <-- m_option (memset0 ng size) ;
   m_put (set_bufs {| grid := g; next_gen := ng; grid_size := size |}))%M.

Section Startup.

(** The libc parsers the program applies to option arguments: [atoi],
    [atof] (its result as stored in the [float] field) and
    [strtoul(_, NULL, 16)]. *)
Variable atoi : string -> Z.
Variable atof : string -> cfloat.
Variable strtoul16 : string -> Z.

(** The body of the [switch] of [set_config] for one result of [getopt]: the
    option character and [optarg].  [Some b] stands for [return b]. *)
Definition set_config_option (opt : ascii) (optarg : string) : M (option bool) :=
  (if (opt =? "w")%char then
     (* Width *)
     w <-- m_get id ;
     m_put (set_C (with_width (C w) (atoi optarg))) >>
     if atoi optarg <=? 0 then
       emit (fprintf_stderr ("Invalid width value" ++ newline)) >>
       m_ret (Some false)
     else m_ret None
   else if (opt =? "h")%char then
     (* Height *)
     w <-- m_get id ;
     m_put (set_C (with_height (C w) (atoi optarg))) >>
     if atoi optarg <=? 0 then
       emit (fprintf_stderr ("Invalid height value" ++ newline)) >>
       m_ret (Some false)
     else m_ret None
   else if (opt =? "s")%char then
     (* Scale *)
     w <-- m_get id ;
     m_put (set_C (with_scale (C w) (atof optarg))) >>
     if float_le0 (atof optarg) then
       emit (fprintf_stderr ("Invalid scale value" ++ newline)) >>
       m_ret (Some false)
     else m_ret None
   else if (opt =? "d")%char then
     (* Delay *)
     w <-- m_get id ;
     m_put (set_C (with_delay (C w) (atoi optarg))) >>
     if atoi optarg <? 0 then
       emit (fprintf_stderr ("Invalid delay value" ++ newline)) >>
       m_ret (Some false)
     else m_ret None
   else if (opt =? "b")%char then
     (* Background color *)
     w <-- m_get id ;
     m_put (set_C (with_bg_color (C w) (uint32_wrap (strtoul16 optarg)))) >>
     m_ret None
   else if (opt =? "f")%char then
     (* Foreground color *)
     w <-- m_get id ;
     m_put (set_C (with_fg_color (C w) (uint32_wrap (strtoul16 optarg)))) >>
     m_ret None
   else if (opt =? "c")%char then
     (* Ghost cursor color *)
     w <-- m_get id ;
     m_put (set_C (with_cp_color (C w) (uint32_wrap (strtoul16 optarg)))) >>
     m_ret None
   else if (opt =? ":")%char then
     emit (fprintf_stderr ("Option requires a value" ++ newline)) >>
     m_ret (Some false)
   else if (opt =? "?")%char then
     emit (fprintf_stderr ("Unknown option" ++ newline)) >>
     m_ret (Some false)
   else m_ret None)%M.

(** The [while] loop of [set_config] over the results of [getopt]. *)
Fixpoint set_config_options (opts : list (ascii * string)) : M (option bool) :=
  match opts with
  | [] => m_ret None
  | (opt, optarg) :: rest =>
      (r <-- set_config_option opt optarg ;
       match r with
       | Some b => m_ret (Some b)
       | None => set_config_options rest
       end)%M
  end.

(** [set_config(argc, argv)]: [opts] is what the successive calls of
    [getopt] return until [-1], [operands] is [argv] from [optind] on. *)
Definition set_config (opts : list (ascii * string)) (operands : list string)
  : M (ending bool) :=
  (r <-- set_config_options opts ;
   match r with
   | Some b => m_ret (Returns b)
   | None =>
       (* Args *)
       let args_len := Z.of_nat (length operands) in
       if (args_len =? 1) && String.eqb (hd EmptyString operands) "help" then
         m_put (add_calls (map printf usage)) >>
         m_ret (Exits 0)
       else m_ret (Returns true)
   end)%M.

Definition main (opts : list (ascii * string)) (operands : list string)
  (frames : list frame) : M termination :=
  (r <-- set_config opts operands ;
   match r with
   | Exits status => m_ret (Exited status)
   | Returns false => m_ret (Exited EXIT_FAILURE)
   | Returns true =>
       ok <-- sdl_init ;
       if negb ok then
         sdl_cleanup >> m_ret (Exited EXIT_FAILURE)
       else
       (* Initialize random number generation *)
       emit srand_time >>
       (* Initialize grids *)
       init_grids >>
       (* Get background and foreground color components *)
       w <-- m_get id ;
       m_put (set_colors (extract_color (bg_color (C w)))
                         (extract_color (fg_color (C w)))) >>
       (* Main loop *)
       e <-- main_loop frames ;
       match e with
       | Frames_ran_out => m_ret Still_running
       | Loop_left => sdl_cleanup >> m_ret (Exited EXIT_SUCCESS)
       end
   end)%M.

(** A result of [getopt] that the specification calls malformed. *)
Definition malformed (o : ascii * string) : bool :=
  let '(opt, optarg) := o in
  ((opt =? "w")%char && (atoi optarg <=? 0)) ||
  ((opt =? "h")%char && (atoi optarg <=? 0)) ||
  ((opt =? "s")%char && float_le0 (atof optarg)) ||
  ((opt =? "d")%char && (atoi optarg <? 0)) ||
  (opt =? ":")%char || (opt =? "?")%char.

End Startup.

(** A single-pixel render notification: what the renderer receives when one
    cell is drawn in one color. *)
Definition pixel_notification (x y color : Z) : list call :=
  [SetRenderDrawColor (extract_color color); SDL_RenderDrawPoint x y;
   SDL_RenderPresent].

(** The calls that draw a pixel at [(x, y)]. *)
Definition draws_at (x y : Z) (c : call) : bool :=
  match c with
  | SDL_RenderDrawPoint x' y' => (x' =? x) && (y' =? y)
  | _ => false
  end.

(** A quit signal: the window's quit request or the escape key. *)
Definition quit_signal (ev : event) : bool :=
  match ev with
  | SDL_QUIT | SDL_KEYDOWN SDLK_ESCAPE => true
  | _ => false
  end.

(* ====================================================================== *)
(** ** Grids of the right size, and the rule in the specification's words *)
(* ====================================================================== *)

(** [arr] is a grid for the configuration [C]: the dimensions are positive,
    the buffer holds [width * height] cells, and that product is an [int]
    (otherwise [main]'s [C.width * C.height] overflows and the buffer it
    allocates does not hold [width * height] cells). *)
Definition is_grid (C : config) (arr : list bool) : Prop :=
  1 <= width C /\ 1 <= height C /\ width C * height C <= INT_MAX /\
  Z.of_nat (length arr) = width C * height C.

(** [(x, y)] is a coordinate of the grid. *)
Definition in_range (C : config) (x y : Z) : Prop :=
  0 <= x < width C /\ 0 <= y < height C.

Definition in_rangeb (C : config) (x y : Z) : bool :=
  (0 <=? x) && (x <? width C) && (0 <=? y) && (y <? height C).

(** Both buffers are grids for [C] and [grid_size] is their size in bytes,
    as [main] sets them up. *)
Definition buffers_ok (C : config) (s : buffers) : Prop :=
  is_grid C (grid s) /\ is_grid C (next_gen s) /\
  grid_size s = width C * height C.

(** The cell at [(x, y)], read mathematically (no machine arithmetic). *)
Definition cell_at (C : config) (arr : list bool) (x y : Z) : bool :=
  nth (Z.to_nat (x * height C + y)) arr false.

(** The eight offsets of the Moore neighborhood. *)
Definition moore : list (Z * Z) :=
  [(-1, -1); (-1, 0); (-1, 1); (0, -1); (0, 1); (1, -1); (1, 0); (1, 1)].

(** The number of alive neighbors of [(x, y)] over the Moore neighborhood
    clipped at the boundary: an offset that leaves the grid does not count. *)
Definition alive_neighbors (C : config) (arr : list bool) (x y : Z) : Z :=
  fold_right Z.add 0
    (map (fun d : Z * Z =>
            Z.b2z (in_rangeb C (x + fst d) (y + snd d) &&
                   cell_at C arr (x + fst d) (y + snd d)))
         moore).

(** The rule of the game, as the specification words it. *)
Inductive life_rule : bool -> Z -> bool -> Prop :=
  | rule_starve_or_crowd n : n < 2 \/ n > 3 -> life_rule true n false
  | rule_survive n : n = 2 \/ n = 3 -> life_rule true n true
  | rule_birth n : n = 3 -> life_rule false n true
  | rule_stay_dead n : n <> 3 -> life_rule false n false.

(** The same rule as a function. *)
Definition next_state (alive : bool) (n : Z) : bool :=
  if alive then (n =? 2) || (n =? 3) else n =? 3.

(** The next value of a cell, from the generation [arr]. *)
Definition next_cell (c : config) (arr : list bool) (x y : Z) : bool :=
  next_state (cell_at c arr x y) (alive_neighbors c arr x y).

(** Invariant of the scan of [update_grid] started in [s], when it stands
    before cell [(i, j)] in state [t]: the current generation is untouched
    and the scratch buffer holds the next value of every cell already
    visited. *)
Definition scanned_up_to (c : config) (s : buffers) (i j : Z) (t : buffers)
  : Prop :=
  grid t = grid s /\ grid_size t = grid_size s /\ is_grid c (next_gen t) /\
  forall x y, in_range c x y -> x < i \/ (x = i /\ y < j) ->
              cell_at c (next_gen t) x y = next_cell c (grid s) x y.

(** What an acceptable read of [is_alive C grid x y] looks like: a cell of
    the grid, at its row-major index, and adjacent to [(x, y)] in the plane
    (so never a cell of the opposite edge). *)
Definition access_ok (C : config) (x y : Z) (a : access) : Prop :=
  in_range C (acc_x a) (acc_y a) /\
  acc_index a = acc_x a * height C + acc_y a /\
  0 <= acc_index a < width C * height C /\
  Z.abs (acc_x a - x) <= 1 /\ Z.abs (acc_y a - y) <= 1.

(** [n] applications of [update_grid]. *)
Fixpoint update_grid_n (C : config) (n : nat) (s : buffers) : option buffers :=
  match n with
  | O => Some s
  | S n' => s' ← update_grid C s; update_grid_n C n' s'
  end.

(* ====================================================================== *)
(** ** Concrete grids used in examples *)
(* ====================================================================== *)

(** A configuration with the given dimensions and the default settings. *)
Definition config_of_size (w h : Z) : config :=
  with_height (with_width default_config w) h.

(** Buffers for a grid given as a list, with an all-dead scratch buffer. *)
Definition buffers_of (g : list bool) : buffers :=
  {| grid := g; next_gen := replicate (length g) false;
     grid_size := Z.of_nat (length g) |}.

(** The horizontal blinker on the 5 by 3 grid: [(1,1)], [(2,1)], [(3,1)]
    alive; cell [(x, y)] is at index [x * 3 + y]. *)
Definition blinker_horizontal : list bool :=
  [false; false; false;  false; true; false;  false; true; false;
   false; true; false;  false; false; false].

(** The vertical blinker: [(2,0)], [(2,1)], [(2,2)] alive. *)
Definition blinker_vertical : list bool :=
  [false; false; false;  false; false; false;  true; true; true;
   false; false; false;  false; false; false].

(** The cells of the 2 by 2 block whose corner of least coordinates is
    [(bx, by)]. *)
Definition in_block (bx by_ x y : Z) : bool :=
  ((x =? bx) || (x =? bx + 1)) && ((y =? by_) || (y =? by_ + 1)).

(** The alive cells of [arr] are exactly the block at [(bx, by)]. *)
Definition block_alive (c : config) (arr : list bool) (bx by_ : Z) : Prop :=
  forall x y, in_range c x y -> cell_at c arr x y = in_block bx by_ x y.

(** An environment in which everything succeeds. *)
Definition quiet_env : environment :=
  {| sdl_fails_at := None; malloc_succeeds := true;
     fresh_memory := fun _ => false; rand_values := fun _ => 0 |}.

(** A running world on a 1 by 1 grid whose only cell is alive. *)
Definition lone_cell_world : world :=
  {| env := quiet_env;
     C := with_scale (config_of_size 1 1) (float_of_int 1);
     cp := default_cursor; state := RUNNING;
     bufs := buffers_of [true];
     bg_rgba := extract_color 0x000000FF; fg_rgba := extract_color 0xFFFFFFFF;
     draw_flag := false; erase_flag := false; rand_calls := O; calls := [] |}.

(** A 4 by 4 grid with a block at [(1, 1)]. *)
Definition block_grid : list bool :=
  [false; false; false; false;  false; true; true; false;
   false; true; true; false;  false; false; false; false].

(** A paused world on a 2 by 1 grid: cell [(0,0)] is alive, cell [(1,0)] is
    dead, the mouse is over the window and the ghost was last at [(0,0)]. *)
Definition ghost_world : world :=
  {| env := quiet_env;
     C := with_scale (config_of_size 2 1) (float_of_int 1);
     cp := {| cp_x := 0; cp_y := 0; prev_x := 0; prev_y := 0;
              prev_state := true; active := true |};
     state := PAUSED;
     bufs := buffers_of [true; false];
     bg_rgba := extract_color 0x000000FF; fg_rgba := extract_color 0xFFFFFFFF;
     draw_flag := false; erase_flag := false; rand_calls := O; calls := [] |}.

(** Toy parsers for examples: the argument's length stands for its value,
    negated when it starts with a minus sign. *)
Definition toy_atoi (s : string) : Z :=
  match s with
  | String "-" rest => - Z.of_nat (String.length rest)
  | _ => Z.of_nat (String.length s)
  end.

Definition toy_atof (s : string) : cfloat := float_of_int (toy_atoi s).

(* ====================================================================== *)
(** ** Further notions used in statements *)
(* ====================================================================== *)

(** Every cell of the grid is dead. *)
Definition all_dead (c : config) (arr : list bool) : Prop :=
  forall x y, in_range c x y -> cell_at c arr x y = false.

(** The only alive cell of the grid is [(ax, ay)]. *)
Definition lone_alive (c : config) (arr : list bool) (ax ay : Z) : Prop :=
  forall x y, in_range c x y -> cell_at c arr x y = (x =? ax) && (y =? ay).

(** The call that draws cell [(x, y)] during a full redraw, if it is alive. *)
Definition cell_point (c : config) (arr : list bool) (x y : Z) : list call :=
  if cell_at c arr x y then [SDL_RenderDrawPoint x y] else [].

(** The points drawn for the first [rows] cells of column [x]. *)
Definition column_points (c : config) (arr : list bool) (x : Z) (rows : nat)
  : list call :=
  flat_map (fun j => cell_point c arr x (Z.of_nat j)) (seq 0 rows).

(** The points drawn for the first [cols] columns. *)
Definition grid_points (c : config) (arr : list bool) (cols : nat) : list call :=
  flat_map (fun i => column_points c arr (Z.of_nat i) (Z.to_nat (height c)))
           (seq 0 cols).

(** The calls of one full redraw of the world [w]. *)
Definition screen_calls (w : world) : list call :=
  [SetRenderDrawColor (bg_rgba w); SDL_RenderClear;
   SetRenderDrawColor (fg_rgba w)] ++
  grid_points (C w) (grid (bufs w)) (Z.to_nat (width (C w))) ++
  [SDL_RenderPresent; SDL_Delay (delay (C w))].

(** The state [fill_grid] gives to the [k]-th cell it visits in the world
    [w]: the parity of the [k]-th value [rand] returns from there on. *)
Definition rand_bit (w : world) (k : Z) : bool :=
  negb (Z.rem (rand_values (env w) (rand_calls w + Z.to_nat k)) 2 =? 0).

(** What is fixed once the main loop starts: the environment, the
    configuration, the color components, and the sizes of the buffers. *)
Definition setup (w : world)
  : environment * config * (Z * Z * Z * Z) * (Z * Z * Z * Z) * Z * nat * nat :=
  (env w, C w, bg_rgba w, fg_rgba w, grid_size (bufs w),
   length (grid (bufs w)), length (next_gen (bufs w))).

(** [w'] has the setup and the run state of [w]. *)
Definition steady (w w' : world) : Prop :=
  setup w' = setup w /\ state w' = state w.

(** The calls by which [sdl_cleanup] releases the SDL resources. *)
Definition cleanup_calls : list call :=
  [SDL_DestroyRenderer; SDL_DestroyWindow; SDL_FreeCursor; SDL_Quit].

(** The calls that allocate a buffer. *)
Definition is_malloc (c : call) : bool :=
  match c with malloc _ => true | _ => false end.

(** The calls of a successful [sdl_init] in the world [w]. *)
Definition sdl_init_calls (w : world) : list call :=
  [SDL_Init; SDL_CreateWindow (width (C w)) (height (C w)) (scale (C w));
   SDL_CreateRenderer; SDL_RenderSetScale (scale (C w)) (scale (C w));
   SDL_CreateSystemCursor; SDL_SetCursor].

(** A parser that reads every argument as the same number. *)
Definition constant_atoi (n : Z) (s : string) : Z := n.

(** The cell under the pixel [p], when the division by the scale is
    defined. *)
Definition cell_under (c : config) (p : Z * Z) : option (Z * Z) :=
  match div_scale c (fst p), div_scale c (snd p) with
  | Some x, Some y => Some (x, y)
  | _, _ => None
  end.

(** The pixel [p] lies over the cell [(x, y)]. *)
Definition over_cell (c : config) (x y : Z) (p : Z * Z) : bool :=
  match cell_under c p with
  | Some (a, b) => (a =? x) && (b =? y)
  | None => false
  end.

(** One foreground notification per visited pixel, in order. *)
Definition trail_calls (c : config) (ps : list (Z * Z)) : list call :=
  flat_map (fun p => match cell_under c p with
                     | Some (x, y) => pixel_notification x y (fg_color c)
                     | None => []
                     end) ps.

(** The pixel [p] lies over a cell of the grid. *)
Definition over_grid (c : config) (p : Z * Z) : Prop :=
  exists x y, cell_under c p = Some (x, y) /\ in_range c x y.

(** The state of a drag with the left button: what has changed since the
    world [w], after the pixels [ps] were visited. *)
Definition painted (w : world) (ps : list (Z * Z)) (v : world) : Prop :=
  steady w v /\ is_grid (C w) (grid (bufs v)) /\
  next_gen (bufs v) = next_gen (bufs w) /\
  erase_flag v = erase_flag w /\
  calls v = calls w ++ trail_calls (C w) ps /\
  forall x y, in_range (C w) x y ->
    cell_at (C w) (grid (bufs v)) x y =
    cell_at (C w) (grid (bufs w)) x y || existsb (over_cell (C w) x y) ps.

(** The mouse focus after one event: entering the window gives it, leaving
    the window takes it, no other event touches it. *)
Definition focus_step (ev : event) (focus : bool) : bool :=
  match ev with
  | SDL_WINDOWEVENT SDL_WINDOWEVENT_ENTER => true
  | SDL_WINDOWEVENT SDL_WINDOWEVENT_LEAVE => false
  | _ => focus
  end.

(** The mouse focus after a batch of events; the events behind a quit
    signal are not looked at. *)
Fixpoint focus_after (pending : list event) (focus : bool) : bool :=
  match pending with
  | [] => focus
  | ev :: rest =>
      if quit_signal ev then focus
      else focus_after rest (focus_step ev focus)
  end.

(* ====================================================================== *)
(** ** Machine arithmetic and indexing lemmas *)
(* ====================================================================== *)

Lemma int_wrap_small z : INT_MIN <= z <= INT_MAX -> int_wrap z = z.
Proof.
  unfold INT_MIN, INT_MAX, int_wrap. intros Hz.
  rewrite Z.mod_small by lia. lia.
Qed.

Lemma int_add_small a b : INT_MIN <= a + b <= INT_MAX -> a [+] b = a + b.
Proof. apply int_wrap_small. Qed.

Lemma int_sub_small a b : INT_MIN <= a - b <= INT_MAX -> a [-] b = a - b.
Proof. apply int_wrap_small. Qed.

Lemma int_mul_small a b : INT_MIN <= a * b <= INT_MAX -> a [*] b = a * b.
Proof. apply int_wrap_small. Qed.

Lemma b2z_bounds b : 0 <= Z.b2z b <= 1.
Proof. destruct b; simpl; lia. Qed.

(** The buffers [main] allocates hold [width * height] cells exactly when
    that product is an [int]: this is the size condition of [is_grid]. *)
Lemma alloc_size_exact (c : config) :
  1 <= width c <= INT_MAX -> 1 <= height c <= INT_MAX ->
  alloc_size c = width c * height c <-> width c * height c <= INT_MAX.
Proof.
  intros Hw Hh. unfold alloc_size, size_wrap, int_mul, int_wrap.
  assert (1 <= width c * height c <= INT_MAX * INT_MAX) as Hp by nia.
  unfold INT_MAX in *. generalize dependent (width c * height c). intros p Hp.
  rewrite Z.mul_1_r, Z.mod_mod by lia.
  change (2 ^ 31) with 2147483648. change (2 ^ 32) with 4294967296.
  change (2 ^ 64) with 18446744073709551616.
  Z.to_euclidean_division_equations. lia.
Qed.

Example alloc_size_overflow : alloc_size (config_of_size 65536 65536) = 0.
Proof. reflexivity. Qed.

Section Indexing.
Variable C : config.
Variable arr : list bool.
Hypothesis Hgrid : is_grid C arr.

Lemma flat_index_bounds x y :
  in_range C x y -> 0 <= x * height C + y < width C * height C.
Proof. destruct Hgrid as (Hw & Hh & _). intros [Hx Hy]. nia. Qed.

Lemma cell_index_in_range x y :
  in_range C x y -> cell_index C x y = x * height C + y.
Proof.
  intros Hxy. pose proof (flat_index_bounds x y Hxy) as Hi.
  destruct Hgrid as (Hw & Hh & Hfit & _). destruct Hxy as [Hx Hy].
  unfold cell_index. unfold INT_MAX in Hfit.
  rewrite int_mul_small by (unfold INT_MIN, INT_MAX; nia).
  apply int_add_small. unfold INT_MIN, INT_MAX. lia.
Qed.

(** The flat index is injective on coordinates of the grid. *)
Lemma flat_index_inj x y x' y' :
  in_range C x y -> in_range C x' y' ->
  x * height C + y = x' * height C + y' -> x = x' /\ y = y'.
Proof.
  intros [Hx Hy] [Hx' Hy'] Heq.
  destruct (Z.lt_trichotomy x x') as [Hlt|[->|Hgt]].
  - assert ((x + 1) * height C <= x' * height C) by nia. lia.
  - lia.
  - assert ((x' + 1) * height C <= x * height C) by nia. lia.
Qed.

Lemma buf_read_in_range x y :
  in_range C x y ->
  buf_read arr (x * height C + y) = Some (cell_at C arr x y).
Proof.
  intros Hxy. pose proof (flat_index_bounds x y Hxy) as Hi.
  destruct Hgrid as (_ & _ & _ & Hlen).
  unfold buf_read, cell_at.
  destruct (Z.ltb_spec (x * height C + y) 0) as [?|_]; [lia|].
  destruct (nth_lookup_or_length arr (Z.to_nat (x * height C + y)) false)
    as [Hl|Hl]; [exact Hl | lia].
Qed.

Lemma get_cell_in_range x y :
  in_range C x y ->
  get_cell C arr x y =
    Some (cell_at C arr x y, [mkAccess x y (x * height C + y)]).
Proof.
  intros Hxy. unfold get_cell.
  rewrite (cell_index_in_range x y Hxy), (buf_read_in_range x y Hxy).
  reflexivity.
Qed.

Lemma set_cell_in_range x y v :
  in_range C x y ->
  set_cell C arr x y v = Some (<[Z.to_nat (x * height C + y) := v]> arr).
Proof.
  intros Hxy. pose proof (flat_index_bounds x y Hxy) as Hi.
  destruct Hgrid as (_ & _ & _ & Hlen).
  unfold set_cell, buf_write. rewrite (cell_index_in_range x y Hxy).
  destruct (Z.leb_spec 0 (x * height C + y)); [|lia].
  destruct (Z.ltb_spec (x * height C + y) (Z.of_nat (length arr))); [|lia].
  reflexivity.
Qed.

Lemma is_grid_insert i v : is_grid C (<[i := v]> arr).
Proof. unfold is_grid in *. rewrite length_insert. exact Hgrid. Qed.

Lemma cell_at_insert_eq x y v :
  in_range C x y ->
  cell_at C (<[Z.to_nat (x * height C + y) := v]> arr) x y = v.
Proof.
  intros Hxy. pose proof (flat_index_bounds x y Hxy) as Hi.
  destruct Hgrid as (_ & _ & _ & Hlen).
  unfold cell_at. apply nth_lookup_Some with (d := false).
  apply list_lookup_insert_eq. lia.
Qed.

Lemma cell_at_insert_ne x y x' y' v :
  in_range C x y -> in_range C x' y' -> (x', y') <> (x, y) ->
  cell_at C (<[Z.to_nat (x * height C + y) := v]> arr) x' y' =
  cell_at C arr x' y'.
Proof.
  intros Hxy Hxy' Hne.
  pose proof (flat_index_bounds x y Hxy) as Hi.
  pose proof (flat_index_bounds x' y' Hxy') as Hi'.
  unfold cell_at.
  assert (Z.to_nat (x * height C + y) <> Z.to_nat (x' * height C + y'))
    as Hidx.
  { intros Heq. apply Hne.
    destruct (flat_index_inj x y x' y' Hxy Hxy') as [-> ->]; [lia|done]. }
  rewrite !nth_lookup. by rewrite list_lookup_insert_ne.
Qed.
End Indexing.

(* ====================================================================== *)
(** ** What [is_alive] computes and what it reads *)
(* ====================================================================== *)

Lemma and_then_and g1 g2 r : g1 &&> g2 &&> r = (g1 && g2) &&> r.
Proof. by destruct g1, g2. Qed.

(** Turns boolean comparisons among the hypotheses into propositions. *)
Ltac bool_hyps :=
  repeat match goal with
    | H : (_ && _) = true |- _ => apply andb_true_iff in H; destruct H
    | H : (_ <? _) = true |- _ => apply Z.ltb_lt in H
    | H : (_ <=? _) = true |- _ => apply Z.leb_le in H
    | H : (_ >? _) = true |- _ => rewrite Z.gtb_ltb in H
    end.

(** Decides an equation between boolean combinations of comparisons. *)
Ltac bool_lia :=
  repeat match goal with
    | |- context [?a <? ?b] => destruct (Z.ltb_spec a b)
    | |- context [?a <=? ?b] => destruct (Z.leb_spec a b)
    | |- context [?a =? ?b] => destruct (Z.eqb_spec a b)
    | |- context [?a >? ?b] => rewrite (Z.gtb_ltb a b)
    end;
  simpl; first [reflexivity | lia].

(** Brings the bounds of every [Z.b2z] of the goal into the context. *)
Ltac b2z_lia :=
  repeat match goal with
    | |- context [Z.b2z ?b] =>
        let H := fresh in
        pose proof (b2z_bounds b) as H; generalize dependent (Z.b2z b); intros
    end;
  lia.

Section IsAlive.
Variable C : config.
Variable arr : list bool.
Hypothesis Hgrid : is_grid C arr.

Lemma count_if_guarded g x y n :
  (g = true -> in_range C x y) -> 0 <= n <= 7 ->
  count_if (g &&> get_cell C arr x y) n =
    Some (n + Z.b2z (g && cell_at C arr x y),
          if g then [mkAccess x y (x * height C + y)] else []).
Proof.
  intros Hg Hn. unfold count_if, and_then. destruct g; simpl.
  - rewrite (get_cell_in_range C arr Hgrid x y (Hg eq_refl)). simpl.
    rewrite int_add_small by (unfold INT_MIN, INT_MAX; lia).
    by destruct (cell_at C arr x y); rewrite ?Z.add_0_r.
  - by rewrite Z.add_0_r.
Qed.

Lemma next_state_code (c : bool) n :
  (if c && ((n <? 2) || (n >? 3)) then false
   else if c && ((n =? 2) || (n =? 3)) then true
   else if negb c && (n =? 3) then true else false) = next_state c n.
Proof. unfold next_state. destruct c; bool_lia. Qed.

Variables x y : Z.
Hypothesis Hxy : in_range C x y.

Lemma machine_coordinates :
  x [-] 1 = x - 1 /\ x [+] 1 = x + 1 /\ y [-] 1 = y - 1 /\ y [+] 1 = y + 1 /\
  width C [-] 1 = width C - 1 /\ height C [-] 1 = height C - 1.
Proof.
  destruct Hgrid as (Hw & Hh & Hfit & _). destruct Hxy as [Hx Hy].
  assert (width C <= INT_MAX /\ height C <= INT_MAX) as [? ?] by nia.
  unfold INT_MAX in *.
  repeat split;
    first [apply int_add_small | apply int_sub_small];
    unfold INT_MIN, INT_MAX; lia.
Qed.

Lemma alive_neighbors_guards :
  alive_neighbors C arr x y =
    Z.b2z ((x >? 0) && cell_at C arr (x - 1) y) +
    Z.b2z ((x <? width C - 1) && cell_at C arr (x + 1) y) +
    Z.b2z ((y >? 0) && cell_at C arr x (y - 1)) +
    Z.b2z ((y <? height C - 1) && cell_at C arr x (y + 1)) +
    Z.b2z ((x >? 0) && (y >? 0) && cell_at C arr (x - 1) (y - 1)) +
    Z.b2z ((x <? width C - 1) && (y >? 0) && cell_at C arr (x + 1) (y - 1)) +
    Z.b2z ((x >? 0) && (y <? height C - 1) && cell_at C arr (x - 1) (y + 1)) +
    Z.b2z ((x <? width C - 1) && (y <? height C - 1) &&
           cell_at C arr (x + 1) (y + 1)).
Proof.
  destruct Hxy as [Hx Hy].
  unfold alive_neighbors, moore. cbn [map fold_right fst snd].
  change (x + -1) with (x - 1). change (y + -1) with (y - 1).
  rewrite !Z.add_0_r.
  replace (in_rangeb C (x - 1) (y - 1)) with ((x >? 0) && (y >? 0))
    by (unfold in_rangeb; bool_lia).
  replace (in_rangeb C (x - 1) y) with (x >? 0)
    by (unfold in_rangeb; bool_lia).
  replace (in_rangeb C (x - 1) (y + 1)) with ((x >? 0) && (y <? height C - 1))
    by (unfold in_rangeb; bool_lia).
  replace (in_rangeb C x (y - 1)) with (y >? 0)
    by (unfold in_rangeb; bool_lia).
  replace (in_rangeb C x (y + 1)) with (y <? height C - 1)
    by (unfold in_rangeb; bool_lia).
  replace (in_rangeb C (x + 1) (y - 1)) with ((x <? width C - 1) && (y >? 0))
    by (unfold in_rangeb; bool_lia).
  replace (in_rangeb C (x + 1) y) with (x <? width C - 1)
    by (unfold in_rangeb; bool_lia).
  replace (in_rangeb C (x + 1) (y + 1))
    with ((x <? width C - 1) && (y <? height C - 1))
    by (unfold in_rangeb; bool_lia).
  lia.
Qed.
End IsAlive.

Section IsAliveRun.
Variable C : config.
Variable arr : list bool.
Hypothesis Hgrid : is_grid C arr.
Variables x y : Z.
Hypothesis Hxy : in_range C x y.

Lemma access_ok_near x' y' :
  in_range C x' y' -> Z.abs (x' - x) <= 1 -> Z.abs (y' - y) <= 1 ->
  access_ok C x y (mkAccess x' y' (x' * height C + y')).
Proof.
  intros Hin Hx Hy. unfold access_ok. simpl.
  pose proof (flat_index_bounds C arr Hgrid x' y' Hin). tauto.
Qed.

Lemma guarded_access_ok (g : bool) x' y' :
  (g = true -> in_range C x' y') ->
  Z.abs (x' - x) <= 1 -> Z.abs (y' - y) <= 1 ->
  Forall (access_ok C x y)
    (if g then [mkAccess x' y' (x' * height C + y')] else []).
Proof.
  intros Hg Hx Hy. destruct g; [|constructor].
  repeat constructor; apply access_ok_near; auto.
Qed.

(** [is_alive] is defined on every cell of a grid; its value is the rule
    applied to the clipped neighbor count, and each of its reads is an
    acceptable one. *)
Lemma is_alive_run :
  exists log,
    is_alive C arr x y =
      Some (next_state (cell_at C arr x y) (alive_neighbors C arr x y), log) /\
    Forall (access_ok C x y) log.
Proof.
  destruct (machine_coordinates C arr Hgrid x y Hxy)
    as (Ex1 & Ex2 & Ey1 & Ey2 & Ew & Eh).
  rewrite (alive_neighbors_guards C arr x y Hxy).
  unfold is_alive. rewrite Ex1, Ex2, Ey1, Ey2, Ew, Eh, !and_then_and.
  pose proof Hxy as [Hx Hy].
  do 8 (rewrite (count_if_guarded C arr Hgrid)
          by first [ intros Hg; bool_hyps; unfold in_range; lia | b2z_lia ];
        cbn [rd_bind]).
  rewrite !(get_cell_in_range C arr Hgrid x y Hxy), Z.add_0_l.
  cbn [rd_bind].
  rewrite <- (next_state_code (cell_at C arr x y)).
  repeat match goal with
    | |- context [if ?b && ?c then rd_ret _ else _] =>
        destruct (b && c); cbn [rd_ret rd_bind]
    end;
    (eexists; split; [reflexivity|]);
    repeat first
      [ apply Forall_nil_2
      | apply Forall_app_2
      | apply Forall_cons_2
      | apply access_ok_near; [exact Hxy | lia | lia]
      | apply guarded_access_ok;
        [intros Hg; bool_hyps; unfold in_range; lia | lia | lia] ].
Qed.

Lemma is_alive_value :
  rd_value (is_alive C arr x y) =
    Some (next_state (cell_at C arr x y) (alive_neighbors C arr x y)).
Proof. destruct is_alive_run as (log & -> & _). reflexivity. Qed.
End IsAliveRun.

Lemma next_state_rule alive n : life_rule alive n (next_state alive n).
Proof.
  unfold next_state. destruct alive.
  - destruct (Z.eqb_spec n 2) as [->|?]; [apply rule_survive; lia|].
    destruct (Z.eqb_spec n 3) as [->|?]; [apply rule_survive; lia|].
    apply rule_starve_or_crowd. lia.
  - destruct (Z.eqb_spec n 3) as [->|?]; [by apply rule_birth|].
    by apply rule_stay_dead.
Qed.

(* ====================================================================== *)
(** ** Loops and one generation *)
(* ====================================================================== *)

(** Invariant rule for the loops: an invariant that every iteration of the
    range re-establishes holds at the end, and the loop is defined. *)
Lemma for_steps_invariant {S : Type} (P : Z -> S -> Prop) hi body :
  hi <= INT_MAX ->
  forall n i (s : S),
    Z.of_nat n = hi - i -> INT_MIN <= i ->
    P i s ->
    (forall j t, i <= j < hi -> P j t ->
                 exists t', body j t = Some t' /\ P (j + 1) t') ->
    exists t, for_steps n i hi body s = Some t /\ P hi t.
Proof.
  intros Hmax. induction n as [|n IH]; intros i s Hn Hmin Hinit Hstep.
  - exists s. simpl. destruct (Z.ltb_spec i hi) as [?|_]; [lia|].
    split; [done|]. by replace hi with i by lia.
  - simpl. destruct (Z.ltb_spec i hi) as [Hlt|?]; [|lia].
    destruct (Hstep i s) as (t' & -> & Ht'); [lia|done|].
    rewrite int_add_small by (unfold INT_MIN, INT_MAX in *; lia).
    apply IH; [lia|lia|done|].
    intros j t Hj. apply Hstep. lia.
Qed.

Lemma for_loop_invariant {S : Type} (P : Z -> S -> Prop) lo hi body (s : S) :
  INT_MIN <= lo -> lo <= hi -> hi <= INT_MAX ->
  P lo s ->
  (forall i t, lo <= i < hi -> P i t ->
               exists t', body i t = Some t' /\ P (i + 1) t') ->
  exists t, for_loop lo hi body s = Some t /\ P hi t.
Proof.
  intros Hmin Hle Hmax Hinit Hstep. unfold for_loop.
  apply for_steps_invariant; auto. lia.
Qed.

Lemma memcpy_full dst src n :
  Z.of_nat (length dst) = n -> Z.of_nat (length src) = n ->
  memcpy dst src n = Some src.
Proof.
  intros Hd Hs. unfold memcpy.
  destruct (Z.leb_spec 0 n); [|lia].
  destruct (Z.leb_spec n (Z.of_nat (length dst))); [|lia].
  destruct (Z.leb_spec n (Z.of_nat (length src))); [|lia].
  simpl. rewrite take_ge, drop_ge by lia. by rewrite app_nil_r.
Qed.

Lemma memset0_full dst n :
  Z.of_nat (length dst) = n ->
  memset0 dst n = Some (replicate (length dst) false).
Proof.
  intros Hd. unfold memset0.
  destruct (Z.leb_spec 0 n); [|lia].
  destruct (Z.leb_spec n (Z.of_nat (length dst))); [|lia].
  simpl. rewrite drop_ge, app_nil_r by lia.
  by replace (Z.to_nat n) with (length dst) by lia.
Qed.

Section UpdateGrid.
Variable C : config.
Variable s : buffers.
Hypothesis Hok : buffers_ok C s.

Lemma update_cell_scanned i j t :
  in_range C i j -> scanned_up_to C s i j t ->
  exists t', update_cell C i j t = Some t' /\ scanned_up_to C s i (j + 1) t'.
Proof.
  intros Hij (Hg & Hsz & Hng & Hdone).
  destruct Hok as (Hgrid & _ & _).
  unfold update_cell. rewrite Hg.
  rewrite (is_alive_value C (grid s) Hgrid i j Hij). simpl.
  rewrite (set_cell_in_range C (next_gen t) Hng i j _ Hij). simpl.
  eexists. split; [reflexivity|].
  unfold scanned_up_to, with_next_gen; simpl.
  split; [done|]. split; [done|].
  split; [by apply is_grid_insert|].
  intros x y Hxy Hbefore.
  destruct (decide ((x, y) = (i, j))) as [[= -> ->]|Hne].
  - by rewrite (cell_at_insert_eq C (next_gen t) Hng i j _ Hij).
  - rewrite (cell_at_insert_ne C (next_gen t) Hng i j x y _ Hij Hxy Hne).
    apply Hdone; [done|].
    destruct (decide (x = i)) as [->|?]; [|lia].
    right. split; [done|].
    assert (y <> j) by congruence. lia.
Qed.

Lemma update_row_scanned i t :
  0 <= i < width C -> scanned_up_to C s i 0 t ->
  exists t',
    for_loop 0 (height C) (fun j u => update_cell C i j u) t = Some t' /\
    scanned_up_to C s (i + 1) 0 t'.
Proof.
  intros Hi Hinv.
  destruct Hok as ((Hw & Hh & Hfit & _) & _ & _).
  assert (height C <= INT_MAX) by nia.
  destruct (for_loop_invariant (fun j u => scanned_up_to C s i j u) 0 (height C)
              (fun j u => update_cell C i j u) t)
    as (t' & Hrun & Ht'); unfold INT_MIN; try lia; try done.
  - intros j u Hj Hu. apply update_cell_scanned; [|done]. split; lia.
  - exists t'. split; [done|].
    destruct Ht' as (Hg & Hsz & Hng & Hdone).
    repeat split; try done; try apply Hng.
    intros x y Hxy Hbefore. apply Hdone; [done|].
    destruct Hxy as [_ Hy]. lia.
Qed.

(** One generation: the step is defined, keeps the buffers well-formed, and
    the new value of every cell is the rule applied to the generation the
    step started with. *)
Lemma update_grid_run :
  exists s',
    update_grid C s = Some s' /\ buffers_ok C s' /\
    forall x y, in_range C x y -> cell_at C (grid s') x y = next_cell C (grid s) x y.
Proof.
  pose proof Hok as ((Hw & Hh & Hfit & Hlen) & Hng & Hsz).
  assert (width C <= INT_MAX) by nia.
  destruct (for_loop_invariant (fun i u => scanned_up_to C s i 0 u) 0 (width C)
              (fun i u => for_loop 0 (height C)
                            (fun j u => update_cell C i j u) u) s)
    as (t & Hrun & Hg & Hsz' & Hng' & Hdone); unfold INT_MIN; try lia.
  - repeat split; try done; try apply Hng.
    intros x y [Hx Hy] Hbefore. lia.
  - intros i u Hi Hu. by apply update_row_scanned.
  - unfold update_grid. rewrite Hrun. simpl.
    rewrite memcpy_full with (n := grid_size t).
    + simpl. eexists. split; [reflexivity|].
      unfold buffers_ok, with_grid; simpl.
      split; [by rewrite Hsz', Hsz|].
      intros x y Hxy. apply Hdone; [done|]. destruct Hxy. lia.
    + rewrite Hg, Hsz', Hsz. exact Hlen.
    + rewrite Hsz', Hsz. apply Hng'.
Qed.
End UpdateGrid.

(** The grids [main] sets up are well-formed and all dead, provided the
    dimensions are positive, their product is an [int] and [malloc]
    succeeds. *)
Lemma init_grids_ok (w : world) :
  1 <= width (C w) -> 1 <= height (C w) ->
  width (C w) * height (C w) <= INT_MAX ->
  malloc_succeeds (env w) = true ->
  exists w',
    init_grids w = Some (tt, w') /\ C w' = C w /\
    buffers_ok (C w) (bufs w') /\
    forall x y, in_range (C w) x y -> cell_at (C w) (grid (bufs w')) x y = false.
Proof.
  intros Hw Hh Hfit Hmalloc.
  assert (alloc_size (C w) = width (C w) * height (C w)) as Hsize
    by (apply alloc_size_exact; [nia|nia|done]).
  unfold init_grids, malloc_block, emit, m_bind, m_get, m_put, m_ret,
    m_option, id.
  simpl. rewrite Hmalloc, Hsize.
  set (n := width (C w) * height (C w)).
  assert (Z.of_nat (length (map (fresh_memory (env w)) (seq 0 (Z.to_nat n))))
          = n) as Hlen by (rewrite length_map, length_seq; lia).
  rewrite (memset0_full _ n Hlen). simpl.
  eexists. split; [reflexivity|]. split; [reflexivity|].
  rewrite length_map, length_seq.
  assert (is_grid (C w) (replicate (Z.to_nat n) false)) as Hgrid
    by (unfold is_grid; rewrite length_replicate; lia).
  split; [by repeat split; try apply Hgrid|].
  intros x y Hxy. simpl. unfold cell_at. rewrite nth_lookup.
  destruct (replicate (Z.to_nat n) false !! _) as [b|] eqn:Hl; [|done].
  by apply lookup_replicate in Hl as [-> _].
Qed.

(* ====================================================================== *)
(** ** Cell access *)
(* ====================================================================== *)

(** C10: on a grid of width [w >= 1] and height [h >= 1], for coordinates
    [(x, y)] and [(x', y')] of the grid and every value [v]:
    [set_cell (x, y, v)] is defined; reading [(x, y)] afterwards returns [v];
    and when [(x', y')] differs from [(x, y)] the two cells have different
    flat indices and reading [(x', y')] returns what it returned before the
    write. *)
Theorem set_cell_then_get_cell (c : config) (arr : list bool)
  (x y x' y' : Z) (v : bool) :
  is_grid c arr -> in_range c x y -> in_range c x' y' ->
  exists arr',
    set_cell c arr x y v = Some arr' /\
    rd_value (get_cell c arr' x y) = Some v /\
    ((x', y') <> (x, y) ->
     cell_index c x' y' <> cell_index c x y /\
     is_Some (rd_value (get_cell c arr x' y')) /\
     rd_value (get_cell c arr' x' y') = rd_value (get_cell c arr x' y')).
Proof.
  intros Hgrid Hxy Hxy'.
  exists (<[Z.to_nat (x * height c + y) := v]> arr).
  pose proof (is_grid_insert c arr Hgrid (Z.to_nat (x * height c + y)) v)
    as Hgrid'.
  split; [by apply set_cell_in_range|].
  split.
  - rewrite (get_cell_in_range c _ Hgrid' x y Hxy). simpl.
    by rewrite (cell_at_insert_eq c arr Hgrid x y v Hxy).
  - intros Hne. split; [|split].
    + rewrite (cell_index_in_range c arr Hgrid x y Hxy).
      rewrite (cell_index_in_range c arr Hgrid x' y' Hxy').
      intros Heq. apply Hne.
      by destruct (flat_index_inj c x' y' x y Hxy' Hxy Heq) as [-> ->].
    + rewrite (get_cell_in_range c arr Hgrid x' y' Hxy'). by eexists.
    + rewrite (get_cell_in_range c _ Hgrid' x' y' Hxy').
      rewrite (get_cell_in_range c arr Hgrid x' y' Hxy'). simpl.
      by rewrite (cell_at_insert_ne c arr Hgrid x y x' y' v Hxy Hxy' Hne).
Qed.

Lemma set_cell_then_get_cell_witness :
  is_grid (config_of_size 5 3) blinker_horizontal /\
  in_range (config_of_size 5 3) 2 0 /\
  in_range (config_of_size 5 3) 1 1 /\
  exists arr',
    set_cell (config_of_size 5 3) blinker_horizontal 2 0 true = Some arr' /\
    rd_value (get_cell (config_of_size 5 3) arr' 2 0) = Some true /\
    ((1, 1) <> (2, 0) ->
     cell_index (config_of_size 5 3) 1 1 <> cell_index (config_of_size 5 3) 2 0 /\
     is_Some (rd_value (get_cell (config_of_size 5 3) blinker_horizontal 1 1)) /\
     rd_value (get_cell (config_of_size 5 3) arr' 1 1) =
     rd_value (get_cell (config_of_size 5 3) blinker_horizontal 1 1)).
Proof.
  assert (is_grid (config_of_size 5 3) blinker_horizontal) as Hg
    by (unfold is_grid, INT_MAX; simpl; lia).
  assert (in_range (config_of_size 5 3) 2 0) as H1
    by (unfold in_range; simpl; lia).
  assert (in_range (config_of_size 5 3) 1 1) as H2
    by (unfold in_range; simpl; lia).
  split; [exact Hg|]. split; [exact H1|]. split; [exact H2|].
  exact (set_cell_then_get_cell (config_of_size 5 3) blinker_horizontal
           2 0 1 1 true Hg H1 H2).
Defined.

(** C8: after [clear_grid], [get_cell] returns false at every coordinate of
    the grid. *)
Theorem clear_grid_all_dead (c : config) (s : buffers) :
  is_grid c (grid s) -> grid_size s = width c * height c ->
  exists s',
    clear_grid s = Some s' /\
    forall x y, in_range c x y ->
                rd_value (get_cell c (grid s') x y) = Some false.
Proof.
  intros Hgrid Hsize.
  assert (is_grid c (replicate (length (grid s)) false)) as Hgrid'
    by (unfold is_grid in *; by rewrite length_replicate).
  exists (with_grid s (replicate (length (grid s)) false)). split.
  - unfold clear_grid. rewrite memset0_full; [done|].
    rewrite Hsize. apply Hgrid.
  - intros x y Hxy. simpl.
    rewrite (get_cell_in_range c _ Hgrid' x y Hxy). simpl. f_equal.
    unfold cell_at. rewrite nth_lookup.
    destruct (replicate (length (grid s)) false !! _) as [b|] eqn:Hl; [|done].
    by apply lookup_replicate in Hl as [-> _].
Qed.

Lemma clear_grid_all_dead_witness :
  is_grid (config_of_size 5 3) (grid (buffers_of blinker_horizontal)) /\
  grid_size (buffers_of blinker_horizontal) =
    width (config_of_size 5 3) * height (config_of_size 5 3) /\
  exists s',
    clear_grid (buffers_of blinker_horizontal) = Some s' /\
    forall x y, in_range (config_of_size 5 3) x y ->
                rd_value (get_cell (config_of_size 5 3) (grid s') x y) =
                Some false.
Proof.
  assert (is_grid (config_of_size 5 3) (grid (buffers_of blinker_horizontal)))
    as Hg by (unfold is_grid, INT_MAX; simpl; lia).
  split; [exact Hg|]. split; [reflexivity|].
  exact (clear_grid_all_dead (config_of_size 5 3)
           (buffers_of blinker_horizontal) Hg eq_refl).
Defined.

(* ====================================================================== *)
(** ** Neighbor counting and one generation *)
(* ====================================================================== *)

(** C2: on a grid of width [w >= 1] and height [h >= 1] and for a coordinate
    [(x, y)] of the grid, [is_alive] is defined, and every cell it reads has
    coordinates inside the grid, is read at its flat index [x' * h + y'],
    which lies in [0, w * h), and is at distance at most one from [(x, y)] in
    both directions: no cell of the opposite edge is read. *)
Theorem is_alive_reads_in_bounds (c : config) (arr : list bool) (x y : Z) :
  is_grid c arr -> in_range c x y ->
  exists b log,
    is_alive c arr x y = Some (b, log) /\
    Forall (access_ok c x y) log.
Proof.
  intros Hgrid Hxy.
  destruct (is_alive_run c arr Hgrid x y Hxy) as (log & Hrun & Hlog).
  eauto.
Qed.

Lemma is_alive_reads_in_bounds_witness :
  is_grid (config_of_size 5 3) blinker_horizontal /\
  in_range (config_of_size 5 3) 0 2 /\
  exists b log,
    is_alive (config_of_size 5 3) blinker_horizontal 0 2 = Some (b, log) /\
    Forall (access_ok (config_of_size 5 3) 0 2) log.
Proof.
  assert (is_grid (config_of_size 5 3) blinker_horizontal) as Hg
    by (unfold is_grid, INT_MAX; simpl; lia).
  assert (in_range (config_of_size 5 3) 0 2) as H1
    by (unfold in_range; simpl; lia).
  split; [exact Hg|]. split; [exact H1|].
  exact (is_alive_reads_in_bounds (config_of_size 5 3) blinker_horizontal
           0 2 Hg H1).
Defined.

(** C1: one step of the simulation is defined on every grid state, and for
    every coordinate [(x, y)] of the grid the new value of the cell is given
    by the rule (an alive cell with fewer than 2 or more than 3 alive
    neighbors dies, an alive cell with 2 or 3 stays alive, a dead cell with
    exactly 3 becomes alive, any other dead cell stays dead) applied to the
    cell's value and to its number of alive neighbors over the Moore
    neighborhood clipped at the boundary, both taken in the generation the
    step started from. *)
Theorem update_grid_applies_rule (c : config) (s : buffers) :
  buffers_ok c s ->
  exists s',
    update_grid c s = Some s' /\
    forall x y, in_range c x y ->
      exists old new,
        rd_value (get_cell c (grid s) x y) = Some old /\
        rd_value (get_cell c (grid s') x y) = Some new /\
        life_rule old (alive_neighbors c (grid s) x y) new.
Proof.
  intros Hok.
  destruct (update_grid_run c s Hok) as (s' & Hrun & Hok' & Hnext).
  exists s'. split; [done|].
  intros x y Hxy.
  destruct Hok as (Hgrid & _). destruct Hok' as (Hgrid' & _).
  exists (cell_at c (grid s) x y), (cell_at c (grid s') x y).
  rewrite (get_cell_in_range c _ Hgrid x y Hxy).
  rewrite (get_cell_in_range c _ Hgrid' x y Hxy).
  split; [done|]. split; [done|].
  rewrite (Hnext x y Hxy). apply next_state_rule.
Qed.

Lemma update_grid_applies_rule_witness :
  buffers_ok (config_of_size 5 3) (buffers_of blinker_horizontal) /\
  exists s',
    update_grid (config_of_size 5 3) (buffers_of blinker_horizontal) = Some s' /\
    forall x y, in_range (config_of_size 5 3) x y ->
      exists old new,
        rd_value (get_cell (config_of_size 5 3)
                    (grid (buffers_of blinker_horizontal)) x y) = Some old /\
        rd_value (get_cell (config_of_size 5 3) (grid s') x y) = Some new /\
        life_rule old
          (alive_neighbors (config_of_size 5 3)
             (grid (buffers_of blinker_horizontal)) x y) new.
Proof.
  assert (buffers_ok (config_of_size 5 3) (buffers_of blinker_horizontal))
    as Hok by (unfold buffers_ok, is_grid, INT_MAX; simpl; lia).
  split; [exact Hok|].
  exact (update_grid_applies_rule (config_of_size 5 3)
           (buffers_of blinker_horizontal) Hok).
Defined.

(* ====================================================================== *)
(** ** The blinker *)
(* ====================================================================== *)

(** C3, as the code has it: on the 5 by 3 grid whose alive cells are exactly
    [(1,1)], [(2,1)], [(3,1)], one [update_grid] yields the grid whose alive
    cells are exactly [(2,0)], [(2,1)], [(2,2)]; of the original three,
    [(1,1)] and [(3,1)] are dead and the middle one, [(2,1)], stays alive. *)
Theorem blinker_step (c : config) (ng : list bool) :
  width c = 5 -> height c = 3 -> length ng = 15%nat ->
  exists s',
    update_grid c {| grid := blinker_horizontal; next_gen := ng;
                     grid_size := 15 |} = Some s' /\
    grid s' = blinker_vertical /\
    (forall x y, in_range c x y ->
                 rd_value (get_cell c (grid s') x y) = Some (x =? 2)) /\
    rd_value (get_cell c (grid s') 1 1) = Some false /\
    rd_value (get_cell c (grid s') 3 1) = Some false /\
    rd_value (get_cell c (grid s') 2 1) = Some true.
Proof.
  intros Hw Hh Hlen. destruct c as [w h sc dl bg fg cpc]. simpl in Hw, Hh.
  subst w h.
  do 15 (destruct ng as [|? ng]; [discriminate|]).
  destruct ng; [|discriminate].
  eexists. split; [vm_compute; reflexivity|].
  split; [reflexivity|]. split; [|by vm_compute].
  intros x y [Hx Hy]. simpl in Hx, Hy.
  assert (x = 0 \/ x = 1 \/ x = 2 \/ x = 3 \/ x = 4) as Hxs by lia.
  assert (y = 0 \/ y = 1 \/ y = 2) as Hys by lia.
  destruct Hxs as [->|[->|[->|[->| ->]]]];
    destruct Hys as [->|[->| ->]]; reflexivity.
Qed.

Lemma blinker_step_witness :
  width (config_of_size 5 3) = 5 /\ height (config_of_size 5 3) = 3 /\
  length (replicate 15 true) = 15%nat /\
  exists s',
    update_grid (config_of_size 5 3)
      {| grid := blinker_horizontal; next_gen := replicate 15 true;
         grid_size := 15 |} = Some s' /\
    grid s' = blinker_vertical /\
    (forall x y, in_range (config_of_size 5 3) x y ->
                 rd_value (get_cell (config_of_size 5 3) (grid s') x y) =
                 Some (x =? 2)) /\
    rd_value (get_cell (config_of_size 5 3) (grid s') 1 1) = Some false /\
    rd_value (get_cell (config_of_size 5 3) (grid s') 3 1) = Some false /\
    rd_value (get_cell (config_of_size 5 3) (grid s') 2 1) = Some true.
Proof.
  split; [reflexivity|]. split; [reflexivity|]. split; [reflexivity|].
  exact (blinker_step (config_of_size 5 3) (replicate 15 true)
           eq_refl eq_refl eq_refl).
Defined.

(** C3 as stated fails: after the step the three original cells are not all
    dead, since [(2,1)] belongs to both the old and the new blinker. *)
Lemma blinker_original_cells_not_all_dead :
  ~ exists s',
      update_grid (config_of_size 5 3) (buffers_of blinker_horizontal)
        = Some s' /\
      (forall x y, in_range (config_of_size 5 3) x y ->
                   rd_value (get_cell (config_of_size 5 3) (grid s') x y) =
                   Some (x =? 2)) /\
      rd_value (get_cell (config_of_size 5 3) (grid s') 1 1) = Some false /\
      rd_value (get_cell (config_of_size 5 3) (grid s') 2 1) = Some false /\
      rd_value (get_cell (config_of_size 5 3) (grid s') 3 1) = Some false.
Proof.
  intros (s' & Hrun & _ & _ & Hmid & _).
  vm_compute in Hrun. injection Hrun as <-.
  vm_compute in Hmid. discriminate.
Qed.

(* ====================================================================== *)
(** ** The block *)
(* ====================================================================== *)

(** Two grids with the same cells are the same list. *)
Lemma grid_ext (c : config) (a b : list bool) :
  is_grid c a -> is_grid c b ->
  (forall x y, in_range c x y -> cell_at c a x y = cell_at c b x y) ->
  a = b.
Proof.
  intros (Hw & Hh & _ & Hla) (_ & _ & _ & Hlb) Hcells.
  apply list_eq. intros i.
  destruct (decide (i < length a)%nat) as [Hi|Hi].
  - pose proof (Hcells (Z.of_nat i / height c) (Z.of_nat i mod height c))
      as Hc.
    assert (0 <= Z.of_nat i / height c < width c) as Hx.
    { split; [apply Z.div_pos; lia|].
      apply Z.div_lt_upper_bound; lia. }
    pose proof (Z.mod_pos_bound (Z.of_nat i) (height c) ltac:(lia)) as Hy.
    unfold cell_at in Hc.
    replace (Z.of_nat i / height c * height c + Z.of_nat i mod height c)
      with (Z.of_nat i) in Hc
      by (rewrite (Z.div_mod (Z.of_nat i) (height c)) at 1; lia).
    rewrite Nat2Z.id, !nth_lookup in Hc.
    destruct (lookup_lt_is_Some_2 a i Hi) as [va Ha].
    destruct (lookup_lt_is_Some_2 b i ltac:(lia)) as [vb Hb].
    rewrite Ha, Hb in *. simpl in Hc. f_equal. by apply Hc.
  - rewrite !lookup_ge_None_2; [done|lia|lia].
Qed.

(** Decides the comparisons of the goal one by one, dropping the cases the
    context excludes. *)
Ltac split_comparisons :=
  repeat match goal with
    | |- context [?a =? ?b] =>
        destruct (Z.eqb_spec a b); try (exfalso; lia)
    | |- context [?a <? ?b] =>
        destruct (Z.ltb_spec a b); try (exfalso; lia)
    | |- context [?a >? ?b] => rewrite (Z.gtb_ltb a b)
    end.

Section Block.
Variable c : config.
Variable arr : list bool.
Hypothesis Hgrid : is_grid c arr.
Variables bx by_ : Z.
Hypothesis Hbx : 0 <= bx /\ bx + 1 < width c.
Hypothesis Hby : 0 <= by_ /\ by_ + 1 < height c.
Hypothesis Hblock : block_alive c arr bx by_.

Lemma guarded_block_cell (g : bool) x y :
  (g = true -> in_range c x y) ->
  g && cell_at c arr x y = g && in_block bx by_ x y.
Proof. intros Hg. destruct g; [|done]. simpl. apply Hblock. by apply Hg. Qed.

(** Every cell of a block grid keeps its value under the rule. *)
Lemma block_next_state x y :
  in_range c x y ->
  next_state (cell_at c arr x y) (alive_neighbors c arr x y) =
  cell_at c arr x y.
Proof.
  intros Hxy. rewrite (alive_neighbors_guards c arr x y Hxy).
  rewrite (Hblock x y Hxy). pose proof Hxy as [Hx Hy].
  rewrite !guarded_block_cell
    by (intros Hg; bool_hyps; unfold in_range; lia).
  unfold in_block.
  split_comparisons; reflexivity.
Qed.
End Block.

Lemma block_one_step (c : config) (s : buffers) (bx by_ : Z) :
  buffers_ok c s ->
  0 <= bx /\ bx + 1 < width c -> 0 <= by_ /\ by_ + 1 < height c ->
  block_alive c (grid s) bx by_ ->
  exists s', update_grid c s = Some s' /\ buffers_ok c s' /\ grid s' = grid s.
Proof.
  intros Hok Hbx Hby Hblock.
  destruct (update_grid_run c s Hok) as (s' & Hrun & Hok' & Hnext).
  exists s'. split; [done|]. split; [done|].
  destruct Hok as (Hgrid & _). destruct Hok' as (Hgrid' & _).
  apply (grid_ext c); [done|done|].
  intros x y Hxy. rewrite (Hnext x y Hxy).
  by apply (block_next_state c (grid s) bx by_).
Qed.

(** C4: when the alive cells of a grid are exactly a 2 by 2 block that lies
    inside the grid, applying [update_grid] any number of times is defined
    and leaves the grid unchanged. *)
Theorem block_is_still_life (c : config) (s : buffers) (bx by_ : Z) (n : nat) :
  buffers_ok c s ->
  0 <= bx /\ bx + 1 < width c -> 0 <= by_ /\ by_ + 1 < height c ->
  block_alive c (grid s) bx by_ ->
  exists s', update_grid_n c n s = Some s' /\ grid s' = grid s.
Proof.
  intros Hok Hbx Hby. revert s Hok.
  induction n as [|n IH]; intros s Hok Hblock.
  - exists s. by split.
  - destruct (block_one_step c s bx by_ Hok Hbx Hby Hblock)
      as (s1 & Hrun & Hok1 & Hsame).
    destruct (IH s1 Hok1) as (s' & Hrun' & Hsame').
    { by rewrite Hsame. }
    exists s'. simpl. rewrite Hrun. simpl. split; [done|congruence].
Qed.

Lemma block_is_still_life_witness :
  buffers_ok (config_of_size 4 4) (buffers_of block_grid) /\
  (0 <= 1 /\ 1 + 1 < width (config_of_size 4 4)) /\
  (0 <= 1 /\ 1 + 1 < height (config_of_size 4 4)) /\
  block_alive (config_of_size 4 4) (grid (buffers_of block_grid)) 1 1 /\
  exists s',
    update_grid_n (config_of_size 4 4) 3 (buffers_of block_grid) = Some s' /\
    grid s' = grid (buffers_of block_grid).
Proof.
  assert (buffers_ok (config_of_size 4 4) (buffers_of block_grid)) as Hok
    by (unfold buffers_ok, is_grid, INT_MAX; simpl; lia).
  assert (0 <= 1 /\ 1 + 1 < width (config_of_size 4 4)) as Hbx
    by (simpl; lia).
  assert (0 <= 1 /\ 1 + 1 < height (config_of_size 4 4)) as Hby
    by (simpl; lia).
  assert (block_alive (config_of_size 4 4) (grid (buffers_of block_grid)) 1 1)
    as Hblock.
  { intros x y [Hx Hy]. simpl in Hx, Hy.
    assert (x = 0 \/ x = 1 \/ x = 2 \/ x = 3) as Hxs by lia.
    assert (y = 0 \/ y = 1 \/ y = 2 \/ y = 3) as Hys by lia.
    destruct Hxs as [->|[->|[->| ->]]];
      destruct Hys as [->|[->|[->| ->]]]; reflexivity. }
  split; [exact Hok|]. split; [exact Hbx|]. split; [exact Hby|].
  split; [exact Hblock|].
  exact (block_is_still_life (config_of_size 4 4) (buffers_of block_grid)
           1 1 3 Hok Hbx Hby Hblock).
Defined.

(* ====================================================================== *)
(** ** The editor: mouse motion *)
(* ====================================================================== *)

(** C7: a mouse-motion event handled while the drawing flag and the erasing
    flag are both false changes nothing: the grid is the same and no call is
    made to the renderer (in particular no single-pixel notification).  The
    handler is defined whenever the division by the scale is. *)
Theorem motion_without_flags (w : world) (px py : Z) :
  draw_flag w = false -> erase_flag w = false ->
  (forall f w', handle_event (SDL_MOUSEMOTION px py) w = Some (f, w') ->
                f = Continue /\ w' = w /\
                grid (bufs w') = grid (bufs w) /\ calls w' = calls w) /\
  (is_Some (div_scale (C w) px) -> is_Some (div_scale (C w) py) ->
   handle_event (SDL_MOUSEMOTION px py) w = Some (Continue, w)).
Proof.
  intros Hdraw Herase.
  unfold handle_event, m_bind, m_get, m_option, when, m_ret. simpl.
  rewrite Hdraw, Herase.
  destruct (div_scale (C w) px) as [x|]; simpl.
  - destruct (div_scale (C w) py) as [y|]; simpl.
    + split; [|done]. by intros f w' [= <- <-].
    + split; [done|]. by intros _ [? ?].
  - split; [done|]. by intros [? ?].
Qed.

Lemma motion_without_flags_witness :
  draw_flag lone_cell_world = false /\ erase_flag lone_cell_world = false /\
  (forall f w',
     handle_event (SDL_MOUSEMOTION 0 0) lone_cell_world = Some (f, w') ->
     f = Continue /\ w' = lone_cell_world /\
     grid (bufs w') = grid (bufs lone_cell_world) /\
     calls w' = calls lone_cell_world) /\
  handle_event (SDL_MOUSEMOTION 0 0) lone_cell_world =
    Some (Continue, lone_cell_world).
Proof.
  split; [reflexivity|]. split; [reflexivity|].
  destruct (motion_without_flags lone_cell_world 0 0 eq_refl eq_refl)
    as [Hany Hdefined].
  split; [exact Hany|].
  apply Hdefined; vm_compute; eauto.
Defined.

(* ====================================================================== *)
(** ** The ghost cursor *)
(* ====================================================================== *)

Lemma draw_pixel_calls x y color w :
  draw_pixel x y color w =
    Some (tt, add_calls (pixel_notification x y color) w).
Proof.
  unfold draw_pixel, emit, m_bind, m_put, pixel_notification, add_calls.
  simpl. by rewrite <- !app_assoc.
Qed.

(** C6: on an invocation of [draw_cursor_pixel] with [cp.active] set, let
    [(x, y)] be the cursor's cell.  The calls made are: a ghost-color pixel
    notification for [(x, y)] exactly when that cell is dead, followed by a
    notification restoring the previous cell to its snapshot color, the
    foreground color if [cp.prev_state] is true and the background color
    otherwise, exactly when [(x, y)] differs from it.  So when the cell is alive nothing is
    drawn at [(x, y)], and a move always restores the cell that was left.
    The grid is not changed.  The invocation is defined whenever the
    division by the scale is and the cursor's cell is in the grid. *)
Theorem ghost_cursor_update (w : world) (mouse : Z * Z) :
  active (cp w) = true ->
  (forall u w', draw_cursor_pixel mouse w = Some (u, w') ->
     let x := cp_x (cp w') in
     let y := cp_y (cp w') in
     let moved := negb (x =? prev_x (cp w)) || negb (y =? prev_y (cp w)) in
     exists alive emitted,
       rd_value (get_cell (C w) (grid (bufs w)) x y) = Some alive /\
       calls w' = calls w ++ emitted /\
       emitted =
         (if alive then [] else pixel_notification x y (cp_color (C w))) ++
         (if moved
          then pixel_notification (prev_x (cp w)) (prev_y (cp w))
                 (if prev_state (cp w) then fg_color (C w)
                  else bg_color (C w))
          else []) /\
       (alive = true -> forallb (fun c => negb (draws_at x y c)) emitted = true) /\
       bufs w' = bufs w) /\
  (forall x y,
     div_scale (C w) (fst mouse) = Some x ->
     div_scale (C w) (snd mouse) = Some y ->
     is_grid (C w) (grid (bufs w)) -> in_range (C w) x y ->
     exists w', draw_cursor_pixel mouse w = Some (tt, w') /\
                cp_x (cp w') = x /\ cp_y (cp w') = y).
Proof.
  intros Hactive.
  unfold draw_cursor_pixel, snapshot_color, grid_cell, when.
  unfold m_bind, m_get, m_option, m_put, m_ret, id. rewrite Hactive. simpl.
  destruct (div_scale (C w) (fst mouse)) as [x|]; simpl;
    [|split; [done|by intros ? ? [=]]].
  destruct (div_scale (C w) (snd mouse)) as [y|]; simpl;
    [|split; [done|by intros ? ? _ [=]]].
  split.
  - destruct (rd_value (get_cell (C w) (grid (bufs w)) x y)) as [alive|]
      eqn:Hcell; simpl; [|done].
    intros u w' Hrun. exists alive. revert Hrun.
    destruct alive; cbn -[pixel_notification];
      destruct (negb (x =? prev_x (cp w)) || negb (y =? prev_y (cp w)))
        eqn:Hmoved; cbn -[pixel_notification];
      rewrite ?draw_pixel_calls; cbn -[pixel_notification];
      rewrite ?Hcell; cbn -[pixel_notification];
      intros [= <- <-]; cbn -[pixel_notification]; rewrite ?Hmoved;
      eexists;
      (split; [exact Hcell|]);
      (refine (conj _ (conj eq_refl _));
       [ cbn -[pixel_notification]; rewrite ?app_nil_r, <- ?app_assoc;
         reflexivity |]);
      (split; [|reflexivity]); try done.
    intros _. simpl. rewrite !andb_true_r.
    destruct (x =? prev_x (cp w)) eqn:Ex, (y =? prev_y (cp w)) eqn:Ey;
      simpl in Hmoved; try discriminate;
      rewrite ?(Z.eqb_sym (prev_x (cp w)) x), ?(Z.eqb_sym (prev_y (cp w)) y),
        ?Ex, ?Ey; simpl; rewrite ?andb_false_r; reflexivity.
  - intros x0 y0 [= <-] [= <-] Hgrid Hin.
    rewrite (get_cell_in_range (C w) _ Hgrid x y Hin). simpl.
    destruct (cell_at (C w) (grid (bufs w)) x y); simpl;
      destruct (negb (x =? prev_x (cp w)) || negb (y =? prev_y (cp w)));
      simpl; rewrite ?draw_pixel_calls; simpl;
      rewrite ?(get_cell_in_range (C w) _ Hgrid x y Hin); simpl; eauto.
Qed.

(* ====================================================================== *)
(** ** The run state *)
(* ====================================================================== *)

Lemma for_steps_preserves {S : Type} (P : S -> Prop) body hi :
  (forall i s s', P s -> body i s = Some s' -> P s') ->
  forall n i (s s' : S), P s -> for_steps n i hi body s = Some s' -> P s'.
Proof.
  intros Hbody. induction n as [|n IH]; intros i s s' Hs; simpl.
  - destruct (i <? hi); [done|]. by intros [= <-].
  - destruct (i <? hi); [|by intros [= <-]].
    destruct (body i s) as [t|] eqn:Ht; [|done].
    apply IH. by apply (Hbody i s).
Qed.

Lemma m_for_preserves (P : world -> Prop) lo hi body :
  (forall i w u w', P w -> body i w = Some (u, w') -> P w') ->
  forall w u w', P w -> m_for lo hi body w = Some (u, w') -> P w'.
Proof.
  intros Hbody w u w' Hw. unfold m_for, for_loop.
  destruct (for_steps _ _ _ _ w) as [t|] eqn:Ht; [|done].
  intros [= _ <-]. revert Ht. apply for_steps_preserves; [|done].
  intros i s s' Hs. destruct (body i s) as [[u' t']|] eqn:Hb; [|done].
  intros [= <-]. by apply (Hbody i s u').
Qed.

Lemma update_screen_state w u w' :
  update_screen w = Some (u, w') -> state w' = state w.
Proof.
  unfold update_screen, clear_screen, emit, m_bind, m_get, m_put, id. simpl.
  destruct (m_for _ _ _ _) as [[u1 w1]|] eqn:Hfor; [|done].
  intros [= _ <-]. simpl.
  revert Hfor. apply (m_for_preserves (fun v => state v = state w)); [|done].
  intros i v u2 v' Hv.
  apply (m_for_preserves (fun v => state v = state w)); [|done].
  clear. intros j v u v' Hv.
  unfold grid_cell, when, emit, m_bind, m_get, m_option, m_put, m_ret, id.
  destruct (rd_value _) as [[]|]; simpl; intros [= _ <-]; done.
Qed.

Lemma update_grid_cmd_state w u w' :
  update_grid_cmd w = Some (u, w') -> state w' = state w.
Proof.
  unfold update_grid_cmd, m_bind, m_get, m_option, m_put, id.
  destruct (update_grid _ _); simpl; [|done]. by intros [= _ <-].
Qed.

Lemma main_loop_quit frames w :
  state w = QUIT -> main_loop frames w = Some (Loop_left, w).
Proof. intros Hq. destruct frames; simpl; by rewrite Hq. Qed.

Lemma main_loop_cons f rest w :
  main_loop (f :: rest) w =
    if state_eqb (state w) QUIT then Some (Loop_left, w) else
    (handle_events (pending f) >>
     w' <-- m_get id ;
     if state_eqb (state w') PAUSED then
       draw_cursor_pixel (mouse f) >> main_loop rest
     else
       update_grid_cmd >> update_screen >> main_loop rest)%M w.
Proof. reflexivity. Qed.

Lemma handle_events_quit ev rest w :
  quit_signal ev = true ->
  handle_events (ev :: rest) w = Some (tt, set_state QUIT w).
Proof. destruct ev as [|[]| | | | |]; try discriminate; by intros _. Qed.

(** C5, as the code has it: the run state starts as [RUNNING]; the space key
    takes [RUNNING] to [PAUSED] and [PAUSED] to [RUNNING]; a quit signal (the
    window's quit request or the escape key) taken in [RUNNING] or [PAUSED]
    sets [QUIT] and ends [handle_events], leaving the rest of the pending
    events unhandled; a main loop that finds the state [QUIT] at its test
    does nothing more.  The iteration in which the quit signal arrives is
    still completed: [update_grid] and [update_screen] run once more before
    the loop is left. *)
Theorem run_state_machine (e : environment) (w : world) (ev : event)
  (rest : list event) (m : Z * Z) (frames : list frame) :
  state w <> QUIT -> quit_signal ev = true ->
  state (initial_world e) = RUNNING /\
  (exists w1 w2,
     handle_event (SDL_KEYDOWN SDLK_SPACE) w = Some (Continue, w1) /\
     handle_event (SDL_KEYDOWN SDLK_SPACE) w1 = Some (Continue, w2) /\
     (state w = RUNNING -> state w1 = PAUSED /\ state w2 = RUNNING) /\
     (state w = PAUSED -> state w1 = RUNNING)) /\
  handle_events (ev :: rest) w = Some (tt, set_state QUIT w) /\
  (forall later wq, state wq = QUIT ->
                    main_loop later wq = Some (Loop_left, wq)) /\
  main_loop (mkFrame (ev :: rest) m :: frames) w =
    match (update_grid_cmd >> update_screen)%M (set_state QUIT w) with
    | Some (_, w') => Some (Loop_left, w')
    | None => None
    end.
Proof.
  intros Hrun Hquit.
  split; [reflexivity|].
  split.
  { eexists _, _. split; [reflexivity|]. split; [reflexivity|].
    split; intros Hs; simpl; rewrite Hs; simpl; auto. }
  split; [by apply handle_events_quit|].
  split; [intros later wq; apply main_loop_quit|].
  rewrite main_loop_cons.
  replace (state_eqb (state w) QUIT) with false
    by (destruct (state w); simpl; congruence).
  unfold m_bind at 1. simpl pending.
  rewrite (handle_events_quit ev rest w Hquit).
  unfold m_bind at 1. unfold m_get at 1. unfold id. simpl state_eqb. cbv iota.
  unfold m_bind. change (state (set_state QUIT w)) with QUIT.
  change (state_eqb QUIT PAUSED) with false. cbv beta iota.
  destruct (update_grid_cmd (set_state QUIT w)) as [[u1 w1]|] eqn:H1; [|done].
  destruct (update_screen w1) as [[u2 w2]|] eqn:H2; [|done].
  apply main_loop_quit.
  rewrite (update_screen_state _ _ _ H2), (update_grid_cmd_state _ _ _ H1).
  reflexivity.
Qed.

Lemma run_state_machine_witness :
  state lone_cell_world <> QUIT /\ quit_signal SDL_QUIT = true /\
  state (initial_world quiet_env) = RUNNING /\
  (exists w1 w2,
     handle_event (SDL_KEYDOWN SDLK_SPACE) lone_cell_world
       = Some (Continue, w1) /\
     handle_event (SDL_KEYDOWN SDLK_SPACE) w1 = Some (Continue, w2) /\
     (state lone_cell_world = RUNNING ->
      state w1 = PAUSED /\ state w2 = RUNNING) /\
     (state lone_cell_world = PAUSED -> state w1 = RUNNING)) /\
  handle_events [SDL_QUIT; SDL_KEYDOWN SDLK_SPACE] lone_cell_world
    = Some (tt, set_state QUIT lone_cell_world) /\
  (forall later wq, state wq = QUIT ->
                    main_loop later wq = Some (Loop_left, wq)) /\
  main_loop [mkFrame [SDL_QUIT; SDL_KEYDOWN SDLK_SPACE] (0, 0)] lone_cell_world =
    match (update_grid_cmd >> update_screen)%M
            (set_state QUIT lone_cell_world) with
    | Some (_, w') => Some (Loop_left, w')
    | None => None
    end.
Proof.
  assert (state lone_cell_world <> QUIT) as Hrun by discriminate.
  split; [exact Hrun|]. split; [reflexivity|].
  exact (run_state_machine quiet_env lone_cell_world SDL_QUIT
           [SDL_KEYDOWN SDLK_SPACE] (0, 0) [] Hrun eq_refl).
Defined.

(** C5 as stated fails: after the quit signal has set [QUIT], the main loop
    still performs one simulation step and one redraw.  Here a lone alive
    cell dies after the quit event was handled. *)
Lemma quit_is_followed_by_a_step :
  handle_events [SDL_QUIT] lone_cell_world
    = Some (tt, set_state QUIT lone_cell_world) /\
  grid (bufs (set_state QUIT lone_cell_world)) = [true] /\
  (exists w',
     main_loop [mkFrame [SDL_QUIT] (0, 0)] lone_cell_world
       = Some (Loop_left, w') /\
     state w' = QUIT /\ grid (bufs w') = [false] /\
     calls w' <> calls lone_cell_world) /\
  ~ (forall u w',
       main_loop [mkFrame [SDL_QUIT] (0, 0)] lone_cell_world = Some (u, w') ->
       grid (bufs w') = grid (bufs (set_state QUIT lone_cell_world))).
Proof.
  split; [reflexivity|]. split; [reflexivity|]. split.
  - eexists. split; [vm_compute; reflexivity|].
    split; [reflexivity|]. split; [reflexivity|]. discriminate.
  - intros H.
    destruct (main_loop [mkFrame [SDL_QUIT] (0, 0)] lone_cell_world)
      as [[u w']|] eqn:Hrun; [|by vm_compute in Hrun].
    specialize (H u w' eq_refl).
    vm_compute in Hrun. injection Hrun as _ <-. discriminate.
Qed.

Lemma ghost_cursor_update_witness :
  active (cp ghost_world) = true /\
  (forall u w', draw_cursor_pixel (1, 0) ghost_world = Some (u, w') ->
     let x := cp_x (cp w') in
     let y := cp_y (cp w') in
     let moved := negb (x =? prev_x (cp ghost_world))
                  || negb (y =? prev_y (cp ghost_world)) in
     exists alive emitted,
       rd_value (get_cell (C ghost_world) (grid (bufs ghost_world)) x y)
         = Some alive /\
       calls w' = calls ghost_world ++ emitted /\
       emitted =
         (if alive then []
          else pixel_notification x y (cp_color (C ghost_world))) ++
         (if moved
          then pixel_notification (prev_x (cp ghost_world))
                 (prev_y (cp ghost_world))
                 (if prev_state (cp ghost_world) then fg_color (C ghost_world)
                  else bg_color (C ghost_world))
          else []) /\
       (alive = true ->
        forallb (fun c => negb (draws_at x y c)) emitted = true) /\
       bufs w' = bufs ghost_world) /\
  exists w', draw_cursor_pixel (1, 0) ghost_world = Some (tt, w') /\
             cp_x (cp w') = 1 /\ cp_y (cp w') = 0.
Proof.
  split; [reflexivity|].
  destruct (ghost_cursor_update ghost_world (1, 0) eq_refl)
    as [Hany Hdefined].
  split; [exact Hany|].
  apply Hdefined.
  - reflexivity.
  - reflexivity.
  - unfold is_grid, INT_MAX; simpl; lia.
  - unfold in_range; simpl; lia.
Defined.

(* ====================================================================== *)
(** ** Startup *)
(* ====================================================================== *)

Section StartupFacts.
Variable atoi : string -> Z.
Variable atof : string -> cfloat.
Variable strtoul16 : string -> Z.

(** One result of [getopt]: a malformed one makes [set_config] report one
    message and return false; any other lets the loop go on silently.
    Neither touches the buffers. *)
Lemma set_config_option_run opt optarg w :
  exists w',
    set_config_option atoi atof strtoul16 opt optarg w =
      Some (if malformed atoi atof (opt, optarg) then Some false else None, w') /\
    bufs w' = bufs w /\
    if malformed atoi atof (opt, optarg)
    then exists msg, calls w' = calls w ++ [fprintf_stderr msg]
    else calls w' = calls w.
Proof.
  unfold set_config_option, malformed.
  repeat match goal with
    | |- context [(opt =? ?c)%char] =>
        destruct (Ascii.eqb_spec opt c) as [->|?]
    end;
    cbn -[String.append newline];
    unfold m_bind, m_get, m_put, m_ret, emit, id;
    destruct (atoi optarg <=? 0), (atoi optarg <? 0),
      (float_le0 (atof optarg));
    cbn -[String.append newline];
    eexists; (split; [reflexivity|]); (split; [reflexivity|]);
    first [reflexivity | eexists; reflexivity].
Qed.

Lemma set_config_options_malformed opts :
  Exists (fun o => malformed atoi atof o = true) opts ->
  forall w, exists w' msg,
    set_config_options atoi atof strtoul16 opts w = Some (Some false, w') /\
    bufs w' = bufs w /\
    calls w' = calls w ++ [fprintf_stderr msg].
Proof.
  induction opts as [|[opt optarg] rest IH]; intros Hex w.
  - by apply Exists_nil in Hex.
  - simpl. unfold m_bind.
    destruct (set_config_option_run opt optarg w) as (w1 & -> & Hbufs & Hcalls).
    destruct (malformed atoi atof (opt, optarg)) eqn:Hbad.
    + destruct Hcalls as [msg Hcalls]. by exists w1, msg.
    + apply Exists_cons in Hex as [Hhd|Htl]; [congruence|].
      destruct (IH Htl w1) as (w' & msg & -> & Hbufs' & Hcalls').
      exists w', msg. split; [done|]. split; congruence.
Qed.
End StartupFacts.

(** C9: when one of the options that [getopt] reports is a width, height or
    scale whose value is not positive, a delay whose value is negative, an
    unknown option, or an option that lacks its argument, [set_config]
    returns false after reporting one message on the standard error, and
    [main] returns [EXIT_FAILURE], which is not zero, having made no other
    call: no buffer has been allocated and the grid globals are as they
    were at program start. *)
Theorem malformed_option_is_fatal (atoi : string -> Z) (atof : string -> cfloat)
  (strtoul16 : string -> Z) (opts : list (ascii * string))
  (operands : list string) (frames : list frame) (e : environment) :
  Exists (fun o => malformed atoi atof o = true) opts ->
  exists w' msg,
    set_config atoi atof strtoul16 opts operands (initial_world e)
      = Some (Returns false, w') /\
    main atoi atof strtoul16 opts operands frames (initial_world e)
      = Some (Exited EXIT_FAILURE, w') /\
    EXIT_FAILURE <> 0 /\
    calls w' = [fprintf_stderr msg] /\
    bufs w' = bufs (initial_world e).
Proof.
  intros Hex.
  destruct (set_config_options_malformed atoi atof strtoul16 opts Hex
              (initial_world e)) as (w' & msg & Hrun & Hbufs & Hcalls).
  exists w', msg.
  assert (set_config atoi atof strtoul16 opts operands (initial_world e)
          = Some (Returns false, w')) as Hconfig.
  { unfold set_config, m_bind. by rewrite Hrun. }
  split; [done|]. split.
  - unfold main. unfold m_bind at 1. by rewrite Hconfig.
  - split; [done|]. by split.
Qed.

Lemma malformed_option_is_fatal_witness :
  Exists (fun o => malformed toy_atoi toy_atof o = true)
    [("d"%char, "12"%string); ("w"%char, "-5"%string); ("h"%char, "3"%string)] /\
  exists w' msg,
    set_config toy_atoi toy_atof toy_atoi
      [("d"%char, "12"%string); ("w"%char, "-5"%string); ("h"%char, "3"%string)]
      ["help"%string] (initial_world quiet_env)
      = Some (Returns false, w') /\
    main toy_atoi toy_atof toy_atoi
      [("d"%char, "12"%string); ("w"%char, "-5"%string); ("h"%char, "3"%string)]
      ["help"%string] [] (initial_world quiet_env)
      = Some (Exited EXIT_FAILURE, w') /\
    EXIT_FAILURE <> 0 /\
    calls w' = [fprintf_stderr msg] /\
    bufs w' = bufs (initial_world quiet_env).
Proof.
  assert (Exists (fun o => malformed toy_atoi toy_atof o = true)
            [("d"%char, "12"%string); ("w"%char, "-5"%string);
             ("h"%char, "3"%string)]) as Hex
    by (apply Exists_cons_tl, Exists_cons_hd; reflexivity).
  split; [exact Hex|].
  exact (malformed_option_is_fatal toy_atoi toy_atof toy_atoi _
           ["help"%string] [] quiet_env Hex).
Defined.

(* ====================================================================== *)
(** ** Colors *)
(* ====================================================================== *)

(** X1: [extract_color] splits a 32-bit RGBA value into four bytes, most
    significant first, and the four bytes determine the value. *)
Theorem extract_color_roundtrip (color : Z) :
  0 <= color < 2 ^ 32 ->
  exists r g b a,
    extract_color color = (r, g, b, a) /\
    0 <= r < 256 /\ 0 <= g < 256 /\ 0 <= b < 256 /\ 0 <= a < 256 /\
    color = r * 2 ^ 24 + g * 2 ^ 16 + b * 2 ^ 8 + a.
Proof.
  intros Hc. unfold extract_color. eexists _, _, _, _.
  split; [reflexivity|].
  change 255 with (Z.ones 8).
  rewrite !Z.land_ones, !Z.shiftr_div_pow2 by lia.
  change (2 ^ 0) with 1. change (2 ^ 8) with 256.
  change (2 ^ 16) with 65536. change (2 ^ 24) with 16777216.
  change (2 ^ 32) with 4294967296 in Hc.
  Z.to_euclidean_division_equations. lia.
Qed.

Lemma extract_color_roundtrip_witness :
  0 <= 0x444444FF < 2 ^ 32 /\
  exists r g b a,
    extract_color 0x444444FF = (r, g, b, a) /\
    0 <= r < 256 /\ 0 <= g < 256 /\ 0 <= b < 256 /\ 0 <= a < 256 /\
    0x444444FF = r * 2 ^ 24 + g * 2 ^ 16 + b * 2 ^ 8 + a.
Proof.
  assert (0 <= 0x444444FF < 2 ^ 32) as H by (simpl; lia).
  split; [exact H|]. exact (extract_color_roundtrip 0x444444FF H).
Defined.

(* ====================================================================== *)
(** ** More on one generation *)
(* ====================================================================== *)

(** What [update_grid] leaves behind: well-formed buffers of the same size,
    the scratch buffer equal to the new grid, and the new grid given by the
    old one. *)
Lemma update_grid_result (c : config) (s : buffers) :
  buffers_ok c s ->
  exists s',
    update_grid c s = Some s' /\ buffers_ok c s' /\
    next_gen s' = grid s' /\ grid_size s' = grid_size s /\
    forall x y, in_range c x y ->
                cell_at c (grid s') x y = next_cell c (grid s) x y.
Proof.
  intros Hok.
  destruct (update_grid_run c s Hok) as (s' & Hrun & Hok' & Hnext).
  exists s'. split; [done|]. split; [done|].
  pose proof Hok as (_ & _ & Hsz).
  pose proof Hok' as ((_ & _ & _ & Hlg) & (_ & _ & _ & Hln) & Hsz').
  unfold update_grid in Hrun.
  apply bind_Some in Hrun as (t & _ & Hrun).
  apply bind_Some in Hrun as (g & Hcopy & [= <-]).
  unfold memcpy in Hcopy.
  destruct (_ && _ && _) eqn:Hb; [|done].
  injection Hcopy as <-. simpl in *.
  bool_hyps.
  assert (Z.to_nat (grid_size t) = length (next_gen t)) as Hn by lia.
  rewrite length_app, length_take, length_drop in Hlg.
  assert (take (Z.to_nat (grid_size t)) (next_gen t) ++
          drop (Z.to_nat (grid_size t)) (grid t) = next_gen t) as Hcopy.
  { rewrite Hn, take_ge, drop_ge by lia. apply app_nil_r. }
  rewrite Hcopy in *. split; [done|]. split; [lia|]. done.
Qed.

(** X2: one [update_grid] on well-formed buffers is defined and keeps them
    well-formed, leaves [grid_size] as it was, and ends with the scratch
    buffer [next_gen] holding a copy of the new grid. *)
Theorem update_grid_keeps_buffers (c : config) (s : buffers) :
  buffers_ok c s ->
  exists s',
    update_grid c s = Some s' /\ buffers_ok c s' /\
    grid_size s' = grid_size s /\ next_gen s' = grid s'.
Proof.
  intros Hok.
  destruct (update_grid_result c s Hok) as (s' & ? & ? & ? & ? & _).
  by exists s'.
Qed.

Lemma update_grid_keeps_buffers_witness :
  buffers_ok (config_of_size 5 3) (buffers_of blinker_horizontal) /\
  exists s',
    update_grid (config_of_size 5 3) (buffers_of blinker_horizontal) = Some s' /\
    buffers_ok (config_of_size 5 3) s' /\
    grid_size s' = grid_size (buffers_of blinker_horizontal) /\
    next_gen s' = grid s'.
Proof.
  assert (buffers_ok (config_of_size 5 3) (buffers_of blinker_horizontal))
    as Hok by (unfold buffers_ok, is_grid, INT_MAX; simpl; lia).
  split; [exact Hok|].
  exact (update_grid_keeps_buffers (config_of_size 5 3)
           (buffers_of blinker_horizontal) Hok).
Defined.

(** X3: the result of [update_grid] does not depend on what the scratch
    buffer held: two well-formed states with the same grid step to the same
    state. *)
Theorem update_grid_ignores_scratch (c : config) (s1 s2 : buffers) :
  buffers_ok c s1 -> buffers_ok c s2 -> grid s1 = grid s2 ->
  exists s', update_grid c s1 = Some s' /\ update_grid c s2 = Some s'.
Proof.
  intros Hok1 Hok2 Hsame.
  destruct (update_grid_result c s1 Hok1)
    as (s1' & Hrun1 & Hok1' & Hng1 & Hsz1 & Hnext1).
  destruct (update_grid_result c s2 Hok2)
    as (s2' & Hrun2 & Hok2' & Hng2 & Hsz2 & Hnext2).
  exists s1'. split; [done|]. rewrite Hrun2. f_equal.
  assert (grid s2' = grid s1') as Hg.
  { apply (grid_ext c); [apply Hok2'|apply Hok1'|].
    intros x y Hxy. by rewrite Hnext1, Hnext2, Hsame. }
  destruct Hok1 as (_ & _ & Hs1). destruct Hok2 as (_ & _ & Hs2).
  destruct s1' as [g1 n1 z1], s2' as [g2 n2 z2]. simpl in *.
  congruence.
Qed.

Lemma update_grid_ignores_scratch_witness :
  buffers_ok (config_of_size 5 3) (buffers_of blinker_horizontal) /\
  buffers_ok (config_of_size 5 3)
    {| grid := blinker_horizontal; next_gen := blinker_vertical;
       grid_size := 15 |} /\
  grid (buffers_of blinker_horizontal) =
    grid {| grid := blinker_horizontal; next_gen := blinker_vertical;
            grid_size := 15 |} /\
  exists s',
    update_grid (config_of_size 5 3) (buffers_of blinker_horizontal) = Some s' /\
    update_grid (config_of_size 5 3)
      {| grid := blinker_horizontal; next_gen := blinker_vertical;
         grid_size := 15 |} = Some s'.
Proof.
  assert (buffers_ok (config_of_size 5 3) (buffers_of blinker_horizontal))
    as H1 by (unfold buffers_ok, is_grid, INT_MAX; simpl; lia).
  assert (buffers_ok (config_of_size 5 3)
            {| grid := blinker_horizontal; next_gen := blinker_vertical;
               grid_size := 15 |})
    as H2 by (unfold buffers_ok, is_grid, INT_MAX; simpl; lia).
  split; [exact H1|]. split; [exact H2|]. split; [reflexivity|].
  exact (update_grid_ignores_scratch (config_of_size 5 3) _ _ H1 H2 eq_refl).
Defined.

Lemma guarded_cell_as (c : config) (arr : list bool) (f : Z -> Z -> bool)
  (g : bool) x y :
  (forall x y, in_range c x y -> cell_at c arr x y = f x y) ->
  (g = true -> in_range c x y) ->
  g && cell_at c arr x y = g && f x y.
Proof. intros Hf Hg. destruct g; [|done]. simpl. apply Hf. by apply Hg. Qed.

Lemma all_dead_next (c : config) (arr : list bool) x y :
  is_grid c arr -> all_dead c arr -> in_range c x y ->
  next_cell c arr x y = false.
Proof.
  intros Hgrid Hdead Hxy. unfold next_cell.
  rewrite (alive_neighbors_guards c arr x y Hxy), (Hdead x y Hxy).
  pose proof Hxy as [Hx Hy].
  rewrite !(guarded_cell_as c arr (fun _ _ => false))
    by (first [exact Hdead | intros Hg; bool_hyps; unfold in_range; lia]).
  by rewrite !andb_false_r.
Qed.

(** X4: nothing is born on a grid without alive cells: any number of
    [update_grid] steps is defined and leaves an all-dead grid as it is. *)
Theorem all_dead_stays_dead (c : config) (s : buffers) (n : nat) :
  buffers_ok c s -> all_dead c (grid s) ->
  exists s', update_grid_n c n s = Some s' /\ grid s' = grid s.
Proof.
  revert s. induction n as [|n IH]; intros s Hok Hdead.
  - by exists s.
  - destruct (update_grid_result c s Hok) as (s1 & Hrun & Hok1 & _ & _ & Hnext).
    assert (grid s1 = grid s) as Hsame.
    { apply (grid_ext c); [apply Hok1|apply Hok|].
      intros x y Hxy. rewrite (Hnext x y Hxy), (Hdead x y Hxy).
      apply all_dead_next; [apply Hok|done|done]. }
    destruct (IH s1 Hok1) as (s' & Hrun' & Hsame'); [by rewrite Hsame|].
    exists s'. simpl. rewrite Hrun. simpl. split; [done|congruence].
Qed.

Lemma all_dead_stays_dead_witness :
  buffers_ok (config_of_size 5 3) (buffers_of (replicate 15 false)) /\
  all_dead (config_of_size 5 3) (grid (buffers_of (replicate 15 false))) /\
  exists s',
    update_grid_n (config_of_size 5 3) 2 (buffers_of (replicate 15 false))
      = Some s' /\
    grid s' = grid (buffers_of (replicate 15 false)).
Proof.
  assert (buffers_ok (config_of_size 5 3) (buffers_of (replicate 15 false)))
    as Hok by (unfold buffers_ok, is_grid, INT_MAX; simpl; lia).
  assert (all_dead (config_of_size 5 3)
            (grid (buffers_of (replicate 15 false)))) as Hdead.
  { intros x y [Hx Hy]. simpl in Hx, Hy.
    assert (x = 0 \/ x = 1 \/ x = 2 \/ x = 3 \/ x = 4) as Hxs by lia.
    assert (y = 0 \/ y = 1 \/ y = 2) as Hys by lia.
    destruct Hxs as [->|[->|[->|[->| ->]]]];
      destruct Hys as [->|[->| ->]]; reflexivity. }
  split; [exact Hok|]. split; [exact Hdead|].
  exact (all_dead_stays_dead (config_of_size 5 3) _ 2 Hok Hdead).
Defined.

(** X5: a grid whose only alive cell is isolated is all dead after one
    [update_grid]: the cell has no alive neighbor and dies, and no dead
    cell has three alive neighbors. *)
Theorem lone_cell_dies (c : config) (s : buffers) (ax ay : Z) :
  buffers_ok c s -> lone_alive c (grid s) ax ay ->
  exists s', update_grid c s = Some s' /\ all_dead c (grid s').
Proof.
  intros Hok Hlone.
  destruct (update_grid_result c s Hok) as (s' & Hrun & _ & _ & _ & Hnext).
  exists s'. split; [done|].
  intros x y Hxy. rewrite (Hnext x y Hxy). unfold next_cell.
  rewrite (alive_neighbors_guards c (grid s) x y Hxy), (Hlone x y Hxy).
  pose proof Hxy as [Hx Hy].
  rewrite !(guarded_cell_as c (grid s) (fun x y => (x =? ax) && (y =? ay)))
    by (first [exact Hlone | intros Hg; bool_hyps; unfold in_range; lia]).
  split_comparisons; reflexivity.
Qed.

Lemma lone_cell_dies_witness :
  buffers_ok (config_of_size 1 1) (buffers_of [true]) /\
  lone_alive (config_of_size 1 1) (grid (buffers_of [true])) 0 0 /\
  exists s',
    update_grid (config_of_size 1 1) (buffers_of [true]) = Some s' /\
    all_dead (config_of_size 1 1) (grid s').
Proof.
  assert (buffers_ok (config_of_size 1 1) (buffers_of [true])) as Hok
    by (unfold buffers_ok, is_grid, INT_MAX; simpl; lia).
  assert (lone_alive (config_of_size 1 1) (grid (buffers_of [true])) 0 0)
    as Hlone.
  { intros x y [Hx Hy]. simpl in Hx, Hy.
    assert (x = 0) as -> by lia. assert (y = 0) as -> by lia. reflexivity. }
  split; [exact Hok|]. split; [exact Hlone|].
  exact (lone_cell_dies (config_of_size 1 1) _ 0 0 Hok Hlone).
Defined.

(* ====================================================================== *)
(** ** Cell access outside the grid *)
(* ====================================================================== *)

(** X6: [get_cell] and [set_cell] check no bounds of their own.  A row
    coordinate equal to the height denotes the first cell of the next
    column; the column [width] and the row [-1] of column 0 fall outside
    the buffer, where reading and writing are undefined. *)
Theorem cell_access_is_unchecked (c : config) (arr : list bool) (x : Z)
  (v : bool) :
  is_grid c arr -> 0 <= x -> x + 1 < width c ->
  rd_value (get_cell c arr x (height c)) = rd_value (get_cell c arr (x + 1) 0) /\
  set_cell c arr x (height c) v = set_cell c arr (x + 1) 0 v /\
  rd_value (get_cell c arr (width c) 0) = None /\
  set_cell c arr (width c) 0 v = None /\
  rd_value (get_cell c arr 0 (-1)) = None /\
  set_cell c arr 0 (-1) v = None.
Proof.
  intros Hgrid Hx0 Hx1. pose proof Hgrid as (Hw & Hh & Hfit & Hlen).
  unfold INT_MAX in Hfit.
  assert (cell_index c x (height c) = cell_index c (x + 1) 0) as Hidx.
  { unfold cell_index.
    rewrite !int_mul_small by (unfold INT_MIN, INT_MAX; nia).
    rewrite !int_add_small by (unfold INT_MIN, INT_MAX; nia). lia. }
  assert (cell_index c (width c) 0 = width c * height c) as Hend.
  { unfold cell_index.
    rewrite int_mul_small by (unfold INT_MIN, INT_MAX; nia).
    rewrite int_add_small by (unfold INT_MIN, INT_MAX; nia). lia. }
  assert (cell_index c 0 (-1) = -1) as Hneg by reflexivity.
  unfold get_cell, set_cell. rewrite Hidx, Hend, Hneg.
  split; [by destruct (buf_read arr _)|]. split; [done|].
  unfold buf_read, buf_write.
  destruct (Z.ltb_spec (width c * height c) 0); [lia|].
  rewrite lookup_ge_None_2 by lia.
  destruct (Z.ltb_spec (width c * height c) (Z.of_nat (length arr))); [lia|].
  by rewrite andb_false_r.
Qed.

Lemma cell_access_is_unchecked_witness :
  is_grid (config_of_size 5 3) blinker_horizontal /\
  0 <= 1 /\ 1 + 1 < width (config_of_size 5 3) /\
  rd_value (get_cell (config_of_size 5 3) blinker_horizontal 1
              (height (config_of_size 5 3))) =
    rd_value (get_cell (config_of_size 5 3) blinker_horizontal (1 + 1) 0) /\
  set_cell (config_of_size 5 3) blinker_horizontal 1
    (height (config_of_size 5 3)) true =
    set_cell (config_of_size 5 3) blinker_horizontal (1 + 1) 0 true /\
  rd_value (get_cell (config_of_size 5 3) blinker_horizontal
              (width (config_of_size 5 3)) 0) = None /\
  set_cell (config_of_size 5 3) blinker_horizontal
    (width (config_of_size 5 3)) 0 true = None /\
  rd_value (get_cell (config_of_size 5 3) blinker_horizontal 0 (-1)) = None /\
  set_cell (config_of_size 5 3) blinker_horizontal 0 (-1) true = None.
Proof.
  assert (is_grid (config_of_size 5 3) blinker_horizontal) as Hg
    by (unfold is_grid, INT_MAX; simpl; lia).
  assert (0 <= 1) as H0 by lia.
  assert (1 + 1 < width (config_of_size 5 3)) as H1 by (simpl; lia).
  split; [exact Hg|]. split; [exact H0|]. split; [exact H1|].
  exact (cell_access_is_unchecked (config_of_size 5 3) blinker_horizontal
           1 true Hg H0 H1).
Defined.

(* ====================================================================== *)
(** ** Commands: loops, redraw and random fill *)
(* ====================================================================== *)

Lemma m_bind_Some {A B} (m : M A) (k : A -> M B) w b w' :
  m_bind m k w = Some (b, w') ->
  exists a w1, m w = Some (a, w1) /\ k a w1 = Some (b, w').
Proof.
  unfold m_bind. destruct (m w) as [[a w1]|]; [|done]. intros H. eauto.
Qed.

(** Invariant rule for [m_for]. *)
Lemma m_for_invariant (P : Z -> world -> Prop) lo hi body w :
  INT_MIN <= lo -> lo <= hi -> hi <= INT_MAX ->
  P lo w ->
  (forall i v, lo <= i < hi -> P i v ->
               exists v', body i v = Some (tt, v') /\ P (i + 1) v') ->
  exists w', m_for lo hi body w = Some (tt, w') /\ P hi w'.
Proof.
  intros Hmin Hle Hmax Hinit Hstep. unfold m_for.
  destruct (for_loop_invariant P lo hi
              (fun i v => match body i v with
                          | Some (_, v') => Some v'
                          | None => None
                          end) w) as (w' & -> & Hw'); try done.
  - intros i v Hi Hv. destruct (Hstep i v Hi Hv) as (v' & -> & Hv'). eauto.
  - eauto.
Qed.

Lemma add_calls_add_calls a b w :
  add_calls a (add_calls b w) = add_calls (b ++ a) w.
Proof. unfold add_calls. simpl. by rewrite app_assoc. Qed.

Lemma add_calls_nil w : add_calls [] w = w.
Proof. destruct w. unfold add_calls. simpl. by rewrite app_nil_r. Qed.

Lemma column_points_S c arr x n :
  column_points c arr x (S n) =
  column_points c arr x n ++ cell_point c arr x (Z.of_nat n).
Proof.
  unfold column_points. rewrite seq_S, flat_map_app. simpl.
  by rewrite app_nil_r.
Qed.

Lemma grid_points_S c arr n :
  grid_points c arr (S n) =
  grid_points c arr n ++
  column_points c arr (Z.of_nat n) (Z.to_nat (height c)).
Proof.
  unfold grid_points. rewrite seq_S, flat_map_app. simpl.
  by rewrite app_nil_r.
Qed.

(** The scan of one column by [update_screen]. *)
Lemma draw_column (w : world) (pre : list call) (i : Z) :
  is_grid (C w) (grid (bufs w)) -> 0 <= i < width (C w) ->
  m_for 0 (height (C w))
    (fun j => c <-- grid_cell i j ; when c (emit (SDL_RenderDrawPoint i j)))%M
    (add_calls pre w) =
  Some (tt, add_calls (pre ++ column_points (C w) (grid (bufs w)) i
                                (Z.to_nat (height (C w)))) w).
Proof.
  intros Hgrid Hi. pose proof Hgrid as (Hw & Hh & Hfit & _).
  assert (height (C w) <= INT_MAX) by nia.
  destruct (m_for_invariant
              (fun j v => v = add_calls
                                (pre ++ column_points (C w) (grid (bufs w)) i
                                          (Z.to_nat j)) w)
              0 (height (C w))
              (fun j => c <-- grid_cell i j ;
                        when c (emit (SDL_RenderDrawPoint i j)))%M
              (add_calls pre w))
    as (w' & -> & ->); unfold INT_MIN; try lia.
  - simpl. by rewrite app_nil_r.
  - intros j v Hj ->.
    unfold grid_cell, m_bind, m_get, m_option, id. simpl.
    rewrite (get_cell_in_range (C w) _ Hgrid i j) by (split; lia). simpl.
    replace (Z.to_nat (j + 1)) with (S (Z.to_nat j)) by lia.
    rewrite column_points_S, Z2Nat.id by lia. unfold cell_point, when.
    destruct (cell_at (C w) (grid (bufs w)) i j); simpl.
    + unfold emit, m_put. eexists. split; [reflexivity|].
      by rewrite add_calls_add_calls, app_assoc.
    + unfold m_ret. eexists. split; [reflexivity|]. by rewrite app_nil_r.
  - done.
Qed.

(** What a full redraw does. *)
Lemma update_screen_run (w : world) :
  is_grid (C w) (grid (bufs w)) ->
  update_screen w = Some (tt, add_calls (screen_calls w) w).
Proof.
  intros Hgrid. pose proof Hgrid as (Hw & Hh & Hfit & _).
  assert (width (C w) <= INT_MAX) by nia.
  unfold update_screen, clear_screen, emit, m_bind, m_get, m_put, id.
  rewrite !add_calls_add_calls.
  change (C (add_calls _ w)) with (C w).
  change (fg_rgba (add_calls _ w)) with (fg_rgba w).
  set (pre := ([SetRenderDrawColor (bg_rgba w)] ++ [SDL_RenderClear]) ++
              [SetRenderDrawColor (fg_rgba w)]).
  match goal with
  | |- context [m_for 0 ?hi ?body ?w0] =>
      destruct (m_for_invariant
                  (fun i v => v = add_calls
                                    (pre ++ grid_points (C w) (grid (bufs w))
                                              (Z.to_nat i)) w)
                  0 hi body w0)
        as (w' & -> & ->); unfold INT_MIN; try lia
  end.
  - simpl. by rewrite ?app_nil_r.
  - intros i v Hi ->.
    eexists. split; [exact (draw_column w _ i Hgrid Hi)|].
    replace (Z.to_nat (i + 1)) with (S (Z.to_nat i)) by lia.
    by rewrite grid_points_S, Z2Nat.id, app_assoc by lia.
  - rewrite !add_calls_add_calls. reflexivity.
Qed.

Lemma in_cell_point c arr x y x' y' :
  In (SDL_RenderDrawPoint x y) (cell_point c arr x' y') <->
  x = x' /\ y = y' /\ cell_at c arr x' y' = true.
Proof.
  unfold cell_point. destruct (cell_at c arr x' y'); simpl.
  - split; [intros [[= -> ->]|[]]; done | intros (-> & -> & _); by left].
  - split; [done | by intros (_ & _ & ?)].
Qed.

Lemma in_grid_points c arr x y :
  In (SDL_RenderDrawPoint x y) (grid_points c arr (Z.to_nat (width c))) <->
  in_range c x y /\ cell_at c arr x y = true.
Proof.
  unfold grid_points, column_points, in_range.
  rewrite in_flat_map. split.
  - intros (i & Hi & Hin). apply in_flat_map in Hin as (j & Hj & Hin).
    apply in_seq in Hi, Hj.
    apply in_cell_point in Hin as (-> & -> & Hcell).
    split; [lia|done].
  - intros ([Hx Hy] & Hcell). exists (Z.to_nat x). split; [apply in_seq; lia|].
    apply in_flat_map. exists (Z.to_nat y). split; [apply in_seq; lia|].
    rewrite !Z2Nat.id by lia. by apply in_cell_point.
Qed.

(** X7: a full redraw of a well-formed grid is defined and changes nothing
    but the trace of calls.  It sets the background color and clears, sets
    the foreground color, draws one point per alive cell, column by column,
    then presents and delays by [C.delay]: a point [(x, y)] is drawn if and
    only if [(x, y)] is a cell of the grid and is alive. *)
Theorem update_screen_draws_alive_cells (w : world) :
  is_grid (C w) (grid (bufs w)) ->
  update_screen w = Some (tt, add_calls (screen_calls w) w) /\
  forall x y,
    In (SDL_RenderDrawPoint x y) (screen_calls w) <->
    in_range (C w) x y /\ cell_at (C w) (grid (bufs w)) x y = true.
Proof.
  intros Hgrid. split; [by apply update_screen_run|].
  intros x y. unfold screen_calls.
  rewrite !in_app_iff, in_grid_points. simpl.
  unfold SetRenderDrawColor.
  destruct (bg_rgba w) as [[[? ?] ?] ?], (fg_rgba w) as [[[? ?] ?] ?].
  split; [|tauto].
  intros [[?|[?|[?|[]]]]|[?|[?|[?|[]]]]]; done.
Qed.

Lemma update_screen_draws_alive_cells_witness :
  is_grid (C ghost_world) (grid (bufs ghost_world)) /\
  update_screen ghost_world =
    Some (tt, add_calls (screen_calls ghost_world) ghost_world) /\
  forall x y,
    In (SDL_RenderDrawPoint x y) (screen_calls ghost_world) <->
    in_range (C ghost_world) x y /\
    cell_at (C ghost_world) (grid (bufs ghost_world)) x y = true.
Proof.
  assert (is_grid (C ghost_world) (grid (bufs ghost_world))) as Hg
    by (unfold is_grid, INT_MAX; simpl; lia).
  split; [exact Hg|].
  exact (update_screen_draws_alive_cells ghost_world Hg).
Defined.

(** Invariant of [fill_grid] started in [w], when it stands before cell
    [(i, j)] in the world [v]: only the grid and the count of [rand] calls
    have changed, and every cell already visited holds its random bit. *)
Lemma fill_cell_step (w v : world) (i j : Z) :
  in_range (C w) i j ->
  (exists g,
     v = set_rand_calls (rand_calls w + Z.to_nat (i * height (C w) + j))
           (set_bufs (with_grid (bufs w) g) w) /\
     is_grid (C w) g /\
     forall x y, in_range (C w) x y -> x < i \/ (x = i /\ y < j) ->
                 cell_at (C w) g x y = rand_bit w (x * height (C w) + y)) ->
  exists v',
    (r <-- rand ; set_grid_cell i j (negb (Z.rem r 2 =? 0)))%M v
      = Some (tt, v') /\
    exists g,
      v' = set_rand_calls (rand_calls w + Z.to_nat (i * height (C w) + (j + 1)))
             (set_bufs (with_grid (bufs w) g) w) /\
      is_grid (C w) g /\
      forall x y, in_range (C w) x y -> x < i \/ (x = i /\ y < j + 1) ->
                  cell_at (C w) g x y = rand_bit w (x * height (C w) + y).
Proof.
  intros Hij (g & -> & Hgrid & Hdone).
  pose proof (flat_index_bounds (C w) g Hgrid i j Hij) as Hk.
  unfold rand, set_grid_cell, m_bind, m_get, m_put, m_ret, m_option, id.
  simpl.
  rewrite (set_cell_in_range (C w) g Hgrid i j _ Hij). simpl.
  eexists. split; [reflexivity|].
  exists (<[Z.to_nat (i * height (C w) + j) :=
             rand_bit w (i * height (C w) + j)]> g).
  split; [|split].
  - unfold set_rand_calls, set_bufs, with_grid, rand_bit. simpl.
    f_equal. lia.
  - by apply is_grid_insert.
  - intros x y Hxy Hbefore.
    destruct (decide ((x, y) = (i, j))) as [[= -> ->]|Hne].
    + by rewrite (cell_at_insert_eq (C w) g Hgrid i j _ Hij).
    + rewrite (cell_at_insert_ne (C w) g Hgrid i j x y _ Hij Hxy Hne).
      apply Hdone; [done|].
      destruct (decide (x = i)) as [->|?]; [|lia].
      right. split; [done|]. assert (y <> j) by congruence. lia.
Qed.

(** X8: [fill_grid] on a well-formed grid is defined; it calls [rand] once
    per cell, column by column, and leaves cell [(x, y)] alive exactly when
    the value drawn for it is odd.  Nothing but the grid and the count of
    [rand] calls changes. *)
Theorem fill_grid_cells (w : world) :
  is_grid (C w) (grid (bufs w)) ->
  exists g,
    fill_grid w =
      Some (tt, set_rand_calls
                  (rand_calls w + Z.to_nat (width (C w) * height (C w)))
                  (set_bufs (with_grid (bufs w) g) w)) /\
    is_grid (C w) g /\
    forall x y, in_range (C w) x y ->
                cell_at (C w) g x y = rand_bit w (x * height (C w) + y).
Proof.
  intros Hgrid. pose proof Hgrid as (Hw & Hh & Hfit & _).
  assert (width (C w) <= INT_MAX /\ height (C w) <= INT_MAX) as [? ?] by nia.
  set (inv := fun (i j : Z) (v : world) =>
    exists g,
      v = set_rand_calls (rand_calls w + Z.to_nat (i * height (C w) + j))
            (set_bufs (with_grid (bufs w) g) w) /\
      is_grid (C w) g /\
      forall x y, in_range (C w) x y -> x < i \/ (x = i /\ y < j) ->
                  cell_at (C w) g x y = rand_bit w (x * height (C w) + y)).
  unfold fill_grid. unfold m_bind at 1. unfold m_get at 1. unfold id.
  destruct (m_for_invariant (fun i v => inv i 0 v) 0 (width (C w))
              (fun i => m_for 0 (height (C w)) (fun j =>
                 r <-- rand ; set_grid_cell i j (negb (Z.rem r 2 =? 0))))%M w)
    as (w' & -> & g & -> & Hg & Hcells); unfold INT_MIN; try lia.
  - exists (grid (bufs w)). split; [|split; [done|]].
    + destruct w as [? ? ? ? [? ? ?] ? ? ? ? ? ?].
      unfold set_rand_calls, set_bufs, with_grid. simpl. f_equal. lia.
    + intros x y [Hx Hy] Hbefore. lia.
  - intros i v Hi Hv.
    destruct (m_for_invariant (fun j u => inv i j u) 0 (height (C w))
                (fun j => r <-- rand ;
                          set_grid_cell i j (negb (Z.rem r 2 =? 0)))%M v)
      as (v' & -> & g & -> & Hg & Hcells); unfold INT_MIN; try lia; try done.
    + intros j u Hj Hu. apply fill_cell_step; [split; lia|done].
    + eexists. split; [reflexivity|]. exists g.
      split; [f_equal; f_equal; lia|]. split; [done|].
      intros x y Hxy Hbefore. apply Hcells; [done|].
      destruct Hxy as [_ Hy]. lia.
  - exists g. rewrite Z.add_0_r. split; [done|]. split; [done|].
    intros x y Hxy. apply Hcells; [done|]. destruct Hxy. lia.
Qed.

Lemma fill_grid_cells_witness :
  is_grid (C ghost_world) (grid (bufs ghost_world)) /\
  exists g,
    fill_grid ghost_world =
      Some (tt, set_rand_calls
                  (rand_calls ghost_world +
                   Z.to_nat (width (C ghost_world) * height (C ghost_world)))
                  (set_bufs (with_grid (bufs ghost_world) g) ghost_world)) /\
    is_grid (C ghost_world) g /\
    forall x y, in_range (C ghost_world) x y ->
                cell_at (C ghost_world) g x y =
                rand_bit ghost_world (x * height (C ghost_world) + y).
Proof.
  assert (is_grid (C ghost_world) (grid (bufs ghost_world))) as Hg
    by (unfold is_grid, INT_MAX; simpl; lia).
  split; [exact Hg|]. exact (fill_grid_cells ghost_world Hg).
Defined.

(* ====================================================================== *)
(** ** What the commands leave alone *)
(* ====================================================================== *)

Lemma steady_refl w : steady w w.
Proof. by split. Qed.

Lemma steady_trans w1 w2 w3 : steady w1 w2 -> steady w2 w3 -> steady w1 w3.
Proof. intros [? ?] [? ?]. split; congruence. Qed.

Lemma buf_write_length arr i v arr' :
  buf_write arr i v = Some arr' -> length arr' = length arr.
Proof.
  unfold buf_write. destruct (_ && _); [|done].
  intros [= <-]. apply length_insert.
Qed.

Lemma memset0_length dst n dst' :
  memset0 dst n = Some dst' -> length dst' = length dst.
Proof.
  unfold memset0. destruct (_ && _) eqn:Hb; [|done]. intros [= <-].
  bool_hyps. rewrite length_app, length_replicate, length_drop. lia.
Qed.

Lemma memcpy_length dst src n dst' :
  memcpy dst src n = Some dst' -> length dst' = length dst.
Proof.
  unfold memcpy. destruct (_ && _ && _) eqn:Hb; [|done]. intros [= <-].
  bool_hyps. rewrite length_app, length_take, length_drop. lia.
Qed.

(** [update_grid] keeps the sizes, whatever the buffers. *)
Lemma update_grid_sizes c s s' :
  update_grid c s = Some s' ->
  grid_size s' = grid_size s /\ length (grid s') = length (grid s) /\
  length (next_gen s') = length (next_gen s).
Proof.
  unfold update_grid. intros Hrun.
  apply bind_Some in Hrun as (t & Hloop & Hrun).
  apply bind_Some in Hrun as (g & Hcopy & [= <-]).
  apply memcpy_length in Hcopy. simpl.
  assert (grid_size t = grid_size s /\ length (grid t) = length (grid s) /\
          length (next_gen t) = length (next_gen s)) as (? & ? & ?).
  { revert Hloop. unfold for_loop.
    apply (for_steps_preserves
             (fun t => grid_size t = grid_size s /\
                       length (grid t) = length (grid s) /\
                       length (next_gen t) = length (next_gen s))); [|done].
    intros i u u' Hu.
    apply (for_steps_preserves
             (fun t => grid_size t = grid_size s /\
                       length (grid t) = length (grid s) /\
                       length (next_gen t) = length (next_gen s))); [|done].
    clear. intros j u u' (? & ? & ?) Hcell. unfold update_cell in Hcell.
    apply bind_Some in Hcell as (b & _ & Hcell).
    apply bind_Some in Hcell as (g & Hset & [= <-]).
    apply buf_write_length in Hset. simpl. repeat split; congruence. }
  repeat split; congruence.
Qed.

Lemma draw_pixel_steady x y color w u w' :
  draw_pixel x y color w = Some (u, w') -> steady w w'.
Proof. rewrite draw_pixel_calls. by intros [= _ <-]. Qed.

Lemma set_grid_cell_steady x y v w u w' :
  set_grid_cell x y v w = Some (u, w') -> steady w w'.
Proof.
  unfold set_grid_cell, m_bind, m_get, m_option, m_put, id, set_cell.
  destruct (buf_write _ _ _) as [g|] eqn:Hset; [|done].
  intros [= _ <-]. apply buf_write_length in Hset.
  unfold steady, setup. simpl. by rewrite Hset.
Qed.

Lemma clear_grid_cmd_steady w u w' :
  clear_grid_cmd w = Some (u, w') -> steady w w'.
Proof.
  unfold clear_grid_cmd, clear_grid, m_bind, m_get, m_option, m_put, id.
  destruct (memset0 _ _) as [g|] eqn:Hset; simpl; [|done].
  intros [= _ <-]. apply memset0_length in Hset.
  unfold steady, setup. simpl. by rewrite Hset.
Qed.

Lemma update_grid_cmd_steady w u w' :
  update_grid_cmd w = Some (u, w') -> steady w w'.
Proof.
  unfold update_grid_cmd, m_bind, m_get, m_option, m_put, id.
  destruct (update_grid _ _) as [s'|] eqn:Hrun; [|done].
  intros [= _ <-]. apply update_grid_sizes in Hrun as (? & ? & ?).
  unfold steady, setup. simpl. split; [|done]. congruence.
Qed.

Lemma fill_grid_steady w u w' :
  fill_grid w = Some (u, w') -> steady w w'.
Proof.
  unfold fill_grid. unfold m_bind at 1. unfold m_get at 1. unfold id.
  apply (m_for_preserves (steady w)); [|apply steady_refl].
  intros i v u1 v' Hv.
  apply (m_for_preserves (steady w)); [|done].
  clear. intros j v u v' Hv Hrun.
  apply m_bind_Some in Hrun as (r & v1 & Hrand & Hset).
  apply set_grid_cell_steady in Hset.
  unfold rand, m_bind, m_get, m_put, m_ret, id in Hrand.
  injection Hrand as _ <-.
  apply (steady_trans _ _ _ Hv). exact Hset.
Qed.

Lemma update_screen_steady w u w' :
  update_screen w = Some (u, w') -> steady w w'.
Proof.
  unfold update_screen, clear_screen, emit, m_bind, m_get, m_put, id. simpl.
  destruct (m_for _ _ _ _) as [[u1 w1]|] eqn:Hfor; [|done].
  intros [= _ <-].
  assert (steady w w1) as [Hs Hst].
  { revert Hfor. apply (m_for_preserves (steady w)); [|by split].
    intros i v u2 v' Hv.
    apply (m_for_preserves (steady w)); [|done].
    clear. intros j v u v' Hv.
    unfold grid_cell, when, emit, m_bind, m_get, m_option, m_put, m_ret, id.
    destruct (rd_value _) as [[]|]; simpl; intros [= _ <-]; done. }
  split; [exact Hs|exact Hst].
Qed.

Lemma draw_cursor_pixel_steady m w u w' :
  draw_cursor_pixel m w = Some (u, w') -> steady w w'.
Proof.
  unfold draw_cursor_pixel, grid_cell, when.
  unfold m_bind, m_get, m_option, m_put, m_ret, id.
  destruct (active (cp w)); simpl.
  - destruct (div_scale _ _) as [x|]; simpl; [|done].
    destruct (div_scale _ _) as [y|]; simpl; [|done].
    destruct (rd_value _) as [c|] eqn:Hc; simpl; [|done].
    destruct c; simpl; destruct (_ || _); simpl;
      rewrite ?draw_pixel_calls; simpl; rewrite ?Hc; simpl;
      by intros [= _ <-].
  - rewrite draw_pixel_calls. by intros [= _ <-].
Qed.

(** Every event leaves the setup alone; a quit signal sets [QUIT] and
    returns; the space key toggles; any other event keeps the run state. *)
Lemma handle_event_setup ev w f w' :
  handle_event ev w = Some (f, w') ->
  setup w' = setup w /\
  if quit_signal ev then f = Return /\ state w' = QUIT
  else f = Continue /\
       match ev with
       | SDL_KEYDOWN SDLK_SPACE =>
           state w' = if state_eqb (state w) RUNNING then PAUSED else RUNNING
       | _ => state w' = state w
       end.
Proof.
  destruct ev as [|[]|[] px py|[] px py|px py|[]|]; simpl;
    try (by intros [= <- <-]).
  - (* c *)
    intros Hrun. apply m_bind_Some in Hrun as (? & w1 & H1 & Hrun).
    apply m_bind_Some in Hrun as (? & w2 & H2 & [= <- <-]).
    apply clear_grid_cmd_steady in H1 as [? ?].
    apply update_screen_steady in H2 as [? ?].
    split; [congruence|]. split; [done|congruence].
  - (* r *)
    intros Hrun. apply m_bind_Some in Hrun as (? & w1 & H1 & Hrun).
    apply m_bind_Some in Hrun as (? & w2 & H2 & [= <- <-]).
    apply fill_grid_steady in H1 as [? ?].
    apply update_screen_steady in H2 as [? ?].
    split; [congruence|]. split; [done|congruence].
  - (* left button down *)
    unfold m_bind at 1. unfold m_get at 1. unfold m_bind at 1. unfold id.
    unfold m_bind at 1. unfold m_option at 1.
    destruct (div_scale _ px) as [x|]; [|done].
    unfold m_bind at 1. unfold m_option at 1.
    destruct (div_scale _ py) as [y|]; [|done].
    intros Hrun. apply m_bind_Some in Hrun as (? & w3 & Hrun & [= <- <-]).
    apply m_bind_Some in Hrun as (? & w1 & H1 & Hrun).
    apply m_bind_Some in Hrun as (? & w2 & H2 & Hrun).
    unfold m_put in Hrun. injection Hrun as _ <-.
    apply set_grid_cell_steady in H1 as [? ?].
    apply draw_pixel_steady in H2 as [? ?].
    split; [unfold setup in *; simpl; congruence|].
    split; [done|simpl; congruence].
  - (* right button down *)
    unfold m_bind at 1. unfold m_get at 1. unfold m_bind at 1. unfold id.
    unfold m_bind at 1. unfold m_option at 1.
    destruct (div_scale _ px) as [x|]; [|done].
    unfold m_bind at 1. unfold m_option at 1.
    destruct (div_scale _ py) as [y|]; [|done].
    intros Hrun. apply m_bind_Some in Hrun as (? & w3 & Hrun & [= <- <-]).
    apply m_bind_Some in Hrun as (? & w1 & H1 & Hrun).
    apply m_bind_Some in Hrun as (? & w2 & H2 & Hrun).
    unfold m_put in Hrun. injection Hrun as _ <-.
    apply set_grid_cell_steady in H1 as [? ?].
    apply draw_pixel_steady in H2 as [? ?].
    split; [unfold setup in *; simpl; congruence|].
    split; [done|simpl; congruence].
  - (* other button down *)
    unfold m_bind, m_get, m_option, m_ret, id.
    destruct (div_scale _ px); simpl; [|done].
    destruct (div_scale _ py); simpl; [|done].
    by intros [= <- <-].
  - (* motion *)
    unfold m_bind at 1. unfold m_get at 1. unfold m_bind at 1. unfold id.
    unfold m_bind at 1. unfold m_option at 1.
    destruct (div_scale _ px) as [x|]; [|done].
    unfold m_bind at 1. unfold m_option at 1.
    destruct (div_scale _ py) as [y|]; [|done].
    intros Hrun. apply m_bind_Some in Hrun as (? & w1 & H1 & Hrun).
    apply m_bind_Some in Hrun as (? & w2 & H2 & [= <- <-]).
    assert (steady w w1) as [? ?].
    { unfold when in H1. destruct (draw_flag w); [|by injection H1 as _ <-].
      apply m_bind_Some in H1 as (? & v & H1 & H1').
      apply set_grid_cell_steady in H1. apply draw_pixel_steady in H1'.
      by apply (steady_trans _ v). }
    assert (steady w1 w2) as [? ?].
    { unfold when in H2. destruct (erase_flag w); [|by injection H2 as _ <-].
      apply m_bind_Some in H2 as (? & v & H2 & H2').
      apply set_grid_cell_steady in H2. apply draw_pixel_steady in H2'.
      by apply (steady_trans _ v). }
    split; [congruence|]. split; [done|congruence].
  - (* focus enter *)
    unfold m_bind, m_get, when, m_put, m_ret, id.
    destruct (active (cp w)); simpl; by intros [= <- <-].
  - (* focus leave *)
    unfold m_bind, m_get, when, m_put, m_ret, id.
    destruct (active (cp w)); simpl; by intros [= <- <-].
Qed.

Lemma state_eqb_eq a b : state_eqb a b = true <-> a = b.
Proof. destruct a, b; simpl; split; congruence. Qed.

Lemma handle_events_run pending w u w' :
  handle_events pending w = Some (u, w') ->
  setup w' = setup w /\
  (state w <> QUIT ->
   (state w' = QUIT <-> Exists (fun ev => quit_signal ev = true) pending)).
Proof.
  revert w. induction pending as [|ev rest IH]; intros w; simpl.
  - intros [= _ <-]. split; [done|]. intros Hw. split; [done|].
    intros Hex. by apply Exists_nil in Hex.
  - intros Hrun. apply m_bind_Some in Hrun as (f & w1 & Hev & Hrun).
    apply handle_event_setup in Hev as (Hsetup & Hstate).
    destruct (quit_signal ev) eqn:Hq.
    + destruct Hstate as [-> Hquit]. injection Hrun as _ <-.
      split; [done|]. intros _. split; [|done].
      intros _. by apply Exists_cons_hd.
    + destruct Hstate as [-> Hstate].
      destruct (IH w1 Hrun) as (Hsetup' & Hiff).
      split; [congruence|]. intros Hw.
      assert (state w1 <> QUIT) as Hw1.
      { destruct ev as [|[]| | | | |];
          try (by rewrite Hstate); rewrite Hstate;
          by destruct (state_eqb (state w) RUNNING). }
      rewrite (Hiff Hw1). rewrite Exists_cons. split; [tauto|].
      intros [?|?]; [congruence|done].
Qed.

(** X9: within one call of [handle_events] that starts in [RUNNING] or
    [PAUSED], the run state ends as [QUIT] if and only if one of the pending
    events is a quit signal (the window's quit request or the escape key):
    no other event, in any number or order, quits the program. *)
Theorem quit_only_by_signal (pending : list event) (w : world) (u : unit)
  (w' : world) :
  state w <> QUIT ->
  handle_events pending w = Some (u, w') ->
  (state w' = QUIT <-> Exists (fun ev => quit_signal ev = true) pending).
Proof.
  intros Hw Hrun. by apply (handle_events_run pending w u w' Hrun).
Qed.

Lemma quit_only_by_signal_witness :
  state lone_cell_world <> QUIT /\
  handle_events [SDL_KEYDOWN SDLK_SPACE; SDL_KEYDOWN SDLK_ESCAPE]
    lone_cell_world
    = Some (tt, set_state QUIT (set_state PAUSED lone_cell_world)) /\
  (state (set_state QUIT (set_state PAUSED lone_cell_world)) = QUIT <->
   Exists (fun ev => quit_signal ev = true)
     [SDL_KEYDOWN SDLK_SPACE; SDL_KEYDOWN SDLK_ESCAPE]).
Proof.
  assert (state lone_cell_world <> QUIT) as Hw by discriminate.
  split; [exact Hw|]. split; [reflexivity|].
  exact (quit_only_by_signal
           [SDL_KEYDOWN SDLK_SPACE; SDL_KEYDOWN SDLK_ESCAPE] lone_cell_world
           tt (set_state QUIT (set_state PAUSED lone_cell_world)) Hw eq_refl).
Defined.

Lemma main_loop_run frames w e w' :
  main_loop frames w = Some (e, w') ->
  setup w' = setup w /\
  ((e = Loop_left /\ state w' = QUIT) \/
   (e = Frames_ran_out /\ state w' <> QUIT)).
Proof.
  revert w. induction frames as [|f rest IH]; intros w.
  - simpl. destruct (state_eqb (state w) QUIT) eqn:Hq; intros [= <- <-].
    + split; [done|]. left. split; [done|]. by apply state_eqb_eq.
    + split; [done|]. right. split; [done|].
      intros Hs. apply state_eqb_eq in Hs. congruence.
  - rewrite main_loop_cons.
    destruct (state_eqb (state w) QUIT) eqn:Hq.
    + intros [= <- <-]. split; [done|]. left. split; [done|].
      by apply state_eqb_eq.
    + intros Hrun. apply m_bind_Some in Hrun as (? & w1 & Hev & Hrun).
      apply handle_events_run in Hev as [Hs1 _].
      unfold m_bind at 1 in Hrun. unfold m_get at 1 in Hrun. unfold id in Hrun.
      destruct (state_eqb (state w1) PAUSED).
      * apply m_bind_Some in Hrun as (? & w2 & Hcur & Hrun).
        apply draw_cursor_pixel_steady in Hcur as [Hs2 _].
        destruct (IH w2 Hrun) as [Hs3 Hend].
        split; [congruence|done].
      * apply m_bind_Some in Hrun as (? & w2 & Hupd & Hrun).
        apply m_bind_Some in Hrun as (? & w3 & Hscr & Hrun).
        apply update_grid_cmd_steady in Hupd as [Hs2 _].
        apply update_screen_steady in Hscr as [Hs3 _].
        destruct (IH w3 Hrun) as [Hs4 Hend].
        split; [congruence|done].
Qed.

(** X10: whatever events arrive, the main loop never changes the
    environment, the configuration [C], the color components or the sizes
    of the two buffers; in particular buffers that are well-formed when the
    loop starts are well-formed whenever it is observed. *)
Theorem main_loop_keeps_setup (frames : list frame) (w : world)
  (e : loop_end) (w' : world) :
  main_loop frames w = Some (e, w') ->
  setup w' = setup w /\
  (buffers_ok (C w) (bufs w) -> buffers_ok (C w') (bufs w')).
Proof.
  intros Hrun. apply main_loop_run in Hrun as [Hsetup _].
  split; [done|].
  unfold setup in Hsetup. injection Hsetup as _ HC _ _ Hsz Hlg Hln.
  unfold buffers_ok, is_grid. rewrite HC, Hsz, Hlg, Hln. done.
Qed.

Lemma main_loop_keeps_setup_witness :
  exists e w',
    main_loop [mkFrame [SDL_KEYDOWN SDLK_c; SDL_QUIT] (0, 0)] lone_cell_world
      = Some (e, w') /\
    setup w' = setup lone_cell_world /\
    (buffers_ok (C lone_cell_world) (bufs lone_cell_world) ->
     buffers_ok (C w') (bufs w')).
Proof.
  destruct (main_loop [mkFrame [SDL_KEYDOWN SDLK_c; SDL_QUIT] (0, 0)]
              lone_cell_world) as [[e w']|] eqn:Hrun.
  - exists e, w'. split; [reflexivity|].
    exact (main_loop_keeps_setup _ lone_cell_world e w' Hrun).
  - vm_compute in Hrun. discriminate.
Defined.

(** X11: an observation of the main loop ends with the loop left exactly
    when the run state is [QUIT]; when the frames run out first the state is
    [RUNNING] or [PAUSED]. *)
Theorem main_loop_left_iff_quit (frames : list frame) (w : world)
  (e : loop_end) (w' : world) :
  main_loop frames w = Some (e, w') ->
  (e = Loop_left <-> state w' = QUIT) /\
  (e = Frames_ran_out <-> state w' <> QUIT).
Proof.
  intros Hrun. apply main_loop_run in Hrun as [_ [[-> Hq]|[-> Hq]]].
  - repeat split; try done; intros Hn; by destruct Hn.
  - repeat split; try done; intros Hn; by destruct Hq.
Qed.

Lemma main_loop_left_iff_quit_witness :
  exists e w',
    main_loop [mkFrame [SDL_KEYDOWN SDLK_SPACE] (0, 0)] lone_cell_world
      = Some (e, w') /\
    (e = Loop_left <-> state w' = QUIT) /\
    (e = Frames_ran_out <-> state w' <> QUIT).
Proof.
  destruct (main_loop [mkFrame [SDL_KEYDOWN SDLK_SPACE] (0, 0)]
              lone_cell_world) as [[e w']|] eqn:Hrun.
  - exists e, w'. split; [reflexivity|].
    exact (main_loop_left_iff_quit _ lone_cell_world e w' Hrun).
  - vm_compute in Hrun. discriminate.
Defined.

(* ====================================================================== *)
(** ** The editor: pressing and dragging *)
(* ====================================================================== *)

Lemma m_bind_run {A B} (m : M A) (k : A -> M B) w a w1 :
  m w = Some (a, w1) -> m_bind m k w = k a w1.
Proof. unfold m_bind. by intros ->. Qed.

(** Setting one cell of a well-formed grid and notifying the renderer. *)
Lemma edit_cell_run (w : world) (x y : Z) (v : bool) (color : Z) :
  is_grid (C w) (grid (bufs w)) -> in_range (C w) x y ->
  (set_grid_cell x y v >> draw_pixel x y color)%M w =
    Some (tt, add_calls (pixel_notification x y color)
                (set_bufs (with_grid (bufs w)
                             (<[Z.to_nat (x * height (C w) + y) := v]>
                                (grid (bufs w)))) w)).
Proof.
  intros Hgrid Hxy.
  unfold set_grid_cell, m_bind, m_get, m_option, m_put, id.
  rewrite (set_cell_in_range (C w) _ Hgrid x y v Hxy).
  by rewrite draw_pixel_calls.
Qed.

Lemma handle_button_down_eq w button px py x y :
  div_scale (C w) px = Some x -> div_scale (C w) py = Some y ->
  handle_event (SDL_MOUSEBUTTONDOWN button px py) w =
    (match button with
     | SDL_BUTTON_LEFT =>
         (set_grid_cell x y true >> draw_pixel x y (fg_color (C w))) >>
         m_put (set_draw_flag true)
     | SDL_BUTTON_RIGHT =>
         (set_grid_cell x y false >> draw_pixel x y (bg_color (C w))) >>
         m_put (set_erase_flag true)
     | SDL_BUTTON_other => m_ret tt
     end >> m_ret Continue)%M w.
Proof.
  intros Hx Hy. unfold handle_event, m_bind, m_get, m_option, id.
  rewrite Hx, Hy. destruct button; try reflexivity;
    by destruct (set_grid_cell _ _ _ w) as [[? ?]|].
Qed.

Lemma handle_motion_eq w px py x y :
  div_scale (C w) px = Some x -> div_scale (C w) py = Some y ->
  handle_event (SDL_MOUSEMOTION px py) w =
    (when (draw_flag w)
       (set_grid_cell x y true >> draw_pixel x y (fg_color (C w))) >>
     when (erase_flag w)
       (set_grid_cell x y false >> draw_pixel x y (bg_color (C w))) >>
     m_ret Continue)%M w.
Proof.
  intros Hx Hy. unfold handle_event, m_bind, m_get, m_option, id.
  by rewrite Hx, Hy.
Qed.

(** X12: pressing the left (right) mouse button over a cell of a
    well-formed grid makes that cell alive (dead), leaves every other cell
    as it was, emits one pixel notification for the cell in the foreground
    (background) color, and raises the drawing (erasing) flag; the other
    flag, the run state and the setup are untouched.  [alive] selects the
    button: true for left, false for right. *)
Theorem button_down_edits_cell (w : world) (alive : bool) (px py x y : Z) :
  is_grid (C w) (grid (bufs w)) ->
  div_scale (C w) px = Some x -> div_scale (C w) py = Some y ->
  in_range (C w) x y ->
  exists w',
    handle_event
      (SDL_MOUSEBUTTONDOWN
         (if alive then SDL_BUTTON_LEFT else SDL_BUTTON_RIGHT) px py) w
      = Some (Continue, w') /\
    cell_at (C w) (grid (bufs w')) x y = alive /\
    (forall x' y', in_range (C w) x' y' -> (x', y') <> (x, y) ->
       cell_at (C w) (grid (bufs w')) x' y' =
       cell_at (C w) (grid (bufs w)) x' y') /\
    calls w' = calls w ++ pixel_notification x y (snapshot_color (C w) alive) /\
    draw_flag w' = alive || draw_flag w /\
    erase_flag w' = negb alive || erase_flag w /\
    steady w w'.
Proof.
  intros Hgrid Hx Hy Hxy.
  rewrite (handle_button_down_eq w _ px py x y Hx Hy).
  destruct alive; simpl.
  - rewrite (m_bind_run _ _ w tt
               (set_draw_flag true
                  (add_calls (pixel_notification x y (fg_color (C w)))
                     (set_bufs (with_grid (bufs w)
                        (<[Z.to_nat (x * height (C w) + y) := true]>
                           (grid (bufs w)))) w))))
      by (erewrite m_bind_run by (by apply edit_cell_run); reflexivity).
    eexists. split; [reflexivity|]. simpl.
    split; [by apply (cell_at_insert_eq (C w) _ Hgrid)|].
    split; [intros x' y' Hxy' Hne;
            by apply (cell_at_insert_ne (C w) _ Hgrid)|].
    repeat split; try done.
    unfold setup. simpl. by rewrite length_insert.
  - rewrite (m_bind_run _ _ w tt
               (set_erase_flag true
                  (add_calls (pixel_notification x y (bg_color (C w)))
                     (set_bufs (with_grid (bufs w)
                        (<[Z.to_nat (x * height (C w) + y) := false]>
                           (grid (bufs w)))) w))))
      by (erewrite m_bind_run by (by apply edit_cell_run); reflexivity).
    eexists. split; [reflexivity|]. simpl.
    split; [by apply (cell_at_insert_eq (C w) _ Hgrid)|].
    split; [intros x' y' Hxy' Hne;
            by apply (cell_at_insert_ne (C w) _ Hgrid)|].
    repeat split; try done.
    unfold setup. simpl. by rewrite length_insert.
Qed.

Lemma button_down_edits_cell_witness :
  is_grid (C ghost_world) (grid (bufs ghost_world)) /\
  div_scale (C ghost_world) 1 = Some 1 /\
  div_scale (C ghost_world) 0 = Some 0 /\
  in_range (C ghost_world) 1 0 /\
  exists w',
    handle_event (SDL_MOUSEBUTTONDOWN SDL_BUTTON_LEFT 1 0) ghost_world
      = Some (Continue, w') /\
    cell_at (C ghost_world) (grid (bufs w')) 1 0 = true /\
    (forall x' y', in_range (C ghost_world) x' y' -> (x', y') <> (1, 0) ->
       cell_at (C ghost_world) (grid (bufs w')) x' y' =
       cell_at (C ghost_world) (grid (bufs ghost_world)) x' y') /\
    calls w' = calls ghost_world ++
               pixel_notification 1 0 (snapshot_color (C ghost_world) true) /\
    draw_flag w' = true || draw_flag ghost_world /\
    erase_flag w' = negb true || erase_flag ghost_world /\
    steady ghost_world w'.
Proof.
  assert (is_grid (C ghost_world) (grid (bufs ghost_world))) as Hg
    by (unfold is_grid, INT_MAX; simpl; lia).
  assert (in_range (C ghost_world) 1 0) as Hin
    by (unfold in_range; simpl; lia).
  split; [exact Hg|]. split; [reflexivity|]. split; [reflexivity|].
  split; [exact Hin|].
  exact (button_down_edits_cell ghost_world true 1 0 1 0 Hg eq_refl eq_refl Hin).
Defined.

(** X13: a mouse motion over a cell of a well-formed grid while a button is
    held edits that cell only: with the drawing flag the cell is set alive
    and notified in the foreground color, then with the erasing flag it is
    set dead and notified in the background color, so erasing wins when
    both flags are up.  Other cells, both flags, the run state and the
    setup are untouched. *)
Theorem motion_edits_cell (w : world) (px py x y : Z) :
  is_grid (C w) (grid (bufs w)) ->
  div_scale (C w) px = Some x -> div_scale (C w) py = Some y ->
  in_range (C w) x y ->
  exists w',
    handle_event (SDL_MOUSEMOTION px py) w = Some (Continue, w') /\
    cell_at (C w) (grid (bufs w')) x y =
      (if erase_flag w then false
       else if draw_flag w then true
       else cell_at (C w) (grid (bufs w)) x y) /\
    (forall x' y', in_range (C w) x' y' -> (x', y') <> (x, y) ->
       cell_at (C w) (grid (bufs w')) x' y' =
       cell_at (C w) (grid (bufs w)) x' y') /\
    calls w' =
      calls w ++
      (if draw_flag w then pixel_notification x y (fg_color (C w)) else []) ++
      (if erase_flag w then pixel_notification x y (bg_color (C w)) else []) /\
    draw_flag w' = draw_flag w /\ erase_flag w' = erase_flag w /\
    steady w w'.
Proof.
  intros Hgrid Hx Hy Hxy.
  rewrite (handle_motion_eq w px py x y Hx Hy).
  pose proof (is_grid_insert (C w) _ Hgrid
                (Z.to_nat (x * height (C w) + y)) true) as Hgrid1.
  destruct (draw_flag w) eqn:Hd, (erase_flag w) eqn:He; unfold when.
  - erewrite m_bind_run by (by apply edit_cell_run).
    erewrite m_bind_run by (by apply edit_cell_run).
    eexists. split; [reflexivity|]. simpl.
    split; [by apply (cell_at_insert_eq (C w) _ Hgrid1)|].
    split.
    { intros x' y' Hxy' Hne.
      rewrite (cell_at_insert_ne (C w) _ Hgrid1 x y x' y' _ Hxy Hxy' Hne).
      by apply (cell_at_insert_ne (C w) _ Hgrid). }
    split; [by rewrite <- ?app_assoc|].
    repeat split; try done.
    unfold setup. simpl. by rewrite !length_insert.
  - erewrite m_bind_run by (by apply edit_cell_run).
    eexists. split; [reflexivity|]. simpl.
    split; [by apply (cell_at_insert_eq (C w) _ Hgrid)|].
    split; [intros x' y' Hxy' Hne;
            by apply (cell_at_insert_ne (C w) _ Hgrid)|].
    split; [by rewrite ?app_nil_r|].
    repeat split; try done.
    unfold setup. simpl. by rewrite !length_insert.
  - unfold m_bind at 1. unfold m_ret at 1.
    erewrite m_bind_run by (by apply edit_cell_run).
    eexists. split; [reflexivity|]. simpl.
    split; [by apply (cell_at_insert_eq (C w) _ Hgrid)|].
    split; [intros x' y' Hxy' Hne;
            by apply (cell_at_insert_ne (C w) _ Hgrid)|].
    repeat split; try done.
    unfold setup. simpl. by rewrite !length_insert.
  - exists w. split; [reflexivity|]. split; [done|]. split; [done|].
    split; [by rewrite ?app_nil_r|]. repeat split; done.
Qed.

Lemma motion_edits_cell_witness :
  is_grid (C (set_erase_flag true (set_draw_flag true ghost_world)))
    (grid (bufs (set_erase_flag true (set_draw_flag true ghost_world)))) /\
  div_scale (C (set_erase_flag true (set_draw_flag true ghost_world))) 0
    = Some 0 /\
  div_scale (C (set_erase_flag true (set_draw_flag true ghost_world))) 0
    = Some 0 /\
  in_range (C (set_erase_flag true (set_draw_flag true ghost_world))) 0 0 /\
  exists w',
    handle_event (SDL_MOUSEMOTION 0 0)
      (set_erase_flag true (set_draw_flag true ghost_world))
      = Some (Continue, w') /\
    cell_at (C ghost_world) (grid (bufs w')) 0 0 = false /\
    calls w' =
      pixel_notification 0 0 (fg_color (C ghost_world)) ++
      pixel_notification 0 0 (bg_color (C ghost_world)).
Proof.
  assert (is_grid (C (set_erase_flag true (set_draw_flag true ghost_world)))
            (grid (bufs (set_erase_flag true (set_draw_flag true ghost_world)))))
    as Hg by (unfold is_grid, INT_MAX; simpl; lia).
  assert (in_range (C (set_erase_flag true (set_draw_flag true ghost_world)))
            0 0) as Hin by (unfold in_range; simpl; lia).
  split; [exact Hg|]. split; [reflexivity|]. split; [reflexivity|].
  split; [exact Hin|].
  destruct (motion_edits_cell
              (set_erase_flag true (set_draw_flag true ghost_world))
              0 0 0 0 Hg eq_refl eq_refl Hin)
    as (w' & Hrun & Hcell & _ & Hcalls & _).
  exists w'. split; [exact Hrun|]. split; [exact Hcell|exact Hcalls].
Defined.

(* ====================================================================== *)
(** ** Clearing with the keyboard *)
(* ====================================================================== *)

Lemma flat_map_nil {A B} (f : A -> list B) (l : list A) :
  (forall a, In a l -> f a = []) -> flat_map f l = [].
Proof.
  induction l as [|a l IH]; intros Hf; simpl; [done|].
  rewrite (Hf a) by (by left). apply IH. intros b Hb. apply Hf. by right.
Qed.

Lemma grid_points_all_dead c arr :
  all_dead c arr -> grid_points c arr (Z.to_nat (width c)) = [].
Proof.
  intros Hdead. unfold grid_points, column_points.
  apply flat_map_nil. intros i Hi. apply flat_map_nil. intros j Hj.
  apply in_seq in Hi, Hj. unfold cell_point.
  rewrite Hdead; [done|]. unfold in_range. lia.
Qed.

Lemma replicate_all_dead c n :
  is_grid c (replicate n false) -> all_dead c (replicate n false).
Proof.
  intros Hgrid x y Hxy. unfold cell_at. rewrite nth_lookup.
  destruct (replicate n false !! _) as [b|] eqn:Hl; [|done].
  by apply lookup_replicate in Hl as [-> _].
Qed.

(** X14: the [c] key on a well-formed grid clears it and redraws: every
    cell is dead afterwards, and the calls made are those of a redraw that
    draws no point (set background color, clear, set foreground color,
    present, delay).  The scratch buffer, the run state and the setup are
    untouched. *)
Theorem clear_key_clears_and_redraws (w : world) :
  is_grid (C w) (grid (bufs w)) ->
  grid_size (bufs w) = width (C w) * height (C w) ->
  exists w',
    handle_event (SDL_KEYDOWN SDLK_c) w = Some (Continue, w') /\
    all_dead (C w) (grid (bufs w')) /\
    calls w' = calls w ++
      [SetRenderDrawColor (bg_rgba w); SDL_RenderClear;
       SetRenderDrawColor (fg_rgba w); SDL_RenderPresent;
       SDL_Delay (delay (C w))] /\
    next_gen (bufs w') = next_gen (bufs w) /\
    steady w w'.
Proof.
  intros Hgrid Hsize.
  assert (is_grid (C w) (replicate (length (grid (bufs w))) false)) as Hgrid'
    by (unfold is_grid in *; by rewrite length_replicate).
  pose proof (replicate_all_dead _ _ Hgrid') as Hdead.
  set (w1 := set_bufs (with_grid (bufs w)
                         (replicate (length (grid (bufs w))) false)) w).
  assert (clear_grid_cmd w = Some (tt, w1)) as Hclear.
  { unfold clear_grid_cmd, clear_grid, m_bind, m_get, m_option, m_put, id.
    rewrite (memset0_full _ (grid_size (bufs w)))
      by (rewrite Hsize; apply Hgrid).
    reflexivity. }
  unfold handle_event.
  rewrite (m_bind_run _ _ w tt w1 Hclear).
  rewrite (m_bind_run _ _ w1 tt (add_calls (screen_calls w1) w1))
    by (by apply update_screen_run).
  eexists. split; [reflexivity|].
  split; [exact Hdead|]. split.
  - unfold screen_calls. simpl. by rewrite (grid_points_all_dead _ _ Hdead).
  - split; [done|]. split; [|done].
    unfold setup. simpl. by rewrite length_replicate.
Qed.

Lemma clear_key_clears_and_redraws_witness :
  is_grid (C ghost_world) (grid (bufs ghost_world)) /\
  grid_size (bufs ghost_world) =
    width (C ghost_world) * height (C ghost_world) /\
  exists w',
    handle_event (SDL_KEYDOWN SDLK_c) ghost_world = Some (Continue, w') /\
    all_dead (C ghost_world) (grid (bufs w')) /\
    calls w' = calls ghost_world ++
      [SetRenderDrawColor (bg_rgba ghost_world); SDL_RenderClear;
       SetRenderDrawColor (fg_rgba ghost_world); SDL_RenderPresent;
       SDL_Delay (delay (C ghost_world))] /\
    next_gen (bufs w') = next_gen (bufs ghost_world) /\
    steady ghost_world w'.
Proof.
  assert (is_grid (C ghost_world) (grid (bufs ghost_world))) as Hg
    by (unfold is_grid, INT_MAX; simpl; lia).
  split; [exact Hg|]. split; [reflexivity|].
  exact (clear_key_clears_and_redraws ghost_world Hg eq_refl).
Defined.

(* ====================================================================== *)
(** ** The ghost cursor and the mouse focus *)
(* ====================================================================== *)

Lemma set_cp_set_cp a b w : set_cp a (set_cp b w) = set_cp a w.
Proof. by destruct w. Qed.

Lemma set_cp_add_calls_set_cp a e b w :
  set_cp a (add_calls e (set_cp b w)) = set_cp a (add_calls e w).
Proof. by destruct w. Qed.

(** An invocation with the focus, over a cell of the grid. *)
Lemma draw_cursor_pixel_active_run (w : world) (m : Z * Z) (x y : Z) :
  active (cp w) = true ->
  div_scale (C w) (fst m) = Some x -> div_scale (C w) (snd m) = Some y ->
  is_grid (C w) (grid (bufs w)) -> in_range (C w) x y ->
  exists emitted,
    draw_cursor_pixel m w =
      Some (tt, set_cp (mkCursor x y x y (cell_at (C w) (grid (bufs w)) x y)
                          true)
                  (add_calls emitted w)).
Proof.
  intros Hactive Hx Hy Hgrid Hin.
  unfold draw_cursor_pixel, grid_cell, when.
  unfold m_bind, m_get, m_option, m_put, m_ret, id.
  rewrite Hactive, Hx, Hy. simpl.
  rewrite (get_cell_in_range (C w) _ Hgrid x y Hin). simpl.
  destruct (cell_at (C w) (grid (bufs w)) x y) eqn:Hc; simpl;
    destruct (negb (x =? prev_x (cp w)) || negb (y =? prev_y (cp w)));
    simpl; rewrite ?draw_pixel_calls; simpl;
    rewrite ?(get_cell_in_range (C w) _ Hgrid x y Hin); simpl;
    rewrite ?Hc, ?add_calls_add_calls, ?set_cp_add_calls_set_cp,
      ?set_cp_set_cp;
    first [ eexists; reflexivity
          | exists []; by rewrite add_calls_nil ].
Qed.

(** What the event handler leaves of the cursor record: the remembered
    cell and its snapshot. *)
Lemma draw_pixel_cp x y color w u w' :
  draw_pixel x y color w = Some (u, w') -> cp w' = cp w.
Proof. rewrite draw_pixel_calls. by intros [= _ <-]. Qed.

Lemma set_grid_cell_cp x y v w u w' :
  set_grid_cell x y v w = Some (u, w') -> cp w' = cp w.
Proof.
  unfold set_grid_cell, m_bind, m_get, m_option, m_put, id.
  destruct (set_cell _ _ _ _ _) as [g|]; [|done]. by intros [= _ <-].
Qed.

Lemma edit_cell_cp x y v color w u w' :
  (set_grid_cell x y v >> draw_pixel x y color)%M w = Some (u, w') ->
  cp w' = cp w.
Proof.
  intros Hrun. apply m_bind_Some in Hrun as (? & w1 & H1 & H2).
  apply set_grid_cell_cp in H1. apply draw_pixel_cp in H2. congruence.
Qed.

Lemma clear_grid_cmd_cp w u w' :
  clear_grid_cmd w = Some (u, w') -> cp w' = cp w.
Proof.
  unfold clear_grid_cmd, m_bind, m_get, m_option, m_put, id.
  destruct (clear_grid _) as [s|]; simpl; [|done]. by intros [= _ <-].
Qed.

Lemma fill_grid_cp w u w' :
  fill_grid w = Some (u, w') -> cp w' = cp w.
Proof.
  unfold fill_grid. unfold m_bind at 1. unfold m_get at 1. unfold id.
  apply (m_for_preserves (fun v => cp v = cp w)); [|done].
  intros i v u1 v' Hv.
  apply (m_for_preserves (fun v => cp v = cp w)); [|done].
  clear. intros j v u v' Hv Hrun.
  apply m_bind_Some in Hrun as (r & v1 & Hrand & Hset).
  apply set_grid_cell_cp in Hset.
  unfold rand, m_bind, m_get, m_put, m_ret, id in Hrand.
  injection Hrand as _ <-. by rewrite Hset.
Qed.

Lemma update_screen_cp w u w' :
  update_screen w = Some (u, w') -> cp w' = cp w.
Proof.
  unfold update_screen, clear_screen, emit, m_bind, m_get, m_put, id. simpl.
  destruct (m_for _ _ _ _) as [[u1 w1]|] eqn:Hfor; [|done].
  intros [= _ <-]. simpl.
  revert Hfor. apply (m_for_preserves (fun v => cp v = cp w)); [|done].
  intros i v u2 v' Hv.
  apply (m_for_preserves (fun v => cp v = cp w)); [|done].
  clear. intros j v u v' Hv.
  unfold grid_cell, when, emit, m_bind, m_get, m_option, m_put, m_ret, id.
  destruct (rd_value _) as [[]|]; simpl; intros [= _ <-]; done.
Qed.

(** One event changes nothing of the cursor record but the focus. *)
Lemma handle_event_cursor ev w f w' :
  handle_event ev w = Some (f, w') ->
  prev_x (cp w') = prev_x (cp w) /\ prev_y (cp w') = prev_y (cp w) /\
  prev_state (cp w') = prev_state (cp w) /\
  active (cp w') = focus_step ev (active (cp w)).
Proof.
  destruct ev as [|[]|[] px py|[] px py|px py|[]|]; simpl;
    try (by intros [= <- <-]).
  - (* c *)
    intros Hrun. apply m_bind_Some in Hrun as (? & w1 & H1 & Hrun).
    apply m_bind_Some in Hrun as (? & w2 & H2 & [= <- <-]).
    apply clear_grid_cmd_cp in H1. apply update_screen_cp in H2.
    by rewrite H2, H1.
  - (* r *)
    intros Hrun. apply m_bind_Some in Hrun as (? & w1 & H1 & Hrun).
    apply m_bind_Some in Hrun as (? & w2 & H2 & [= <- <-]).
    apply fill_grid_cp in H1. apply update_screen_cp in H2.
    by rewrite H2, H1.
  - (* left button down *)
    unfold m_bind at 1. unfold m_get at 1. unfold m_bind at 1. unfold id.
    unfold m_bind at 1. unfold m_option at 1.
    destruct (div_scale _ px) as [x|]; [|done].
    unfold m_bind at 1. unfold m_option at 1.
    destruct (div_scale _ py) as [y|]; [|done].
    intros Hrun. apply m_bind_Some in Hrun as (? & w3 & Hrun & [= <- <-]).
    apply m_bind_Some in Hrun as (? & w1 & H1 & Hrun).
    apply m_bind_Some in Hrun as (? & w2 & H2 & Hrun).
    unfold m_put in Hrun. injection Hrun as _ <-.
    apply set_grid_cell_cp in H1. apply draw_pixel_cp in H2.
    simpl. by rewrite H2, H1.
  - (* right button down *)
    unfold m_bind at 1. unfold m_get at 1. unfold m_bind at 1. unfold id.
    unfold m_bind at 1. unfold m_option at 1.
    destruct (div_scale _ px) as [x|]; [|done].
    unfold m_bind at 1. unfold m_option at 1.
    destruct (div_scale _ py) as [y|]; [|done].
    intros Hrun. apply m_bind_Some in Hrun as (? & w3 & Hrun & [= <- <-]).
    apply m_bind_Some in Hrun as (? & w1 & H1 & Hrun).
    apply m_bind_Some in Hrun as (? & w2 & H2 & Hrun).
    unfold m_put in Hrun. injection Hrun as _ <-.
    apply set_grid_cell_cp in H1. apply draw_pixel_cp in H2.
    simpl. by rewrite H2, H1.
  - (* another button down *)
    unfold m_bind, m_get, m_option, m_ret, id.
    destruct (div_scale _ px) as [x|]; [|done].
    destruct (div_scale _ py) as [y|]; [|done].
    by intros [= <- <-].
  - (* motion *)
    unfold m_bind at 1. unfold m_get at 1. unfold m_bind at 1. unfold id.
    unfold m_bind at 1. unfold m_option at 1.
    destruct (div_scale _ px) as [x|]; [|done].
    unfold m_bind at 1. unfold m_option at 1.
    destruct (div_scale _ py) as [y|]; [|done].
    intros Hrun. apply m_bind_Some in Hrun as (? & w1 & H1 & Hrun).
    apply m_bind_Some in Hrun as (? & w2 & H2 & [= <- <-]).
    assert (cp w1 = cp w) as E1.
    { unfold when in H1. destruct (draw_flag w).
      - by apply edit_cell_cp in H1.
      - by injection H1 as _ <-. }
    assert (cp w2 = cp w1) as E2.
    { unfold when in H2. destruct (erase_flag w).
      - by apply edit_cell_cp in H2.
      - by injection H2 as _ <-. }
    by rewrite E2, E1.
  - (* enter *)
    unfold m_bind, m_get, m_put, m_ret, when, id.
    destruct (active (cp w)) eqn:Ha; simpl; intros [= <- <-]; simpl; done.
  - (* leave *)
    unfold m_bind, m_get, m_put, m_ret, when, id.
    destruct (active (cp w)) eqn:Ha; simpl; intros [= <- <-]; simpl; done.
Qed.

(** A batch of events changes nothing of the cursor record but the focus,
    which follows the window events up to the first quit signal. *)
Lemma handle_events_cursor pending w u w' :
  handle_events pending w = Some (u, w') ->
  prev_x (cp w') = prev_x (cp w) /\ prev_y (cp w') = prev_y (cp w) /\
  prev_state (cp w') = prev_state (cp w) /\
  active (cp w') = focus_after pending (active (cp w)).
Proof.
  revert w. induction pending as [|ev rest IH]; intros w; simpl.
  - by intros [= _ <-].
  - intros Hrun. apply m_bind_Some in Hrun as (f & w1 & Hev & Hrun).
    pose proof (handle_event_setup _ _ _ _ Hev) as [_ Hflow].
    apply handle_event_cursor in Hev as (Hx & Hy & Hs & Ha).
    destruct (quit_signal ev) eqn:Hq.
    + destruct Hflow as [-> _]. injection Hrun as _ <-.
      repeat split; try done.
      rewrite Ha. by destruct ev as [|[]| | | | |].
    + destruct Hflow as [-> _].
      destruct (IH w1 Hrun) as (Hx' & Hy' & Hs' & Ha').
      repeat split; congruence.
Qed.

(** X15: after the ghost cursor was shown over a cell, let any batch of
    events be handled that leaves the window without the mouse focus (the
    last enter or leave event polled before any quit signal is a leave).  The next
    ghost-cursor update then makes exactly one pixel notification, for that
    cell, wherever the mouse is by then: in the foreground color if the
    cell was alive when the ghost was shown, in the background color if it
    was dead.  This is the remembered snapshot, also when the batch has
    edited the cell in between.  The update keeps the cursor inactive and
    does not change the buffers. *)
Theorem ghost_erased_on_focus_loss (w : world) (m m' : Z * Z) (x y : Z)
  (pending : list event) :
  active (cp w) = true ->
  div_scale (C w) (fst m) = Some x -> div_scale (C w) (snd m) = Some y ->
  is_grid (C w) (grid (bufs w)) -> in_range (C w) x y ->
  exists w1,
    draw_cursor_pixel m w = Some (tt, w1) /\
    forall w2,
      handle_events pending w1 = Some (tt, w2) ->
      focus_after pending true = false ->
      exists w3,
        draw_cursor_pixel m' w2 = Some (tt, w3) /\
        calls w3 =
          calls w2 ++
          pixel_notification x y
            (if cell_at (C w) (grid (bufs w)) x y
             then fg_color (C w) else bg_color (C w)) /\
        active (cp w3) = false /\ bufs w3 = bufs w2.
Proof.
  intros Hactive Hx Hy Hgrid Hin.
  destruct (draw_cursor_pixel_active_run w m x y Hactive Hx Hy Hgrid Hin)
    as (emitted & Hrun).
  eexists. split; [exact Hrun|].
  intros w2 Hevents Hfocus.
  pose proof (handle_events_run _ _ _ _ Hevents) as [Hsetup _].
  apply handle_events_cursor in Hevents as (Hpx & Hpy & Hps & Ha).
  simpl in Hpx, Hpy, Hps, Ha. rewrite Hfocus in Ha.
  assert (C w2 = C w) as HC by (unfold setup in Hsetup; simpl in Hsetup; congruence).
  unfold draw_cursor_pixel, snapshot_color, m_bind, m_get, id.
  rewrite Ha. simpl. rewrite draw_pixel_calls.
  eexists. split; [reflexivity|]. simpl.
  rewrite Hpx, Hpy, Hps, HC. by rewrite Ha.
Qed.

Lemma ghost_erased_on_focus_loss_witness :
  active (cp ghost_world) = true /\
  div_scale (C ghost_world) (fst (1, 0)) = Some 1 /\
  div_scale (C ghost_world) (snd (1, 0)) = Some 0 /\
  is_grid (C ghost_world) (grid (bufs ghost_world)) /\
  in_range (C ghost_world) 1 0 /\
  exists w1 w2 w3,
    draw_cursor_pixel (1, 0) ghost_world = Some (tt, w1) /\
    handle_events
      [SDL_MOUSEBUTTONDOWN SDL_BUTTON_LEFT 1 0;
       SDL_WINDOWEVENT SDL_WINDOWEVENT_LEAVE] w1 = Some (tt, w2) /\
    draw_cursor_pixel (7, 7) w2 = Some (tt, w3) /\
    calls w3 =
      calls w2 ++ pixel_notification 1 0 (bg_color (C ghost_world)) /\
    cell_at (C ghost_world) (grid (bufs w3)) 1 0 = true.
Proof.
  assert (is_grid (C ghost_world) (grid (bufs ghost_world))) as Hg
    by (unfold is_grid, INT_MAX; simpl; lia).
  assert (in_range (C ghost_world) 1 0) as Hin
    by (unfold in_range; simpl; lia).
  split; [reflexivity|]. split; [reflexivity|]. split; [reflexivity|].
  split; [exact Hg|]. split; [exact Hin|].
  destruct (ghost_erased_on_focus_loss ghost_world (1, 0) (7, 7) 1 0
              [SDL_MOUSEBUTTONDOWN SDL_BUTTON_LEFT 1 0;
               SDL_WINDOWEVENT SDL_WINDOWEVENT_LEAVE]
              eq_refl eq_refl eq_refl Hg Hin)
    as (w1 & Hshown & Hnext).
  pose proof Hshown as Hw1. vm_compute in Hw1. injection Hw1 as <-.
  match type of Hnext with
  | forall w2, handle_events ?evs ?v = _ -> _ =>
      destruct (handle_events evs v) as [[[] w2]|] eqn:Hevents;
        [|vm_compute in Hevents; discriminate]
  end.
  destruct (Hnext w2 eq_refl eq_refl) as (w3 & Hlast & Hcalls & _ & Hbufs).
  eexists _, w2, w3. split; [exact Hshown|]. split; [exact Hevents|].
  split; [exact Hlast|]. split; [exact Hcalls|].
  rewrite Hbufs. vm_compute in Hevents. by injection Hevents as <-.
Defined.

(* ====================================================================== *)
(** ** More on startup *)
(* ====================================================================== *)

Lemma set_C_same w : set_C (C w) w = w.
Proof. by destruct w. Qed.

Lemma help_operand (operands : list string) :
  (Z.of_nat (length operands) =? 1) &&
  String.eqb (hd EmptyString operands) "help" = true <->
  operands = ["help"%string].
Proof.
  split.
  - intros H. apply andb_true_iff in H as [Hlen Heq].
    apply Z.eqb_eq in Hlen. apply String.eqb_eq in Heq.
    destruct operands as [|a [|b rest]]; simpl in *; try lia. by subst.
  - by intros ->.
Qed.

Section StartupVerdict.
Variable atoi : string -> Z.
Variable atof : string -> cfloat.
Variable strtoul16 : string -> Z.

(** Handling one option changes nothing but [C] and the trace of calls. *)
Lemma set_config_option_frame opt optarg w :
  exists c cs,
    set_config_option atoi atof strtoul16 opt optarg w =
      Some (if malformed atoi atof (opt, optarg) then Some false else None,
            add_calls cs (set_C c w)) /\
    if malformed atoi atof (opt, optarg)
    then exists msg, cs = [fprintf_stderr msg]
    else cs = [].
Proof.
  unfold set_config_option, malformed.
  repeat match goal with
    | |- context [(opt =? ?c)%char] =>
        destruct (Ascii.eqb_spec opt c) as [->|?]
    end;
    cbn -[String.append newline];
    unfold m_bind, m_get, m_put, m_ret, emit, id;
    destruct (atoi optarg <=? 0), (atoi optarg <? 0),
      (float_le0 (atof optarg));
    cbn -[String.append newline add_calls set_C];
    first
      [ eexists _, [_]; split; [reflexivity|]; eexists; reflexivity
      | eexists _, []; split; [by rewrite add_calls_nil|reflexivity]
      | exists (C w), []; split;
        [by rewrite add_calls_nil, set_C_same|reflexivity] ].
Qed.

Lemma set_C_add_calls_set_C c cs c' w :
  set_C c (add_calls cs (set_C c' w)) = add_calls cs (set_C c w).
Proof. by destruct w. Qed.

Lemma add_calls_set_C_add_calls cs c cs' w :
  add_calls cs (set_C c (add_calls cs' w)) = add_calls (cs' ++ cs) (set_C c w).
Proof. destruct w. unfold add_calls, set_C. simpl. by rewrite app_assoc. Qed.

(** The loop over the options: it is always defined, stops with false at
    the first malformed option after one message, and otherwise says
    nothing; only [C] and the trace change. *)
Lemma set_config_options_frame opts w :
  exists c cs,
    set_config_options atoi atof strtoul16 opts w =
      Some (if existsb (malformed atoi atof) opts then Some false else None,
            add_calls cs (set_C c w)) /\
    if existsb (malformed atoi atof) opts
    then exists msg, cs = [fprintf_stderr msg]
    else cs = [].
Proof.
  revert w. induction opts as [|[opt optarg] rest IH]; intros w.
  - exists (C w), []. simpl. unfold m_ret.
    by rewrite add_calls_nil, set_C_same.
  - cbn [set_config_options existsb]. unfold m_bind.
    destruct (set_config_option_frame opt optarg w) as (c & cs & -> & Hcs).
    destruct (malformed atoi atof (opt, optarg)); cbn [orb].
    + exists c, cs. by split.
    + subst cs. rewrite add_calls_nil.
      destruct (IH (set_C c w)) as (c' & cs' & -> & Hcs').
      exists c', cs'. by split.
Qed.

(** The three ways [set_config] ends, with the frame it leaves. *)
Lemma set_config_run (opts : list (ascii * string))
  (operands : list string) (w : world) :
  exists r c cs,
    set_config atoi atof strtoul16 opts operands w =
      Some (r, add_calls cs (set_C c w)) /\
    (existsb (malformed atoi atof) opts = true ->
     r = Returns false /\ exists msg, cs = [fprintf_stderr msg]) /\
    (existsb (malformed atoi atof) opts = false ->
     operands = ["help"%string] ->
     r = Exits 0 /\ cs = map printf usage) /\
    (existsb (malformed atoi atof) opts = false ->
     operands <> ["help"%string] ->
     r = Returns true /\ cs = []).
Proof.
  unfold set_config, m_bind.
  destruct (set_config_options_frame opts w) as (c & cs & -> & Hcs).
  destruct (existsb (malformed atoi atof) opts).
  - exists (Returns false), c, cs. split; [done|]. by repeat split.
  - subst cs. rewrite add_calls_nil.
    destruct (_ && _) eqn:Hb.
    + apply help_operand in Hb as ->.
      exists (Exits 0), c, (map printf usage).
      split; [reflexivity|]. by repeat split.
    + exists (Returns true), c, []. unfold m_ret. rewrite add_calls_nil.
      split; [done|]. split; [intros [=]|].
      split; [intros _ Hhelp; apply help_operand in Hhelp; congruence|].
      done.
Qed.

(** X16: [set_config] is defined on every command line and changes only
    the configuration and the trace.  It returns false exactly when some
    option is malformed, and then has printed exactly one message on the
    standard error; with no malformed option it prints the usage and exits
    with status 0 exactly when the one operand is [help], and otherwise
    returns true without printing anything. *)
Theorem set_config_verdict (opts : list (ascii * string))
  (operands : list string) (w : world) :
  exists r c cs,
    set_config atoi atof strtoul16 opts operands w =
      Some (r, add_calls cs (set_C c w)) /\
    (existsb (malformed atoi atof) opts = true ->
     r = Returns false /\ exists msg, cs = [fprintf_stderr msg]) /\
    (existsb (malformed atoi atof) opts = false ->
     operands = ["help"%string] ->
     r = Exits 0 /\ cs = map printf usage) /\
    (existsb (malformed atoi atof) opts = false ->
     operands <> ["help"%string] ->
     r = Returns true /\ cs = []).
Proof.
  exact (set_config_run opts operands w).
Qed.
End StartupVerdict.

Lemma set_config_verdict_witness :
  exists r c cs,
    set_config toy_atoi toy_atof toy_atoi
      [("w"%char, "abcd"%string); ("d"%char, ""%string)] ["help"%string]
      (initial_world quiet_env)
      = Some (r, add_calls cs (set_C c (initial_world quiet_env))) /\
    r = Exits 0 /\ cs = map printf usage /\ width c = 4 /\ delay c = 0.
Proof.
  destruct (set_config_verdict toy_atoi toy_atof toy_atoi
              [("w"%char, "abcd"%string); ("d"%char, ""%string)]
              ["help"%string] (initial_world quiet_env))
    as (r & c & cs & Hrun & _ & Hhelp & _).
  destruct (Hhelp eq_refl eq_refl) as [-> ->].
  exists (Exits 0), c, (map printf usage).
  split; [exact Hrun|]. split; [reflexivity|]. split; [reflexivity|].
  vm_compute in Hrun. injection Hrun as Hc. subst c. split; reflexivity.
Defined.

Lemma sdl_cleanup_run w :
  sdl_cleanup w = Some (tt, add_calls cleanup_calls w).
Proof.
  unfold sdl_cleanup, emit, m_bind, m_put. by rewrite !add_calls_add_calls.
Qed.

(** [sdl_init] stops at the step that fails, after one message; no step
    allocates a grid buffer. *)
Lemma sdl_init_run w :
  match sdl_fails_at (env w) with
  | None => sdl_init w = Some (true, add_calls (sdl_init_calls w) w)
  | Some _ =>
      exists cs msg,
        sdl_init w = Some (false, add_calls (cs ++ [fprintf_stderr msg]) w) /\
        forallb (fun c => negb (is_malloc c)) cs = true
  end.
Proof.
  unfold sdl_init, sdl_step_fails, emit, m_bind, m_get, m_put, m_ret, id.
  change (env (add_calls _ ?v)) with (env v).
  destruct (sdl_fails_at (env w)) as [[]|];
    cbn -[add_calls String.append newline];
    rewrite ?add_calls_add_calls;
    first [ reflexivity
          | eexists [_], _; split; reflexivity
          | eexists [_; _], _; split; reflexivity
          | eexists [_; _; _], _; split; reflexivity
          | eexists [_; _; _; _], _; split; reflexivity
          | eexists [_; _; _; _; _], _; split; reflexivity ].
Qed.

Section MainRuns.
Variable atoi : string -> Z.
Variable atof : string -> cfloat.
Variable strtoul16 : string -> Z.

(** X17: when no option is malformed and the one operand is [help], [main]
    prints the usage on the standard output and exits with status 0,
    having made no SDL call and allocated nothing. *)
Theorem help_prints_usage_and_exits (opts : list (ascii * string))
  (frames : list frame) (e : environment) :
  existsb (malformed atoi atof) opts = false ->
  exists w',
    main atoi atof strtoul16 opts ["help"%string] frames (initial_world e)
      = Some (Exited 0, w') /\
    calls w' = map printf usage /\
    bufs w' = bufs (initial_world e).
Proof.
  intros Hopts.
  destruct (set_config_run atoi atof strtoul16 opts ["help"%string]
              (initial_world e)) as (r & c & cs & Hrun & _ & Hhelp & _).
  destruct (Hhelp Hopts eq_refl) as [-> ->].
  unfold main. rewrite (m_bind_run _ _ _ _ _ Hrun).
  eexists. split; [reflexivity|]. by split.
Qed.

End MainRuns.

Lemma help_prints_usage_and_exits_witness :
  existsb (malformed toy_atoi toy_atof) [("w"%char, "abcd"%string)] = false /\
  exists w',
    main toy_atoi toy_atof toy_atoi [("w"%char, "abcd"%string)]
      ["help"%string] [] (initial_world quiet_env)
      = Some (Exited 0, w') /\
    calls w' = map printf usage /\
    bufs w' = bufs (initial_world quiet_env).
Proof.
  split; [reflexivity|].
  exact (help_prints_usage_and_exits toy_atoi toy_atof toy_atoi
           [("w"%char, "abcd"%string)] [] quiet_env eq_refl).
Defined.


Section MainEnds.
Variable atoi : string -> Z.
Variable atof : string -> cfloat.
Variable strtoul16 : string -> Z.

(** X19: when the configuration is accepted and SDL initializes, a run of
    [main] that returns does so with [EXIT_SUCCESS], in the run state
    [QUIT], and the last calls it made release the SDL resources; while the
    run is still going the state is [RUNNING] or [PAUSED]. *)
Theorem main_exits_after_quit (opts : list (ascii * string))
  (operands : list string) (frames : list frame) (e : environment)
  (t : termination) (w' : world) :
  existsb (malformed atoi atof) opts = false ->
  operands <> ["help"%string] ->
  sdl_fails_at e = None ->
  main atoi atof strtoul16 opts operands frames (initial_world e)
    = Some (t, w') ->
  match t with
  | Exited status =>
      status = EXIT_SUCCESS /\ state w' = QUIT /\
      exists before, calls w' = before ++ cleanup_calls
  | Still_running => state w' <> QUIT
  end.
Proof.
  intros Hopts Hhelp Hsdl Hmain.
  destruct (set_config_run atoi atof strtoul16 opts operands
              (initial_world e)) as (r & c & cs & Hrun & _ & _ & Htrue).
  destruct (Htrue Hopts Hhelp) as [-> ->].
  rewrite add_calls_nil in Hrun.
  unfold main in Hmain. rewrite (m_bind_run _ _ _ _ _ Hrun) in Hmain.
  pose proof (sdl_init_run (set_C c (initial_world e))) as Hinit.
  change (env (set_C c (initial_world e))) with e in Hinit.
  rewrite Hsdl in Hinit.
  rewrite (m_bind_run _ _ _ _ _ Hinit) in Hmain.
  change (negb true) with false in Hmain. cbv beta iota in Hmain.
  apply m_bind_Some in Hmain as (? & w1 & _ & Hmain).
  apply m_bind_Some in Hmain as (? & w2 & _ & Hmain).
  apply m_bind_Some in Hmain as (? & w3 & _ & Hmain).
  apply m_bind_Some in Hmain as (? & w4 & _ & Hmain).
  apply m_bind_Some in Hmain as (ending & w5 & Hloop & Hmain).
  apply main_loop_run in Hloop as [_ [[-> Hq]|[-> Hq]]].
  - rewrite (m_bind_run _ _ _ _ _ (sdl_cleanup_run _)) in Hmain.
    injection Hmain as <- <-.
    split; [done|]. split; [done|]. by exists (calls w5).
  - by injection Hmain as <- <-.
Qed.
End MainEnds.

Lemma main_exits_after_quit_witness :
  existsb (malformed toy_atoi toy_atof)
    [("w"%char, "a"%string); ("h"%char, "a"%string)] = false /\
  ([] : list string) <> ["help"%string] /\
  sdl_fails_at quiet_env = None /\
  exists t w',
    main toy_atoi toy_atof toy_atoi
      [("w"%char, "a"%string); ("h"%char, "a"%string)] []
      [mkFrame [SDL_QUIT] (0, 0)] (initial_world quiet_env) = Some (t, w') /\
    match t with
    | Exited status =>
        status = EXIT_SUCCESS /\ state w' = QUIT /\
        exists before, calls w' = before ++ cleanup_calls
    | Still_running => state w' <> QUIT
    end.
Proof.
  assert (([] : list string) <> ["help"%string]) as Hne by discriminate.
  split; [reflexivity|]. split; [exact Hne|]. split; [reflexivity|].
  destruct (main toy_atoi toy_atof toy_atoi
              [("w"%char, "a"%string); ("h"%char, "a"%string)] []
              [mkFrame [SDL_QUIT] (0, 0)] (initial_world quiet_env))
    as [[t w']|] eqn:Hrun.
  - exists t, w'. split; [reflexivity|].
    exact (main_exits_after_quit toy_atoi toy_atof toy_atoi
             [("w"%char, "a"%string); ("h"%char, "a"%string)] []
             [mkFrame [SDL_QUIT] (0, 0)] quiet_env
             t w' eq_refl Hne eq_refl Hrun).
  - vm_compute in Hrun. discriminate.
Defined.

(* ====================================================================== *)
(** ** Scales below one *)
(* ====================================================================== *)




(* ====================================================================== *)
(** ** Grids too large for [int] *)
(* ====================================================================== *)

Lemma get_cell_nil c x y : get_cell c [] x y = None.
Proof. unfold get_cell, buf_read. by destruct (_ <? 0). Qed.

Lemma is_alive_nil c x y : is_alive c [] x y = None.
Proof.
  unfold is_alive, count_if, and_then. rewrite !get_cell_nil.
  repeat match goal with
    | |- context [if ?g then None else _] => destruct g
    end; reflexivity.
Qed.

Lemma for_steps_first_fails {S : Type} n i hi body (s : S) :
  i < hi -> body i s = None ->
  for_steps (Datatypes.S n) i hi body s = None.
Proof.
  intros Hi Hbody. simpl. destruct (Z.ltb_spec i hi); [|lia].
  by rewrite Hbody.
Qed.

Lemma update_grid_empty c s :
  1 <= width c -> 1 <= height c -> grid s = [] -> update_grid c s = None.
Proof.
  intros Hw Hh Hgrid. unfold update_grid, for_loop.
  destruct (Z.to_nat (width c - 0)) as [|n] eqn:Hn; [lia|].
  rewrite for_steps_first_fails; [done|lia|].
  destruct (Z.to_nat (height c - 0)) as [|k] eqn:Hk; [lia|].
  apply for_steps_first_fails; [lia|].
  unfold update_cell. by rewrite Hgrid, is_alive_nil.
Qed.

Lemma init_grids_empty w :
  alloc_size (C w) = 0 ->
  init_grids w =
    Some (tt, set_bufs {| grid := []; next_gen := []; grid_size := 0 |}
                (add_calls [malloc 0; malloc 0] w)).
Proof.
  intros Hsize.
  unfold init_grids, malloc_block, emit, m_bind, m_get, m_put, m_ret,
    m_option, id.
  change (C (add_calls _ ?v)) with (C v).
  change (env (add_calls _ ?v)) with (env v).
  rewrite Hsize.
  destruct (malloc_succeeds (env w)); simpl;
    by rewrite add_calls_add_calls.
Qed.

Lemma main_loop_empty_buffers w m frames :
  state w = RUNNING -> grid (bufs w) = [] ->
  1 <= width (C w) -> 1 <= height (C w) ->
  main_loop (mkFrame [] m :: frames) w = None.
Proof.
  intros Hstate Hgrid Hw Hh. rewrite main_loop_cons, Hstate. simpl.
  unfold m_bind, m_ret, m_get, id. rewrite Hstate. simpl.
  unfold update_grid_cmd, m_bind, m_get, m_option, id.
  by rewrite (update_grid_empty _ _ Hw Hh Hgrid).
Qed.

(** X21: [set_config] puts no upper bound on the dimensions.  When it
    accepts a width and a height whose product wraps to 0 in [int]
    arithmetic, [main] allocates buffers without cells, and the first
    generation step (here: a first frame without events) reads outside of
    them: the run is undefined. *)
Theorem oversized_grid_is_undefined (atoi : string -> Z)
  (atof : string -> cfloat) (strtoul16 : string -> Z)
  (opts : list (ascii * string)) (operands : list string)
  (frames : list frame) (m : Z * Z) (e : environment) (c : config)
  (cs : list call) :
  set_config atoi atof strtoul16 opts operands (initial_world e)
    = Some (Returns true, add_calls cs (set_C c (initial_world e))) ->
  1 <= width c -> 1 <= height c -> alloc_size c = 0 ->
  sdl_fails_at e = None ->
  main atoi atof strtoul16 opts operands (mkFrame [] m :: frames)
    (initial_world e) = None.
Proof.
  intros Hrun Hw Hh Hsize Hsdl.
  unfold main. rewrite (m_bind_run _ _ _ _ _ Hrun).
  pose proof (sdl_init_run (add_calls cs (set_C c (initial_world e))))
    as Hinit.
  change (env (add_calls cs (set_C c (initial_world e)))) with e in Hinit.
  rewrite Hsdl in Hinit.
  rewrite (m_bind_run _ _ _ _ _ Hinit).
  change (negb true) with false. cbv beta iota.
  unfold emit at 1. unfold m_bind at 1. unfold m_put at 1.
  match goal with
  | |- context [m_bind init_grids _ ?v] =>
      rewrite (m_bind_run _ _ v _ _ (init_grids_empty v Hsize))
  end.
  unfold m_bind at 1. unfold m_get at 1. unfold id.
  unfold m_bind at 1. unfold m_put at 1.
  unfold m_bind at 1.
  rewrite main_loop_empty_buffers; done.
Qed.

Lemma oversized_grid_is_undefined_witness :
  exists c cs,
    set_config (constant_atoi 65536) toy_atof toy_atoi
      [("w"%char, "65536"%string); ("h"%char, "65536"%string)] []
      (initial_world quiet_env)
      = Some (Returns true, add_calls cs (set_C c (initial_world quiet_env))) /\
    1 <= width c /\ 1 <= height c /\ alloc_size c = 0 /\
    sdl_fails_at quiet_env = None /\
    main (constant_atoi 65536) toy_atof toy_atoi
      [("w"%char, "65536"%string); ("h"%char, "65536"%string)] []
      [mkFrame [] (0, 0)] (initial_world quiet_env) = None.
Proof.
  exists (config_of_size 65536 65536), [].
  assert (set_config (constant_atoi 65536) toy_atof toy_atoi
            [("w"%char, "65536"%string); ("h"%char, "65536"%string)] []
            (initial_world quiet_env)
          = Some (Returns true,
                  add_calls [] (set_C (config_of_size 65536 65536)
                                  (initial_world quiet_env)))) as Hrun
    by reflexivity.
  assert (1 <= width (config_of_size 65536 65536)) as Hw by (simpl; lia).
  assert (1 <= height (config_of_size 65536 65536)) as Hh by (simpl; lia).
  split; [exact Hrun|]. split; [exact Hw|]. split; [exact Hh|].
  split; [reflexivity|]. split; [reflexivity|].
  exact (oversized_grid_is_undefined (constant_atoi 65536) toy_atof toy_atoi
           [("w"%char, "65536"%string); ("h"%char, "65536"%string)] []
           [] (0, 0) quiet_env (config_of_size 65536 65536) []
           Hrun Hw Hh eq_refl eq_refl).
Defined.

(* ====================================================================== *)
(** ** A drag *)
(* ====================================================================== *)

Lemma cell_under_Some c p x y :
  cell_under c p = Some (x, y) ->
  div_scale c (fst p) = Some x /\ div_scale c (snd p) = Some y.
Proof.
  unfold cell_under.
  destruct (div_scale c (fst p)), (div_scale c (snd p)); try done.
  by intros [= -> ->].
Qed.

(** Painting one more cell. *)
Lemma painted_step (w v : world) (ps : list (Z * Z)) (p : Z * Z) (x y : Z) :
  painted w ps v -> cell_under (C w) p = Some (x, y) -> in_range (C w) x y ->
  painted w (ps ++ [p])
    (add_calls (pixel_notification x y (fg_color (C v)))
       (set_bufs (with_grid (bufs v)
                    (<[Z.to_nat (x * height (C v) + y) := true]>
                       (grid (bufs v)))) v)).
Proof.
  intros ([Hsetup Hstate] & Hgrid & Hng & Herase & Hcalls & Hcells) Hp Hxy.
  assert (C v = C w) as HC by (unfold setup in Hsetup; congruence).
  rewrite HC. split; [|split; [|split; [|split; [|split]]]].
  - split; [|done]. unfold setup in *. simpl. rewrite length_insert.
    exact Hsetup.
  - by apply is_grid_insert.
  - done.
  - done.
  - simpl. unfold trail_calls in *. rewrite Hcalls, flat_map_app. simpl.
    by rewrite Hp, app_nil_r, app_assoc.
  - intros a b Hab. simpl. rewrite existsb_app. simpl.
    unfold over_cell at 2. rewrite Hp, orb_false_r.
    destruct (decide ((a, b) = (x, y))) as [[= -> ->]|Hne].
    + rewrite (cell_at_insert_eq (C w) _ Hgrid x y _ Hxy).
      rewrite !Z.eqb_refl. simpl. by rewrite !orb_true_r.
    + rewrite (cell_at_insert_ne (C w) _ Hgrid x y a b _ Hxy Hab Hne).
      rewrite (Hcells a b Hab).
      replace ((x =? a) && (y =? b)) with false; [by rewrite orb_false_r|].
      symmetry. apply andb_false_iff.
      destruct (Z.eqb_spec x a) as [->|?]; [|by left].
      destruct (Z.eqb_spec y b) as [->|?]; [done|by right].
Qed.

(** The motions of a drag with the left button. *)
Lemma drag_motions (w : world) (ps qs : list (Z * Z)) (rest : list event)
  (v : world) :
  painted w ps v -> draw_flag v = true -> erase_flag w = false ->
  Forall (over_grid (C w)) qs ->
  exists v',
    handle_events (map (fun q => SDL_MOUSEMOTION (fst q) (snd q)) qs ++ rest) v
      = handle_events rest v' /\
    painted w (ps ++ qs) v' /\ draw_flag v' = true.
Proof.
  revert ps v. induction qs as [|q qs IH]; intros ps v Hv Hdraw Herase Hqs.
  - exists v. rewrite app_nil_r. by split.
  - apply Forall_cons in Hqs as [(x & y & Hq & Hxy) Hqs].
    pose proof Hv as ([Hsetup _] & Hgrid & _ & Herase' & _).
    assert (C v = C w) as HC by (unfold setup in Hsetup; congruence).
    apply cell_under_Some in Hq as [Hx Hy]. rewrite <- HC in Hx, Hy, Hgrid, Hxy.
    assert (handle_event (SDL_MOUSEMOTION (fst q) (snd q)) v =
            Some (Continue,
                  add_calls (pixel_notification x y (fg_color (C v)))
                    (set_bufs (with_grid (bufs v)
                       (<[Z.to_nat (x * height (C v) + y) := true]>
                          (grid (bufs v)))) v))) as Hev.
    { rewrite (handle_motion_eq v _ _ x y Hx Hy).
      rewrite Hdraw, Herase', Herase. unfold when.
      erewrite m_bind_run by (by apply edit_cell_run). reflexivity. }
    destruct (IH (ps ++ [q]) _
                (painted_step w v ps q x y Hv
                   ltac:(unfold cell_under; rewrite <- HC, Hx, Hy; done)
                   ltac:(by rewrite <- HC))
                Hdraw Herase Hqs)
      as (v' & Hrun & Hv' & Hdraw').
    exists v'. split; [|split; [by rewrite <- app_assoc in Hv'|done]].
    cbn [map app handle_events]. by rewrite (m_bind_run _ _ _ _ _ Hev).
Qed.

(** X22: a drag with the left button paints exactly the cells it visits.
    Starting with both flags down on a well-formed grid, a press at [p], the
    motions [qs] and the release, all over the grid, are handled in one
    batch; afterwards a cell is alive if and only if it was alive before or
    one of the pixels lay over it, one foreground notification was emitted
    per pixel in order, both flags are down again, and the scratch buffer,
    the run state and the setup are untouched. *)
Theorem left_drag_paints_trail (w : world) (p release : Z * Z)
  (qs : list (Z * Z)) :
  is_grid (C w) (grid (bufs w)) ->
  draw_flag w = false -> erase_flag w = false ->
  Forall (over_grid (C w)) (p :: qs) ->
  exists w',
    handle_events
      (SDL_MOUSEBUTTONDOWN SDL_BUTTON_LEFT (fst p) (snd p) ::
       map (fun q => SDL_MOUSEMOTION (fst q) (snd q)) qs ++
       [SDL_MOUSEBUTTONUP SDL_BUTTON_LEFT (fst release) (snd release)]) w
      = Some (tt, w') /\
    (forall x y, in_range (C w) x y ->
       cell_at (C w) (grid (bufs w')) x y =
       cell_at (C w) (grid (bufs w)) x y ||
       existsb (over_cell (C w) x y) (p :: qs)) /\
    calls w' = calls w ++ trail_calls (C w) (p :: qs) /\
    draw_flag w' = false /\ erase_flag w' = false /\
    next_gen (bufs w') = next_gen (bufs w) /\ steady w w'.
Proof.
  intros Hgrid Hdraw Herase Hall.
  apply Forall_cons in Hall as [(x & y & Hp & Hxy) Hqs].
  pose proof (cell_under_Some _ _ _ _ Hp) as [Hx Hy].
  assert (painted w [] w) as Hstart.
  { split; [apply steady_refl|]. split; [done|]. split; [done|].
    split; [done|]. split; [by rewrite app_nil_r|].
    intros a b _. by rewrite orb_false_r. }
  pose proof (painted_step w w [] p x y Hstart Hp Hxy) as Hpress.
  set (w1 := add_calls (pixel_notification x y (fg_color (C w)))
               (set_bufs (with_grid (bufs w)
                  (<[Z.to_nat (x * height (C w) + y) := true]>
                     (grid (bufs w)))) w)) in *.
  assert (painted w [p] (set_draw_flag true w1)) as Hpress'.
  { destruct Hpress as ([? ?] & ? & ? & ? & ? & ?).
    split; [split; assumption|]. repeat (split; [assumption|]). assumption. }
  destruct (drag_motions w [p] qs
              [SDL_MOUSEBUTTONUP SDL_BUTTON_LEFT (fst release) (snd release)]
              (set_draw_flag true w1) Hpress' eq_refl Herase Hqs)
    as (v & Hrun & Hv & Hdraw').
  exists (set_draw_flag false v). split.
  - cbn [handle_events].
    rewrite (m_bind_run _ _ w Continue (set_draw_flag true w1)).
    + rewrite Hrun. reflexivity.
    + rewrite (handle_button_down_eq w _ _ _ x y Hx Hy).
      erewrite m_bind_run; [reflexivity|].
      erewrite m_bind_run by (by apply edit_cell_run). reflexivity.
  - destruct Hv as ([Hsetup Hstate] & _ & Hng & Herase' & Hcalls & Hcells).
    split; [exact Hcells|]. split; [exact Hcalls|].
    split; [done|]. split; [simpl; congruence|]. split; [done|].
    by split.
Qed.

Lemma left_drag_paints_trail_witness :
  is_grid (C (set_state RUNNING ghost_world))
    (grid (bufs (set_state RUNNING ghost_world))) /\
  draw_flag (set_state RUNNING ghost_world) = false /\
  erase_flag (set_state RUNNING ghost_world) = false /\
  Forall (over_grid (C (set_state RUNNING ghost_world))) [(1, 0); (0, 0)] /\
  exists w',
    handle_events
      [SDL_MOUSEBUTTONDOWN SDL_BUTTON_LEFT 1 0; SDL_MOUSEMOTION 0 0;
       SDL_MOUSEBUTTONUP SDL_BUTTON_LEFT 5 5]
      (set_state RUNNING ghost_world) = Some (tt, w') /\
    cell_at (C ghost_world) (grid (bufs w')) 1 0 = true /\
    draw_flag w' = false.
Proof.
  assert (is_grid (C (set_state RUNNING ghost_world))
            (grid (bufs (set_state RUNNING ghost_world)))) as Hg
    by (unfold is_grid, INT_MAX; simpl; lia).
  assert (Forall (over_grid (C (set_state RUNNING ghost_world)))
            [(1, 0); (0, 0)]) as Hall.
  { repeat constructor.
    - exists 1, 0. split; [reflexivity|]. unfold in_range; simpl; lia.
    - exists 0, 0. split; [reflexivity|]. unfold in_range; simpl; lia. }
  split; [exact Hg|]. split; [reflexivity|]. split; [reflexivity|].
  split; [exact Hall|].
  destruct (left_drag_paints_trail (set_state RUNNING ghost_world)
              (1, 0) (5, 5) [(0, 0)] Hg eq_refl eq_refl Hall)
    as (w' & Hrun & Hcells & _ & Hflag & _).
  exists w'. split; [exact Hrun|]. split; [|exact Hflag].
  change (C ghost_world) with (C (set_state RUNNING ghost_world)).
  rewrite (Hcells 1 0); [reflexivity|]. unfold in_range; simpl; lia.
Defined.
